(** * Role-based access control and item lifecycle of the offers service

    A shallow embedding of the Express/Mongoose backend
    (middleware/auth.js, middleware/upload.js, models/Item.js, models/User.js,
    routes/items.js, routes/users.js, routes/auth.js) and of the two frontend
    permission helpers (utils/permissions.js and the TypeScript utils/helpers),
    followed by the properties the specification states about them.

    Conventions of the embedding:
    - a JavaScript string is a [string]; [undefined] is [None];
    - a [Date] is its time value, an integer number of milliseconds since the
      epoch ([Z], at most 8.64e15 in absolute value); an invalid date (NaN) is
      [None] where the code can meet one;
    - a number that the code computes by a subtraction or a division is a
      double: the exact result rounded to the nearest one;
    - a Mongo collection is a [gmap] from the hexadecimal rendering of the
      document's ObjectId (24 lower-case digits) to the document; a string
      given where an id is expected is cast first;
    - an object literal used as a Mongo filter is the [gmap] obtained by
      defining its properties in source order;
    - a handler is a function from the environment, the stores and the request
      to the new stores and the HTTP response; a middleware either passes
      control on or answers;
    - the stores always answer: the failures of the database and of the file
      system, which the handlers turn into a 500, are not part of the model,
      except the errors that Mongoose itself throws on a value it cannot cast
      or that fails a validator;
    - [req.body] is the body as the validators and the handler read it. *)

From Stdlib Require Import ZArith List String Ascii Bool Lia.
From stdpp Require Import base option list gmap strings pretty.
Import ListNotations.

Local Open Scope string_scope.
Local Open Scope Z_scope.
(* [++] stays the append of lists; strings are appended with [+:+]. *)
Disable Notation "_ ++ _" : string_scope.

(** ** HTTP plumbing *)

(** What [res.status(code).json({success, message, ...})] sends: the status,
    the message, the [error] and [stack] properties that the auth
    middleware's [sendErrorResponse] adds in development mode, and the
    [errors] array of a failed validation.  The [data] of a successful answer
    is not kept. *)
Record response := mkResponse {
  status : Z;
  message : string;
  error : option string;
  stack : option string;
  errors : list string
}.

(** An error object that reaches a [catch], as far as the handlers read it:
    its [message] and its [stack]. *)
Record Thrown := mkThrown {
  thrown_message : string;
  thrown_stack : string
}.

(** A middleware either calls [next()] or answers the request. *)
Inductive mw (A : Type) : Type :=
| Next (a : A)
| Respond (r : response).
Arguments Next {A} a.
Arguments Respond {A} r.

#[export] Instance mw_ret : MRet mw := fun A a => Next a.
#[export] Instance mw_bind : MBind mw := fun A B k m =>
  match m with
  | Next a => k a
  | Respond r => Respond r
  end.
#[export] Instance mw_fmap : FMap mw := fun A B f m =>
  match m with
  | Next a => Next (f a)
  | Respond r => Respond r
  end.

Definition passes {A} (m : mw A) : bool :=
  match m with Next _ => true | Respond _ => false end.

(** The error kinds of the specification, as the HTTP status codes carry
    them: 400 bad request, 401, 403, 404, 409 and the 5xx family. *)
Inductive error_kind :=
| ValidationFailed | Unauthenticated | Forbidden | NotFound | Conflict | Internal.

Definition kind_of_status (s : Z) : option error_kind :=
  if s =? 400 then Some ValidationFailed
  else if s =? 401 then Some Unauthenticated
  else if s =? 403 then Some Forbidden
  else if s =? 404 then Some NotFound
  else if s =? 409 then Some Conflict
  else if 500 <=? s then Some Internal
  else None.

(** ** Objects *)

(** An object literal [{k1: v1, ..., kn: vn}]: the properties are defined
    from left to right, and a key written twice keeps its last value. *)
Definition object_literal {V} (props : list (string * V)) : gmap string V :=
  foldl (fun o kv => <[kv.1 := kv.2]> o) ∅ props.

(** ** Roles and capabilities *)

(** The three role strings of the User schema's [enum]. *)
Inductive Role := RUser | RAdmin | RSuperAdmin.

Definition role_name (r : Role) : string :=
  match r with
  | RUser => "user"
  | RAdmin => "admin"
  | RSuperAdmin => "super_admin"
  end.

Inductive Capability :=
| CapRead | CapCreate | CapUpdate | CapDelete | CapManageUsers.

(** The role/capability table of the specification (and of the README). *)
Definition authorize_table (r : Role) (c : Capability) : bool :=
  match r, c with
  | RUser, CapRead => true
  | RUser, _ => false
  | RAdmin, (CapRead | CapCreate | CapUpdate) => true
  | RAdmin, _ => false
  | RSuperAdmin, _ => true
  end.

(** ** models/User.js *)

Record User := mkUser {
  _id : string;
  name : string;
  email : string;
  password : string;
  role : string;
  isActive : bool;
  createdAt : Z;
  updatedAt : Z
}.

(** [userSchema.methods.hasPermission], array form. *)
Definition User_hasPermission (u : User) (requiredRoles : list string) : bool :=
  bool_decide (role u ∈ requiredRoles).

Definition User_canManageUsers (u : User) : bool :=
  bool_decide (role u = "super_admin").

Definition User_canPerformCRUD (u : User) : bool :=
  bool_decide (role u ∈ ["admin"; "super_admin"]).

Definition User_isReadOnly (u : User) : bool :=
  bool_decide (role u = "user").

(** A document read with [select('-password')]. *)
Definition without_password (u : User) : User :=
  mkUser (_id u) (name u) (email u) "" (role u) (isActive u) (createdAt u) (updatedAt u).

Definition set_role (r : string) (u : User) : User :=
  mkUser (_id u) (name u) (email u) (password u) r (isActive u) (createdAt u) (updatedAt u).

Definition set_isActive (b : bool) (u : User) : User :=
  mkUser (_id u) (name u) (email u) (password u) (role u) b (createdAt u) (updatedAt u).

(** The second [pre('save')] hook: [this.updatedAt = Date.now()]. *)
Definition touch (t : Z) (u : User) : User :=
  mkUser (_id u) (name u) (email u) (password u) (role u) (isActive u) (createdAt u) t.

#[export] Instance User_eq_dec : EqDecision User.
Proof. solve_decision. Defined.

(** ** frontend utils/permissions.js *)

Module Permissions.

Definition capability_key (c : Capability) : string :=
  match c with
  | CapRead => "read"
  | CapCreate => "create"
  | CapUpdate => "update"
  | CapDelete => "delete"
  | CapManageUsers => "manageUsers"
  end.

Definition PERMISSIONS : gmap string (gmap string bool) :=
  object_literal [
    ("user", object_literal [("read", true); ("create", false); ("update", false);
                             ("delete", false); ("manageUsers", false)]);
    ("admin", object_literal [("read", true); ("create", true); ("update", true);
                              ("delete", false); ("manageUsers", false)]);
    ("super_admin", object_literal [("read", true); ("create", true); ("update", true);
                                    ("delete", true); ("manageUsers", true)])
  ].

(** [hasPermissions(role, requiredPermissions)]; a missing property is
    [undefined], hence falsy.  Only the properties written in the literal are
    looked up: the names inherited from [Object.prototype] are not role or
    capability names. *)
Definition hasPermissions (role : option string)
    (requiredPermissions : option (list string)) : bool :=
  match role, requiredPermissions with
  | Some r, Some ps =>
      if bool_decide (r = "") then false
      else match PERMISSIONS !! r with
           | None => false
           | Some rolePermissions =>
               forallb (fun permission => default false (rolePermissions !! permission)) ps
           end
  | _, _ => false
  end.

Definition canPerformCRUD (role : option string) : bool :=
  hasPermissions role (Some ["create"; "update"; "delete"]).

Definition canManageUsers (role : option string) : bool :=
  hasPermissions role (Some ["manageUsers"]).

Definition isReadOnly (role : option string) : bool :=
  bool_decide (role = Some "user").

Definition getRolePermissions (role : option string) : gmap string bool :=
  default (default ∅ (PERMISSIONS !! "user")) (role ≫= (PERMISSIONS !!.)).

End Permissions.

(** ** frontend TypeScript helpers: getRolePermissions / hasPermission *)

Module Helpers.

Record RolePermissions := mkRolePermissions {
  canCreate : bool;
  canRead : bool;
  canUpdate : bool;
  canDelete : bool;
  canManageUsers : bool
}.

Definition getRolePermissions (role : string) : RolePermissions :=
  if bool_decide (role = "super_admin") then
    mkRolePermissions true true true true true
  else if bool_decide (role = "admin") then
    mkRolePermissions true true true true false
  else
    mkRolePermissions false true false false false.

(** [keyof RolePermissions] *)
Definition permission_key (c : Capability) : RolePermissions -> bool :=
  match c with
  | CapRead => canRead
  | CapCreate => canCreate
  | CapUpdate => canUpdate
  | CapDelete => canDelete
  | CapManageUsers => canManageUsers
  end.

Definition hasPermission (role : string) (permission : RolePermissions -> bool) : bool :=
  permission (getRolePermissions role).

End Helpers.

(** ** models/Item.js *)

Record Item := mkItem {
  item_id : string;
  image : string;
  dateRange_start : Z;
  dateRange_end : Z;
  note : string;
  createdBy : string;
  updatedBy : option string;
  item_isActive : bool;
  item_createdAt : Z;
  item_updatedAt : Z
}.

(** [itemSchema.methods.canEdit] and [itemSchema.methods.canDelete]. *)
Definition Item_canEdit (i : Item) (u : User) : bool :=
  bool_decide (role u ∈ ["super_admin"; "admin"]).

Definition Item_canDelete (i : Item) (u : User) : bool :=
  bool_decide (role u ∈ ["super_admin"; "admin"]).

#[export] Instance Item_eq_dec : EqDecision Item.
Proof. solve_decision. Defined.

(** The update document that [PUT /api/items/:id] builds; a date that failed
    to parse is [None]. *)
Record ItemUpdate := mkItemUpdate {
  upd_updatedBy : string;
  upd_dateRange : option (option Z * option Z);
  upd_note : option string;
  upd_image : option string
}.

Definition soft_delete (i : Item) : Item :=
  mkItem (item_id i) (image i) (dateRange_start i) (dateRange_end i) (note i)
         (createdBy i) (updatedBy i) false (item_createdAt i) (item_updatedAt i).

Definition soft_delete_by (who : string) (i : Item) : Item :=
  mkItem (item_id i) (image i) (dateRange_start i) (dateRange_end i) (note i)
         (createdBy i) (Some who) false (item_createdAt i) (item_updatedAt i).

(** [$set] of the update document on a stored item; [None] when a date does
    not cast. *)
Definition apply_update (u : ItemUpdate) (i : Item) : option Item :=
  match upd_dateRange u with
  | Some (None, _) | Some (_, None) => None
  | Some (Some s, Some e) =>
      Some (mkItem (item_id i) (default (image i) (upd_image u)) s e
                   (default (note i) (upd_note u)) (createdBy i)
                   (Some (upd_updatedBy u)) (item_isActive i)
                   (item_createdAt i) (item_updatedAt i))
  | None =>
      Some (mkItem (item_id i) (default (image i) (upd_image u))
                   (dateRange_start i) (dateRange_end i)
                   (default (note i) (upd_note u)) (createdBy i)
                   (Some (upd_updatedBy u)) (item_isActive i)
                   (item_createdAt i) (item_updatedAt i))
  end.

(** The validator of [dateRange.end],
    [function(value) { return value > this.dateRange.start; }].
    [this_dateRange] is [this.dateRange]: the range of the document when a
    document is validated, and nothing when the validator runs on an update,
    where [this] is the query; reading [start] from it then throws, which is
    [None]. *)
Definition end_validator (this_dateRange : option (Z * Z)) (value : Z) : option bool :=
  match this_dateRange with
  | Some (start, _) => Some (start <? value)
  | None => None
  end.

(** The schema's document validators, as [Item.create] runs them: required
    paths, the note's [maxlength], and the [end] validator, with [this] the
    document. *)
Definition Item_validate (i : Item) : bool :=
  negb (bool_decide (image i = "")) && negb (bool_decide (note i = ""))
  && (String.length (note i) <=? 1000)%nat
  && negb (bool_decide (createdBy i = ""))
  && default false (end_validator (Some (dateRange_start i, dateRange_end i))
                                  (dateRange_end i)).

(** One day in milliseconds, [1000 * 60 * 60 * 24]. *)
Definition msPerDay : Z := 1000 * 60 * 60 * 24.

(** The quotient [n / d], for [n >= 0] and [d > 0], rounded to the nearest
    integer, a tie going to the even one. *)
Definition round_half_even (n d : Z) : Z :=
  let q := n / d in
  let r := n mod d in
  if (d <? 2 * r) || ((d =? 2 * r) && Z.odd q) then q + 1 else q.

(** The double nearest to [a / b], for integers [a >= 0] and [b > 0], as the
    pair [(m, e)] that stands for [m * 2^e]: the exponent is chosen so that
    the significand has 53 bits, and the significand is rounded to the
    nearest integer, ties to even.  (The quotients of this program are far
    from the overflow and the subnormal range, which are left out.) *)
Definition nearest_double (a b : Z) : Z * Z :=
  if a =? 0 then (0, 0)
  else
    let k := Z.log2 a - Z.log2 b in
    (* the integer part of the binary logarithm of [a / b] is [k] or [k - 1] *)
    let E := if b * 2 ^ Z.max 0 k <=? a * 2 ^ Z.max 0 (- k) then k else k - 1 in
    let e := E - 52 in
    (round_half_even (a * 2 ^ Z.max 0 (- e)) (b * 2 ^ Z.max 0 e), e).

(** The number that holds the result of an integer computation whose exact
    value is [z >= 0]: [z] itself below 2^53, the nearest double (still an
    integer) from there on. *)
Definition Number_of_Z (z : Z) : Z :=
  if z <? 2 ^ 53 then z
  else let '(m, e) := nearest_double z 1 in m * 2 ^ e.

(** [Math.ceil] of a double [m * 2^e]. *)
Definition Math_ceil (x : Z * Z) : Z :=
  let '(m, e) := x in
  if 0 <=? e then m * 2 ^ e else - ((- m) / 2 ^ (- e)).

(** The [durationDays] virtual:
    [Math.ceil(Math.abs(end - start) / (1000 * 60 * 60 * 24))] on the time
    values of the two dates. *)
Definition durationDays (i : Item) : Z :=
  let diffTime := Number_of_Z (Z.abs (dateRange_end i - dateRange_start i)) in
  let diffDays := Math_ceil (nearest_double diffTime msPerDay) in
  diffDays.

(** The [isExpired] virtual, with the current time made explicit. *)
Definition isExpired (now : Z) (i : Item) : bool := dateRange_end i <? now.

(** ** Strings and dates of the platform *)

(** [s.split(c)] for a one-character separator. *)
Fixpoint split (c : ascii) (s : string) : list string :=
  match s with
  | EmptyString => [EmptyString]
  | String a s' =>
      if Ascii.eqb a c then EmptyString :: split c s'
      else match split c s' with
           | [] => [String a EmptyString]
           | w :: ws => String a w :: ws
           end
  end.

(** [l.join(sep)] *)
Definition join (sep : string) (l : list string) : string := String.concat sep l.

Definition chars (s : string) : list ascii := list_ascii_of_string s.

Definition is_lower (a : ascii) : bool :=
  let n := nat_of_ascii a in (97 <=? n)%nat && (n <=? 122)%nat.
Definition is_upper (a : ascii) : bool :=
  let n := nat_of_ascii a in (65 <=? n)%nat && (n <=? 90)%nat.
Definition is_digit (a : ascii) : bool :=
  let n := nat_of_ascii a in (48 <=? n)%nat && (n <=? 57)%nat.
Definition is_hex (a : ascii) : bool :=
  let n := nat_of_ascii a in
  is_digit a || ((97 <=? n)%nat && (n <=? 102)%nat) || ((65 <=? n)%nat && (n <=? 70)%nat).

(** The line terminators that [.] does not match (single-byte ones). *)
Definition is_line_terminator (a : ascii) : bool :=
  let n := nat_of_ascii a in (n =? 10)%nat || (n =? 13)%nat.

(** [\s] restricted to single-byte characters, for [trim()]. *)
Definition is_space (a : ascii) : bool :=
  let n := nat_of_ascii a in
  (n =? 32)%nat || ((9 <=? n)%nat && (n <=? 13)%nat).

Fixpoint drop_spaces (l : list ascii) : list ascii :=
  match l with
  | a :: l' => if is_space a then drop_spaces l' else l
  | [] => []
  end.

Definition trim (s : string) : string :=
  string_of_list_ascii (rev (drop_spaces (rev (drop_spaces (chars s))))).

Definition to_lower_ascii (a : ascii) : ascii :=
  if is_upper a then ascii_of_nat (nat_of_ascii a + 32) else a.

Definition toLowerCase (s : string) : string :=
  string_of_list_ascii (map to_lower_ascii (chars s)).

(** A non-empty string of hexadecimal digits. *)
Definition hex_digits (l : list ascii) : bool :=
  negb (bool_decide (l = [])) && forallb is_hex l.

(** validator.js [isHexadecimal], [/^(0x|0h)?[0-9A-F]+$/i]. *)
Definition isHexadecimal (s : string) : bool :=
  hex_digits (chars s)
  || match chars s with
     | z :: p :: rest =>
         Ascii.eqb z "0"
         && (Ascii.eqb (to_lower_ascii p) "x" || Ascii.eqb (to_lower_ascii p) "h")
         && hex_digits rest
     | _ => false
     end.

(** validator.js [isMongoId]: [isHexadecimal(str) && str.length === 24]. *)
Definition isMongoId (s : string) : bool :=
  isHexadecimal s && (String.length s =? 24)%nat.

(** The cast of a string to an ObjectId, as Mongoose applies it to the
    argument of [findById] and to the [_id] of a filter: 24 hexadecimal
    digits are the id that renders as the same digits in lower case; any
    other string is refused with a [CastError], which is [None]. *)
Definition castObjectId (s : string) : option string :=
  if (String.length s =? 24)%nat && forallb is_hex (chars s)
  then Some (toLowerCase s) else None.

(** Days from 1970-01-01 to the civil date [y]-[m]-[d] (proleptic Gregorian),
    and the time value of the date-only form, which [Date] reads as UTC
    midnight. *)
Definition days_from_civil (y m d : Z) : Z :=
  let y' := if m <=? 2 then y - 1 else y in
  let era := y' / 400 in
  let yoe := y' - era * 400 in
  let mp := (m + 9) mod 12 in
  let doy := (153 * mp + 2) / 5 + d - 1 in
  let doe := yoe * 365 + yoe / 4 - yoe / 100 + doy in
  era * 146097 + doe - 719468.

Definition Date_UTC (y m d : Z) : Z :=
  days_from_civil y m d * (1000 * 60 * 60 * 24).

Definition digit_value (a : ascii) : option Z :=
  if is_digit a then Some (Z.of_nat (nat_of_ascii a) - 48) else None.

Fixpoint digits_value (l : list ascii) (acc : Z) : option Z :=
  match l with
  | [] => Some acc
  | a :: l' =>
      match digit_value a with
      | Some d => digits_value l' (10 * acc + d)
      | None => None
      end
  end.

(** [new Date(s).getTime()] on the date-only form [YYYY-MM-DD]: a day up to
    31 is accepted in every month and counted on from the first. *)
Definition Date_parse_ymd (s : string) : option Z :=
  match chars s with
  | [y1; y2; y3; y4; "-"%char; m1; m2; "-"%char; d1; d2] =>
      match digits_value [y1; y2; y3; y4] 0, digits_value [m1; m2] 0,
            digits_value [d1; d2] 0 with
      | Some y, Some m, Some d =>
          if (1 <=? m) && (m <=? 12) && (1 <=? d) && (d <=? 31)
          then Some (Date_UTC y m d) else None
      | _, _, _ => None
      end
  | _ => None
  end.

(** A JavaScript relational comparison of two [Date]s: through their time
    values, and false as soon as one is NaN. *)
Definition date_le (a b : option Z) : bool :=
  match a, b with
  | Some x, Some y => x <=? y
  | _, _ => false
  end.

(** ** The stores and Mongo filters *)

Record Store := mkStore {
  users : gmap string User;
  items : gmap string Item;
  uploads : gset string
}.

(** The query operators the routes use. *)
Inductive Cond :=
| CEq (v : string)
| CIn (vs : list string)
| CNe (v : string).

Definition cond_holds (c : Cond) (v : string) : bool :=
  match c with
  | CEq w => bool_decide (v = w)
  | CIn ws => bool_decide (v ∈ ws)
  | CNe w => negb (bool_decide (v = w))
  end.

Definition bool_str (b : bool) : string := if b then "true" else "false".

Definition user_field (f : string) (u : User) : option string :=
  if bool_decide (f = "_id") then Some (_id u)
  else if bool_decide (f = "email") then Some (email u)
  else if bool_decide (f = "role") then Some (role u)
  else if bool_decide (f = "isActive") then Some (bool_str (isActive u))
  else None.

Definition item_field (f : string) (i : Item) : option string :=
  if bool_decide (f = "_id") then Some (item_id i)
  else if bool_decide (f = "createdBy") then Some (createdBy i)
  else if bool_decide (f = "isActive") then Some (bool_str (item_isActive i))
  else None.

(** A document matches a filter when every property of the filter holds of
    the document's field. *)
Definition matches {D} (field : string -> D -> option string)
    (query : gmap string Cond) (d : D) : bool :=
  forallb (fun kc => match field kc.1 d with
                     | Some v => cond_holds kc.2 v
                     | None => false
                     end) (map_to_list query).

(** [Model.updateMany(filter, update)]: the new collection and
    [modifiedCount], the number of matched documents that changed. *)
Definition updateMany `{EqDecision D} (field : string -> D -> option string)
    (query : gmap string Cond) (upd : D -> D) (coll : gmap string D)
    : gmap string D * nat :=
  ((fun d => if matches field query d then upd d else d) <$> coll,
   length (filter (fun kd => matches field query kd.2 = true ∧ upd kd.2 ≠ kd.2)
                  (map_to_list coll))).

(** [Model.findOne(filter)], on the documents in key order. *)
Definition findOne {D} (field : string -> D -> option string)
    (query : gmap string Cond) (coll : gmap string D) : option D :=
  snd <$> head (filter (fun kd => matches field query kd.2 = true) (map_to_list coll)).

(** ** Requests *)

(** The file part of a multipart request, with the name under which
    multer's disk storage writes it ([fieldname-basename-suffix.ext], the
    suffix made of the clock and a random number).  Disk storage gives
    [req.file] no [buffer]. *)
Record FilePart := mkFilePart {
  originalname : string;
  mimetype : string;
  size : Z;
  filename : string;
  buffer : option string
}.

(** [req.body], with the fields the routes read. *)
Record Body := mkBody {
  body_name : option string;
  body_email : option string;
  body_password : option string;
  body_role : option string;
  body_isActive : option bool;
  body_userIds : option (list string);
  body_startDate : option string;
  body_endDate : option string;
  body_note : option string
}.

Definition empty_body : Body :=
  mkBody None None None None None None None None None.

Record Request := mkRequest {
  authorization : option string;
  params_id : string;
  body : Body;
  multipart_file : option FilePart
}.

(** A value used as a condition: [undefined] and the empty string are falsy. *)
Definition truthy (v : option string) : option string :=
  match v with
  | Some s => if bool_decide (s = "") then None else Some s
  | None => None
  end.

(** ** Process environment and the libraries the handlers call *)

Record Env := mkEnv {
  NODE_ENV : option string;
  JWT_SECRET : option string;
  JWT_EXPIRE : option string;
  now : Z
}.

(** What [jwt.verify] throws, each error with the stack it carries. *)
Inductive JwtError :=
| TokenExpiredError (trace : string)
| NotBeforeError (trace : string)
| JsonWebTokenError (reason trace : string).

Definition JwtError_message (e : JwtError) : string :=
  match e with
  | TokenExpiredError _ => "jwt expired"
  | NotBeforeError _ => "jwt not active"
  | JsonWebTokenError reason _ => reason
  end.

Definition JwtError_stack (e : JwtError) : string :=
  match e with
  | TokenExpiredError trace | NotBeforeError trace | JsonWebTokenError _ trace => trace
  end.

Definition JwtError_thrown (e : JwtError) : Thrown :=
  mkThrown (JwtError_message e) (JwtError_stack e).

(** The decoded payload; [generateToken] signs [{ id }]. *)
Record Payload := mkPayload { id : option string }.

(** The libraries behind the handlers: jsonwebtoken, bcryptjs, validator.js,
    the [Date] parser, and Mongoose's schema machinery where it is not written
    in the models. *)
Class Collaborators := {
  jwt_verify : string -> string -> Z -> JwtError + Payload;
  jwt_sign : string -> string -> string -> Z -> string;
  bcrypt_hash : string -> string;
  isEmail : string -> bool;
  normalizeEmail : string -> string;
  isISO8601 : string -> bool;
  Date_parse : string -> option Z;
  (** the [match] pattern of the User schema's [email] path *)
  email_match : string -> bool;
  (** a fresh ObjectId for a document created at a given time *)
  new_ObjectId : Z -> string;
  (** the verdict of Mongoose's update validators ([runValidators: true]) on
      the paths of an update other than the date range: [required] and
      [maxlength] on the note, [required] on the image *)
  runValidators : Item -> ItemUpdate -> bool;
  (** the error objects of Mongoose and of the driver: the [CastError] of a
      value that is no ObjectId, the [ValidationError] of a model, the
      duplicate-key error of a unique index *)
  CastError : string -> Thrown;
  ValidationError : string -> Thrown;
  DuplicateKeyError : Thrown;
  (** the stack that the runtime records in [new Error(message)] *)
  Error_stack : string -> string
}.

(** [new Error(message)] *)
Definition new_Error {L : Collaborators} (msg : string) : Thrown :=
  mkThrown msg (Error_stack msg).

(** [findByIdAndUpdate(id, update, { new: true, runValidators: true })] on
    an item: the validators of the updated paths run with [this] bound to the
    query.  An update that carries a date range reaches the [end] validator,
    which throws there, and a validator that throws fails. *)
Definition update_validators {L : Collaborators} (item : Item) (u : ItemUpdate) : bool :=
  match upd_dateRange u with
  | Some (_, Some end_) =>
      default false (end_validator None end_) && runValidators item u
  | Some (_, None) => false
  | None => runValidators item u
  end.

(** ** middleware/auth.js *)

Module Auth.

(** [checkRole(...roles)] applied to [req.user]. *)
Definition checkRole (roles : list string) (req_user : option User) : mw User :=
  match req_user with
  | None => Respond (mkResponse 401 "Authentication required. Please log in." None None [])
  | Some u =>
      if bool_decide (role u = "") then
        Respond (mkResponse 401 "Invalid user session. Please log in again." None None [])
      else if bool_decide (roles = []) then
        Respond (mkResponse 500 "Server configuration error: No roles specified" None None [])
      else if negb (bool_decide (role u ∈ roles)) then
        Respond (mkResponse 403
          ("Access denied. Required role(s): " +:+ join ", " roles
             +:+ ". Your role: " +:+ role u) None None [])
      else Next u
  end.

Definition superAdminOnly := checkRole ["super_admin"].
Definition adminOrSuperAdmin := checkRole ["admin"; "super_admin"].
Definition canPerformCRUD := checkRole ["admin"; "super_admin"].
Definition canDelete := checkRole ["super_admin"].
Definition canManageUsers := checkRole ["super_admin"].
Definition authenticatedUser := checkRole ["user"; "admin"; "super_admin"].

(** The guard that the routers put in front of each capability:
    GET /api/items, POST /api/items, PUT /api/items/:id, DELETE /api/items/:id
    and the /api/users routes. *)
Definition route_guard (c : Capability) : option User -> mw User :=
  match c return option User -> mw User with
  | CapRead => authenticatedUser
  | CapCreate => canPerformCRUD
  | CapUpdate => canPerformCRUD
  | CapDelete => canDelete
  | CapManageUsers => canManageUsers
  end.

(** [sendErrorResponse] of the middleware: the error's message and stack
    are added in development mode only. *)
Definition sendErrorResponse (env : Env) (statusCode : Z) (message : string)
    (error : option Thrown) : response :=
  let development := bool_decide (NODE_ENV env = Some "development") in
  mkResponse statusCode message
    (if development then thrown_message <$> error else None)
    (if development then thrown_stack <$> error else None) [].

(** The bearer token: [authorization.split(' ')[1]] when the header starts
    with [Bearer]. *)
Definition bearer_token (authorization : option string) : option string :=
  match truthy authorization with
  | Some a => if String.prefix "Bearer" a then split " " a !! 1%nat else None
  | None => None
  end.

Section Protect.
Context {L : Collaborators}.

Definition protect (env : Env) (st : Store) (req : Request) : mw User :=
  match truthy (bearer_token (authorization req)) with
  | None => Respond (sendErrorResponse env 401 "Access denied. No token provided." None)
  | Some token =>
  match truthy (JWT_SECRET env) with
  | None => Respond (sendErrorResponse env 500 "Server configuration error" None)
  | Some secret =>
  match jwt_verify token secret (now env) with
  | inl jwtError =>
      Respond (sendErrorResponse env 401 "Invalid or expired token"
                 (Some (JwtError_thrown jwtError)))
  | inr decoded =>
  match truthy (id decoded) with
  | None => Respond (sendErrorResponse env 401 "Invalid token payload" None)
  | Some uid =>
  match castObjectId uid with
  | None =>
      Respond (sendErrorResponse env 500 "Database error during authentication"
                 (Some (CastError uid)))
  | Some key =>
  match users st !! key with
  | None =>
      Respond (sendErrorResponse env 401 "Token is not valid. User no longer exists." None)
  | Some user =>
      if negb (isActive user) then
        Respond (sendErrorResponse env 401 "User account is deactivated." None)
      else Next (without_password user)
  end end end end end end.

End Protect.

End Auth.

(** ** middleware/upload.js *)

Module Upload.

(** [path.extname]: from the last dot of the base name, unless that dot
    starts it. *)
Fixpoint after_last (c : ascii) (l : list ascii) (acc : option (list ascii))
    : option (list ascii) :=
  match l with
  | [] => acc
  | a :: l' => after_last c l' (if Ascii.eqb a c then Some l' else acc)
  end.

Definition extname (p : string) : string :=
  let base := default (chars p) (after_last "/" (chars p) None) in
  match base with
  | [] => ""
  | a :: rest =>
      match after_last "." rest None with
      | Some e => String "." (string_of_list_ascii e)
      | None => ""
      end
  end.

Definition includes (needle hay : string) : bool :=
  match index 0 needle hay with Some _ => true | None => false end.

Definition allowedTypes : list string :=
  ["image/jpeg"; "image/jpg"; "image/png"; "image/gif"; "image/webp";
   "image/bmp"; "image/tiff"].

Definition allowedExtensions : list string :=
  [".jpg"; ".jpeg"; ".png"; ".gif"; ".webp"; ".bmp"; ".tiff"].

(** [fileFilter]: the error it hands to its callback, if any. *)
Definition fileFilter (file : FilePart) : option string :=
  if bool_decide (originalname file = "") then Some "File must have a name"
  else if bool_decide (mimetype file = "") then Some "File type cannot be determined"
  else if negb (String.prefix "image/" (mimetype file)) then
    Some "Only image files are allowed"
  else if negb (bool_decide (mimetype file ∈ allowedTypes)) then
    Some ("Invalid file type: " +:+ mimetype file
          +:+ ". Only JPEG, PNG, GIF, WebP, BMP, and TIFF images are allowed.")
  else
    let fileExtension := toLowerCase (extname (originalname file)) in
    if negb (bool_decide (fileExtension ∈ allowedExtensions)) then
      Some ("Invalid file extension: " +:+ fileExtension
            +:+ ". Allowed extensions: " +:+ join ", " allowedExtensions)
    else None.

(** [limits.fileSize] *)
Definition fileSize : Z := 5 * 1024 * 1024.

(** [handleUploadError] on an error of the file filter. *)
Definition handleUploadError (error_message : string) : response :=
  if includes "Invalid file type" error_message
     || includes "Only image files" error_message
  then mkResponse 400 error_message None None []
  else mkResponse 500 ("File upload error: " +:+ error_message) None None [].

(** [deleteUploadedFile]: unlink the file if it exists. *)
Definition deleteUploadedFile (name : string) (st : Store) : Store :=
  mkStore (users st) (items st) (uploads st ∖ {[name]}).

Definition store_file (name : string) (st : Store) : Store :=
  mkStore (users st) (items st) ({[name]} ∪ uploads st).

(** [processImageUpload]: multer's single-file upload to disk, then
    [req.uploadedFile].  The upload is cut, and refused, as soon as the file
    reaches [limits.fileSize] bytes. *)
Definition processImageUpload (st : Store) (req : Request) : Store * mw FilePart :=
  match multipart_file req with
  | None =>
      (st, Respond (mkResponse 400
         "No image file uploaded. Please select an image to upload." None None []))
  | Some file =>
      match fileFilter file with
      | Some e => (st, Respond (handleUploadError e))
      | None =>
          if fileSize <=? size file then
            (st, Respond (mkResponse 400
               "File too large. Maximum size allowed is 5MB." None None []))
          else (store_file (filename file) st, Next file)
      end
  end.

(** [validateImageFile]: an upload is processed only when [req.file] is
    already set. *)
Definition validateImageFile (req_file : option FilePart) (st : Store) (req : Request)
    : Store * mw (option FilePart) :=
  match req_file with
  | Some _ =>
      let '(st', r) := processImageUpload st req in (st', Some <$> r)
  | None => (st, Next None)
  end.

End Upload.

(** ** What the routers share *)

Definition check (ok : bool) (msg : string) : list string :=
  if ok then [] else [msg].

Definition validation_failed (errs : list string) : response :=
  mkResponse 400 "Validation failed" None None errs.

Definition send (code : Z) (msg : string) : response :=
  mkResponse code msg None None [].

(** Run a middleware that does not touch the stores, then the rest. *)
Definition through {A} (st : Store) (m : mw A) (k : A -> Store * response)
    : Store * response :=
  match m with
  | Next a => k a
  | Respond r => (st, r)
  end.

Definition cleanup (uploadedFile : option FilePart) (st : Store) : Store :=
  match uploadedFile with
  | Some f => Upload.deleteUploadedFile (filename f) st
  | None => st
  end.

(** [Item.findOne({ _id: id, isActive: true })], once the id is cast. *)
Definition findActiveItem (st : Store) (key : string) : option Item :=
  match items st !! key with
  | Some i => if item_isActive i then Some i else None
  | None => None
  end.

Definition put_item (i : Item) (st : Store) : Store :=
  mkStore (users st) (<[item_id i := i]> (items st)) (uploads st).

Definition set_items (m : gmap string Item) (st : Store) : Store :=
  mkStore (users st) m (uploads st).

Definition set_users (m : gmap string User) (st : Store) : Store :=
  mkStore m (items st) (uploads st).

Definition is_production (env : Env) : bool :=
  bool_decide (NODE_ENV env = Some "production").

(** ** routes/items.js *)

Module ItemRoutes.
Section Routes.
Context {L : Collaborators}.

(** [GET /api/items/:id] *)
Definition get_item (env : Env) (st : Store) (req : Request) : Store * response :=
  through st (Auth.protect env st req) (fun user =>
  through st (Auth.authenticatedUser (Some user)) (fun _ =>
  let errs := check (isMongoId (params_id req)) "Invalid item ID" in
  if negb (bool_decide (errs = [])) then (st, validation_failed errs)
  else match castObjectId (params_id req) with
       | None => (st, send 500 "Server error while fetching item")
       | Some key =>
       match findActiveItem st key with
       | None => (st, send 404 "Item not found")
       | Some _ => (st, send 200 "")
       end end)).

(** The date-range check of [POST /api/items]: [end <= start]. *)
Definition create_range (b : Body) : option Z * option Z :=
  (Date_parse (default "" (body_startDate b)),
   Date_parse (default "" (body_endDate b))).

(** The validation chains of [POST /api/items]. *)
Definition create_check (b : Body) : list string :=
  let note := trim (default "" (body_note b)) in
  check (isISO8601 (default "" (body_startDate b)))
        "Start date must be a valid ISO 8601 date"
  ++ check (isISO8601 (default "" (body_endDate b)))
        "End date must be a valid ISO 8601 date"
  ++ check (negb (bool_decide (note = ""))) "Note is required"
  ++ check (String.length note <=? 1000)%nat
        "Note cannot be more than 1000 characters".

(** [POST /api/items] *)
Definition post_item (env : Env) (st : Store) (req : Request) : Store * response :=
  through st (Auth.protect env st req) (fun user =>
  through st (Auth.canPerformCRUD (Some user)) (fun _ =>
  let '(st1, up) := Upload.processImageUpload st req in
  through st1 up (fun file =>
  let b := body req in
  let note := trim (default "" (body_note b)) in
  let errs := create_check b in
  if negb (bool_decide (errs = [])) then
    (Upload.deleteUploadedFile (filename file) st1, validation_failed errs)
  else
    let '(start, end_) := create_range b in
    if date_le end_ start then
      (Upload.deleteUploadedFile (filename file) st1,
       send 400 "End date must be after start date")
    else
      let imageData :=
        match buffer file with
        | Some b64 =>
            if is_production env then
              "data:" +:+ mimetype file +:+ ";base64," +:+ b64
            else filename file
        | None => filename file
        end in
      match start, end_ with
      | Some s, Some e =>
          let item := mkItem (new_ObjectId (now env)) (trim imageData) s e note
                             (_id user) None true (now env) (now env) in
          if Item_validate item then (put_item item st1, send 201 "Item created successfully")
          else (Upload.deleteUploadedFile (filename file) st1,
                send 500 "Server error while creating item")
      | _, _ =>
          (Upload.deleteUploadedFile (filename file) st1,
           send 500 "Server error while creating item")
      end))).

(** The effective range of [PUT /api/items/:id]: computed when a date is
    supplied, each missing bound taken from the stored item. *)
Definition effective_range (item : Item) (b : Body) : option (option Z * option Z) :=
  match truthy (body_startDate b), truthy (body_endDate b) with
  | None, None => None
  | startDate, endDate =>
      let currentStart :=
        match startDate with
        | Some s => Date_parse s
        | None => Some (dateRange_start item)
        end in
      let currentEnd :=
        match endDate with
        | Some e => Date_parse e
        | None => Some (dateRange_end item)
        end in
      Some (currentStart, currentEnd)
  end.

(** The image part of the update: an inline image in production when the
    file has a buffer, else the uploaded file's name, the previous file being
    unlinked unless the stored image is inline. *)
Definition image_update (env : Env) (uploadedFile req_file : option FilePart)
    (item : Item) (st : Store) : Store * option string :=
  let file_buffer := req_file ≫= buffer in
  if bool_decide (is_Some uploadedFile) || bool_decide (is_Some file_buffer) then
    match is_production env, req_file, file_buffer with
    | true, Some f, Some b64 =>
        (st, Some ("data:" +:+ mimetype f +:+ ";base64," +:+ b64))
    | _, _, _ =>
        match uploadedFile with
        | Some f =>
            (if negb (bool_decide (image item = ""))
                && negb (String.prefix "data:" (image item))
             then Upload.deleteUploadedFile (image item) st else st,
             Some (filename f))
        | None => (st, None)
        end
    end
  else (st, None).

(** The validation chains of [PUT /api/items/:id]; an optional field is
    checked when it is present. *)
Definition update_check (req : Request) : list string :=
  let b := body req in
  check (isMongoId (params_id req)) "Invalid item ID"
  ++ match body_startDate b with
     | Some s => check (isISO8601 s) "Start date must be a valid ISO 8601 date"
     | None => []
     end
  ++ match body_endDate b with
     | Some e => check (isISO8601 e) "End date must be a valid ISO 8601 date"
     | None => []
     end
  ++ match trim <$> body_note b with
     | Some n => check (String.length n <=? 1000)%nat
                       "Note cannot be more than 1000 characters"
     | None => []
     end.

(** [PUT /api/items/:id].  No multer middleware runs before
    [validateImageFile] on this route, so [req.file] is still unset there. *)
Definition put_item_route (env : Env) (st : Store) (req : Request) : Store * response :=
  through st (Auth.protect env st req) (fun user =>
  through st (Auth.canPerformCRUD (Some user)) (fun _ =>
  let req_file : option FilePart := None in
  let '(st1, up) := Upload.validateImageFile req_file st req in
  through st1 up (fun uploadedFile =>
  let b := body req in
  let note := trim <$> body_note b in
  let errs := update_check req in
  if negb (bool_decide (errs = [])) then
    (cleanup uploadedFile st1, validation_failed errs)
  else
    match castObjectId (params_id req) with
    | None => (cleanup uploadedFile st1, send 500 "Server error while updating item")
    | Some key =>
    match findActiveItem st1 key with
    | None => (cleanup uploadedFile st1, send 404 "Item not found")
    | Some item =>
        let range := effective_range item b in
        let rejected :=
          match range with
          | Some (currentStart, currentEnd) => date_le currentEnd currentStart
          | None => false
          end in
        if rejected then
          (cleanup uploadedFile st1, send 400 "End date must be after start date")
        else
          let '(st2, newImage) := image_update env uploadedFile req_file item st1 in
          let updateData := mkItemUpdate (_id user) range note newImage in
          match apply_update updateData item with
          | Some item' =>
              if update_validators item updateData then
                (set_items (<[key := item']> (items st2)) st2,
                 send 200 "Item updated successfully")
              else (cleanup uploadedFile st2, send 500 "Server error while updating item")
          | None => (cleanup uploadedFile st2, send 500 "Server error while updating item")
          end
    end end))).

(** [DELETE /api/items/:id] *)
Definition delete_item (env : Env) (st : Store) (req : Request) : Store * response :=
  through st (Auth.protect env st req) (fun user =>
  through st (Auth.canDelete (Some user)) (fun _ =>
  let errs := check (isMongoId (params_id req)) "Invalid item ID" in
  if negb (bool_decide (errs = [])) then (st, validation_failed errs)
  else match castObjectId (params_id req) with
       | None => (st, send 500 "Server error while deleting item")
       | Some key =>
       match findActiveItem st key with
       | None => (st, send 404 "Item not found")
       | Some item =>
           (set_items (<[key := soft_delete_by (_id user) item]> (items st)) st,
            send 200 "Item deleted successfully")
       end end)).

(** The two requests that write a date range. *)
Inductive item_write := Create | Update.

Definition write_route (w : item_write) : Env -> Store -> Request -> Store * response :=
  match w with
  | Create => post_item
  | Update => put_item_route
  end.

(** The range that the handler of the request compares. *)
Definition checked_range (w : item_write) (st : Store) (req : Request)
    : option (option Z * option Z) :=
  match w with
  | Create => Some (create_range (body req))
  | Update =>
      match castObjectId (params_id req) ≫= findActiveItem st with
      | Some item => effective_range item (body req)
      | None => None
      end
  end.

(** The file that the upload middleware of the route stored. *)
Definition accepted_file (w : item_write) (st : Store) (req : Request) : option FilePart :=
  match w with
  | Create =>
      match (Upload.processImageUpload st req).2 with
      | Next f => Some f
      | Respond _ => None
      end
  | Update => None
  end.

(** An update that supplies one bound of the range and leaves the other
    undefined. *)
Inductive bound := StartDate | EndDate.

Definition supplies_only (b : Body) (which : bound) (s : string) : Prop :=
  match which with
  | StartDate => body_startDate b = Some s /\ body_endDate b = None
  | EndDate => body_endDate b = Some s /\ body_startDate b = None
  end.

Definition merged_range (which : bound) (t : Z) (item : Item) : Z * Z :=
  match which with
  | StartDate => (t, dateRange_end item)
  | EndDate => (dateRange_start item, t)
  end.

End Routes.
End ItemRoutes.

(** ** routes/users.js *)

Module UserRoutes.
Section Routes.
Context {L : Collaborators}.

Definition roles : list string := ["user"; "admin"; "super_admin"].

Definition role_check (b : Body) : list string :=
  check (bool_decide (default "" (body_role b) ∈ roles))
        "Role must be user, admin, or super_admin".

Definition id_check (req : Request) : list string :=
  check (isMongoId (params_id req)) "Invalid user ID".

(** [user.save()] of a document read by id: the changed paths are written
    and the [pre('save')] hook stamps [updatedAt]; the password is not
    modified, so it is not hashed again. *)
Definition save (env : Env) (key : string) (u : User) (st : Store) : Store :=
  set_users (<[key := touch (now env) u]> (users st)) st.

(** [PUT /api/users/:id/role] *)
Definition put_user_role (env : Env) (st : Store) (req : Request) : Store * response :=
  through st (Auth.protect env st req) (fun actor =>
  through st (Auth.canManageUsers (Some actor)) (fun _ =>
  let errs := id_check req ++ role_check (body req) in
  if negb (bool_decide (errs = [])) then (st, validation_failed errs)
  else
    let role := default "" (body_role (body req)) in
    if bool_decide (params_id req = _id actor) then
      (st, send 400 "You cannot change your own role")
    else match castObjectId (params_id req) with
         | None => (st, send 500 "Server error while updating user role")
         | Some key =>
         match users st !! key with
         | None => (st, send 404 "User not found")
         | Some user =>
             (save env key (set_role role user) st,
              send 200 ("User role updated to " +:+ role +:+ " successfully"))
         end end)).

(** [PUT /api/users/:id/toggle-activation] *)
Definition toggle_activation (env : Env) (st : Store) (req : Request) : Store * response :=
  through st (Auth.protect env st req) (fun actor =>
  through st (Auth.canManageUsers (Some actor)) (fun _ =>
  let errs := id_check req in
  if negb (bool_decide (errs = [])) then (st, validation_failed errs)
  else if bool_decide (params_id req = _id actor) then
    (st, send 400 "You cannot change your own account status")
  else match castObjectId (params_id req) with
       | None => (st, send 500 "Server error while toggling user activation status")
       | Some key =>
       match users st !! key with
       | None => (st, send 404 "User not found")
       | Some user =>
           let active := negb (isActive user) in
           (save env key (set_isActive active user) st,
            send 200 ("User account "
                      +:+ (if active then "activated" else "deactivated")
                      +:+ " successfully"))
       end end)).

(** [PUT /api/users/:id/status] *)
Definition put_user_status (env : Env) (st : Store) (req : Request) : Store * response :=
  through st (Auth.protect env st req) (fun actor =>
  through st (Auth.canManageUsers (Some actor)) (fun _ =>
  let errs := id_check req
              ++ check (bool_decide (is_Some (body_isActive (body req))))
                       "isActive must be a boolean value" in
  if negb (bool_decide (errs = [])) then (st, validation_failed errs)
  else
    let active := default false (body_isActive (body req)) in
    if bool_decide (params_id req = _id actor) then
      (st, send 400 "You cannot change your own account status")
    else match castObjectId (params_id req) with
         | None => (st, send 500 "Server error while updating user status")
         | Some key =>
         match users st !! key with
         | None => (st, send 404 "User not found")
         | Some user =>
             (save env key (set_isActive active user) st,
              send 200 ("User account "
                        +:+ (if active then "activated" else "deactivated")
                        +:+ " successfully"))
         end end)).

(** [DELETE /api/users/:id]: the account is deactivated, then
    [Item.updateMany({ createdBy: user._id }, { isActive: false })]. *)
Definition delete_user (env : Env) (st : Store) (req : Request) : Store * response :=
  through st (Auth.protect env st req) (fun actor =>
  through st (Auth.canManageUsers (Some actor)) (fun _ =>
  let errs := id_check req in
  if negb (bool_decide (errs = [])) then (st, validation_failed errs)
  else if bool_decide (params_id req = _id actor) then
    (st, send 400 "You cannot delete your own account")
  else match castObjectId (params_id req) with
       | None => (st, send 500 "Server error while deleting user")
       | Some key =>
       match users st !! key with
       | None => (st, send 404 "User not found")
       | Some user =>
           let st1 := save env key (set_isActive false user) st in
           let query := object_literal [("createdBy", CEq (_id user))] in
           (set_items (updateMany item_field query soft_delete (items st1)).1 st1,
            send 200 "User account deleted successfully")
       end end)).

(** The filter of the bulk update, as the object literal is written. *)
Definition bulk_filter (userIds : list string) (actor : User) : gmap string Cond :=
  object_literal [("_id", CIn userIds); ("_id", CNe (_id actor))].

(** [PUT /api/users/bulk/roles] *)
Definition put_bulk_roles (env : Env) (st : Store) (req : Request) : Store * response :=
  through st (Auth.protect env st req) (fun actor =>
  through st (Auth.canManageUsers (Some actor)) (fun _ =>
  let errs :=
    check (match body_userIds (body req) with
           | Some (_ :: _) => true
           | _ => false
           end) "userIds must be a non-empty array"
    ++ flat_map (fun i => check (isMongoId i) "Each userId must be a valid MongoDB ID")
                (default [] (body_userIds (body req)))
    ++ role_check (body req) in
  if negb (bool_decide (errs = [])) then (st, validation_failed errs)
  else
    let userIds := default [] (body_userIds (body req)) in
    let role := default "" (body_role (body req)) in
    if bool_decide (_id actor ∈ userIds) then
      (st, send 400 "You cannot change your own role in bulk operations")
    else
      let result := updateMany user_field (bulk_filter userIds actor)
                               (set_role role) (users st) in
      (set_users result.1 st,
       send 200 (pretty result.2 +:+ " user roles updated to " +:+ role
                 +:+ " successfully")))).

(** The five administration requests that name a target account. *)
Inductive admin_op :=
| RoleChange | ActivationToggle | StatusSet | SoftDelete | BulkRoles.

Definition admin_route (op : admin_op) : Env -> Store -> Request -> Store * response :=
  match op with
  | RoleChange => put_user_role
  | ActivationToggle => toggle_activation
  | StatusSet => put_user_status
  | SoftDelete => delete_user
  | BulkRoles => put_bulk_roles
  end.

(** The request names the acting user as the server writes ids:
    [req.params.id] is the rendering of the actor's id, or that rendering is
    among [userIds]. *)
Definition targets_self (op : admin_op) (actor : User) (req : Request) : Prop :=
  match op with
  | BulkRoles => _id actor ∈ default [] (body_userIds (body req))
  | _ => params_id req = _id actor
  end.

End Routes.
End UserRoutes.

(** ** routes/auth.js *)

Module AuthRoutes.
Section Routes.
Context {L : Collaborators}.

(** [/^(?=.*[a-z])(?=.*[A-Z])(?=.*\d)/]: each lookahead starts at the
    beginning of the string, and [.*] stops at the first line terminator. *)
Fixpoint first_line (l : list ascii) : list ascii :=
  match l with
  | [] => []
  | a :: l' => if is_line_terminator a then [] else a :: first_line l'
  end.

Definition lookahead (p : ascii -> bool) (s : string) : bool :=
  existsb p (first_line (chars s)).

Definition password_pattern (s : string) : bool :=
  lookahead is_lower s && lookahead is_upper s && lookahead is_digit s.

(** The validation chain on [password] of the register route. *)
Definition password_check (b : Body) : list string :=
  let p := default "" (body_password b) in
  check (6 <=? String.length p)%nat "Password must be at least 6 characters long"
  ++ check (password_pattern p)
       "Password must contain at least one lowercase letter, one uppercase letter, and one number".

Definition register_check (b : Body) : list string :=
  let n := trim (default "" (body_name b)) in
  check (negb (bool_decide (n = ""))) "Name is required"
  ++ check ((2 <=? String.length n)%nat && (String.length n <=? 50)%nat)
       "Name must be between 2 and 50 characters"
  ++ check (isEmail (default "" (body_email b))) "Please provide a valid email"
  ++ password_check b.

(** [generateToken]: the token, or the message of the error it throws. *)
Definition generateToken (env : Env) (uid : string) : string + string :=
  if bool_decide (uid = "") then inl "User ID is required for token generation"
  else match truthy (JWT_SECRET env) with
       | None => inl "JWT_SECRET environment variable is not set"
       | Some secret =>
           inr (jwt_sign uid secret (default "7d" (truthy (JWT_EXPIRE env))) (now env))
       end.

(** [POST /api/auth/register]; what the handler throws reaches
    [asyncHandler]. *)
Definition register (env : Env) (st : Store) (req : Request) : Store * response :=
  let b := body req in
  let errs := register_check b in
  if negb (bool_decide (errs = [])) then (st, validation_failed errs)
  else
    let name := trim (default "" (body_name b)) in
    let email := normalizeEmail (default "" (body_email b)) in
    let password := default "" (body_password b) in
    if bool_decide (name = "") || bool_decide (email = "") || bool_decide (password = "")
    then (st, send 400 "Name, email, and password are required")
    else match findOne user_field (object_literal [("email", CEq email)]) (users st) with
         | Some existingUser => (st, send 400 "User already exists with this email")
         | None =>
             let email' := toLowerCase email in
             if negb ((String.length name <=? 50)%nat && email_match email'
                      && (6 <=? String.length password)%nat)
             then (st, Auth.sendErrorResponse env 400 "Validation Error"
                         (Some (ValidationError "User")))
             else if bool_decide
                       (is_Some (findOne user_field
                                   (object_literal [("email", CEq email')]) (users st)))
             then (st, Auth.sendErrorResponse env 400 "Duplicate entry"
                         (Some DuplicateKeyError))
             else
               let user := mkUser (new_ObjectId (now env)) name email'
                                  (bcrypt_hash password) "user" true (now env) (now env) in
               let st' := set_users (<[_id user := user]> (users st)) st in
               match generateToken env (_id user) with
               | inl e =>
                   (st', Auth.sendErrorResponse env 500 "Server Error" (Some (new_Error e)))
               | inr token => (st', send 201 "User registered successfully")
               end
         end.

(** A password that is shorter than 6 characters or has no lowercase
    letter, no uppercase letter or no digit anywhere. *)
Definition weak_password (p : string) : Prop :=
  (String.length p < 6)%nat
  \/ existsb is_lower (chars p) = false
  \/ existsb is_upper (chars p) = false
  \/ existsb is_digit (chars p) = false.

(** [User.findOne({ email })] finds a user. *)
Definition email_registered (st : Store) (email : string) : Prop :=
  is_Some (findOne user_field (object_literal [("email", CEq email)]) (users st)).

End Routes.
End AuthRoutes.

(** ** A small instance of the libraries

    Enough of jsonwebtoken, validator.js and the others to run the handlers
    on examples: a token is [id:] followed by its subject, or [exp:] followed
    by the subject once it has expired; anything else is malformed. *)

Module Demo.

Definition verify (token secret : string) (clock : Z) : JwtError + Payload :=
  if String.prefix "id:" token then
    inr (mkPayload (Some (substring 3 (String.length token - 3) token)))
  else if String.prefix "exp:" token then
    inl (TokenExpiredError "TokenExpiredError: jwt expired")
  else inl (JsonWebTokenError "jwt malformed" "JsonWebTokenError: jwt malformed").

#[export] Instance libs : Collaborators := {|
  jwt_verify := verify;
  jwt_sign := fun uid _ _ _ => "id:" +:+ uid;
  bcrypt_hash := fun p => "$2a$12$" +:+ p;
  isEmail := fun e => Upload.includes "@" e;
  normalizeEmail := toLowerCase;
  isISO8601 := fun s => bool_decide (is_Some (Date_parse_ymd s));
  Date_parse := Date_parse_ymd;
  email_match := fun _ => true;
  new_ObjectId := fun _ => "65a000000000000000000099";
  runValidators := fun item u =>
    negb (bool_decide (default (note item) (upd_note u) = ""))
    && (String.length (default (note item) (upd_note u)) <=? 1000)%nat
    && negb (bool_decide (default (image item) (upd_image u) = ""));
  CastError := fun v => mkThrown ("Cast to ObjectId failed for value " +:+ v)
                                 "CastError: Cast to ObjectId failed";
  ValidationError := fun m => mkThrown (m +:+ " validation failed")
                                       "ValidationError: validation failed";
  DuplicateKeyError := mkThrown "E11000 duplicate key error"
                                "MongoServerError: E11000 duplicate key error";
  Error_stack := fun msg => "Error: " +:+ msg
|}.

Definition env : Env := mkEnv (Some "production") (Some "s3cret") None 1704067200000.

Definition root : User :=
  mkUser "65a000000000000000000001" "Root" "root@example.com" "$2a$12$Root1234"
         "super_admin" true 0 0.
Definition ann : User :=
  mkUser "65a000000000000000000002" "Ann" "ann@example.com" "$2a$12$Ann12345"
         "admin" true 0 0.
Definition bob : User :=
  mkUser "65a000000000000000000003" "Bob" "bob@example.com" "$2a$12$Bob12345"
         "user" true 0 0.
Definition cat : User :=
  mkUser "65a000000000000000000004" "Cat" "cat@example.com" "$2a$12$Cat12345"
         "user" true 0 0.

Definition sale : Item :=
  mkItem "65b000000000000000000001" "image-sale-1.png"
         (Date_UTC 2024 1 1) (Date_UTC 2024 1 31) "Spring sale"
         (_id ann) None true 0 0.
Definition promo : Item :=
  mkItem "65b000000000000000000002" "image-promo-2.png"
         (Date_UTC 2024 3 1) (Date_UTC 2024 3 15) "Promo"
         (_id root) None true 0 0.

Definition store : Store :=
  mkStore (list_to_map [(_id root, root); (_id ann, ann); (_id bob, bob); (_id cat, cat)])
          (list_to_map [(item_id sale, sale); (item_id promo, promo)])
          {["image-sale-1.png"; "image-promo-2.png"]}.

Definition as_user (u : User) (id : string) (b : Body) : Request :=
  mkRequest (Some ("Bearer id:" +:+ _id u)) id b None.

Definition picture : FilePart :=
  mkFilePart "offer.png" "image/png" 2048 "image-offer-1704067200000-42.png" None.

(** A user known by its role only. *)
Definition with_role (r : string) : User := mkUser "" "" "" "" r true 0 0.

Definition bob_request : Request := as_user bob "" empty_body.

Definition expired_request : Request :=
  mkRequest (Some "Bearer exp:65a000000000000000000003") "" empty_body None.

Definition malformed_request : Request :=
  mkRequest (Some "Bearer not-a-token") "" empty_body None.

Definition role_body (r : string) : Body :=
  mkBody None None None (Some r) None None None None None.

(** The super admin asks for a change of his own role, then asks again with
    his id written in upper case. *)
Definition self_role_request : Request := as_user root (_id root) (role_body "user").

Definition self_role_request_upper : Request :=
  as_user root "65A000000000000000000001" (role_body "user").

(** The super admin asks that Bob, and only Bob, become an admin. *)
Definition bulk_request : Request :=
  as_user root ""
    (mkBody None None None (Some "admin") None (Some [_id bob]) None None None).

Definition dates_body (startDate endDate : option string) : Body :=
  mkBody None None None None None None startDate endDate None.

(** Ann posts an offer that ends before it starts. *)
Definition backwards_offer : Request :=
  mkRequest (Some ("Bearer id:" +:+ _id ann)) ""
    (mkBody None None None None None None
            (Some "2024-01-01") (Some "2023-12-31") (Some "Spring sale"))
    (Some picture).

(** Ann moves the start of the sale past its end, then to mid-January. *)
Definition late_start : Request :=
  mkRequest (Some ("Bearer id:" +:+ _id ann)) (item_id sale)
    (dates_body (Some "2024-02-15") None) None.

Definition mid_january_start : Request :=
  mkRequest (Some ("Bearer id:" +:+ _id ann)) (item_id sale)
    (dates_body (Some "2024-01-15") None) None.

Definition register_request (n e p : string) : Request :=
  mkRequest None "" (mkBody (Some n) (Some e) (Some p) None None None None None None) None.

(** Dan registers with the password of the specification's scenario, then
    with a sound password under Bob's address. *)
Definition dan_weak : Request := register_request "Dan" "dan@example.com" "password".
Definition dan_taken : Request := register_request "Dan" "bob@example.com" "Passw0rd".

(** The super admin deletes Ann, who created the sale. *)
Definition delete_ann_request : Request := as_user root (_id ann) empty_body.

Definition ann_deleted : Store :=
  (UserRoutes.delete_user env store delete_ann_request).1.

(** The store once the super admin has deactivated Bob. *)
Definition bob_deactivated : Store :=
  (UserRoutes.put_user_status env store
     (as_user root (_id bob)
        (mkBody None None None None (Some false) None None None None))).1.

End Demo.

(** ** frontend utils/permissions.js: route access *)

Module RouteAccess.

(** The entries of [protectedRoutes], in the order [Object.entries] lists
    them. *)
Definition protectedRoutes : list (string * list string) :=
  [("/items/create", ["create"]);
   ("/items/edit", ["update"]);
   ("/users", ["manageUsers"])].

(** The permissions of the first entry whose pattern the route includes. *)
Fixpoint first_match (route : string) (entries : list (string * list string))
    : option (list string) :=
  match entries with
  | [] => None
  | (routePattern, permissions) :: rest =>
      if Upload.includes routePattern route then Some permissions
      else first_match route rest
  end.

Definition canAccessRoute (role : option string) (route : string) : bool :=
  match first_match route protectedRoutes with
  | Some permissions => Permissions.hasPermissions role (Some permissions)
  | None => true
  end.

End RouteAccess.

(** ** frontend TypeScript helpers: passwords, durations, text *)

Module HelpersText.
Section WithDates.
Context {L : Collaborators}.

(** [/^(?=.*[a-z])(?=.*[A-Z])(?=.*\d).{6,}$/]: the three lookaheads of the
    register route, then at least six characters up to the end of the
    string, none of them a line terminator. *)
Definition isValidPassword (password : string) : bool :=
  AuthRoutes.lookahead is_lower password
  && AuthRoutes.lookahead is_upper password
  && AuthRoutes.lookahead is_digit password
  && (6 <=? String.length password)%nat
  && forallb (fun a => negb (is_line_terminator a)) (chars password).

(** [getPasswordStrength]; each test looks anywhere in the string. *)
Definition getPasswordStrength (password : string) : string :=
  if (String.length password <? 6)%nat then "Too short"
  else if negb (existsb is_lower (chars password)) then "Add lowercase letter"
  else if negb (existsb is_upper (chars password)) then "Add uppercase letter"
  else if negb (existsb is_digit (chars password)) then "Add number"
  else "Strong".

(** [calculateDuration]; NaN, when a date does not parse, is [None]. *)
Definition calculateDuration (startDate endDate : string) : option Z :=
  match Date_parse startDate, Date_parse endDate with
  | Some start, Some end_ =>
      let diffTime := Number_of_Z (Z.abs (end_ - start)) in
      Some (Math_ceil (nearest_double diffTime msPerDay))
  | _, _ => None
  end.

End WithDates.

(** [truncateText], for an integer [maxLength]; [substring(0, n)] reads a
    negative [n] as 0. *)
Definition truncateText (text : string) (maxLength : Z) : string :=
  if Z.of_nat (String.length text) <=? maxLength then text
  else substring 0 (Z.to_nat maxLength) text +:+ "...".

End HelpersText.

(** ** middleware/auth.js: the optional resolver *)

Module OptionalAuth.
Section WithLibs.
Context {L : Collaborators}.

(** [optionalAuth]: the user it attaches to the request, if any; the request
    always goes on.  [jwt.verify] throws without a secret,
    [findById(undefined)] finds nothing, and the error of an id that does not
    cast is caught like the others. *)
Definition optionalAuth (env : Env) (st : Store) (req : Request) : option User :=
  match truthy (Auth.bearer_token (authorization req)) with
  | None => None
  | Some token =>
      match truthy (JWT_SECRET env) with
      | None => None
      | Some secret =>
          match jwt_verify token secret (now env) with
          | inl _ => None
          | inr decoded =>
              match id decoded ≫= (fun uid => castObjectId uid ≫= (fun key => users st !! key)) with
              | Some user => if isActive user then Some (without_password user) else None
              | None => None
              end
          end
      end
  end.

End WithLibs.
End OptionalAuth.

(** ** routes/auth.js: sessions and accounts *)

(** [bcrypt.compare], behind [userSchema.methods.correctPassword]. *)
Class PasswordHasher := {
  bcrypt_compare : string -> string -> bool
}.

(** The body of [PUT /api/auth/password]. *)
Record PasswordChange := mkPasswordChange {
  currentPassword : option string;
  newPassword : option string
}.

Definition set_password (p : string) (u : User) : User :=
  mkUser (_id u) (name u) (email u) p (role u) (isActive u) (createdAt u) (updatedAt u).

Definition set_profile (n e : option string) (u : User) : User :=
  mkUser (_id u) (default (name u) n) (default (email u) e) (password u) (role u)
         (isActive u) (createdAt u) (updatedAt u).

Module Session.
Section Routes.
Context {L : Collaborators} {B : PasswordHasher}.

Definition login_check (b : Body) : list string :=
  check (isEmail (default "" (body_email b))) "Please provide a valid email"
  ++ check (negb (bool_decide (default "" (body_password b) = ""))) "Password is required".

(** [POST /api/auth/login] *)
Definition login (env : Env) (st : Store) (req : Request) : Store * response :=
  let b := body req in
  let errs := login_check b in
  if negb (bool_decide (errs = [])) then (st, validation_failed errs)
  else
    let email := normalizeEmail (default "" (body_email b)) in
    let pw := default "" (body_password b) in
    if bool_decide (email = "") || bool_decide (pw = "")
    then (st, send 400 "Email and password are required")
    else match findOne user_field (object_literal [("email", CEq email)]) (users st) with
         | None => (st, send 401 "Invalid email or password")
         | Some user =>
             if negb (isActive user) then
               (st, send 401
                  "Your account has been deactivated. Please contact administrator.")
             else if negb (bcrypt_compare pw (password user)) then
               (st, send 401 "Invalid email or password")
             else match AuthRoutes.generateToken env (_id user) with
                  | inl e =>
                      (st, Auth.sendErrorResponse env 500 "Server Error" (Some (new_Error e)))
                  | inr token => (st, send 200 "Login successful")
                  end
         end.

(** [GET /api/auth/me] *)
Definition me (env : Env) (st : Store) (req : Request) : Store * response :=
  through st (Auth.protect env st req) (fun user => (st, send 200 "")).

(** [POST /api/auth/verify-token]; the token comes in the body. *)
Definition verify_token (env : Env) (st : Store) (token : option string) : response :=
  match truthy token with
  | None => send 400 "Token is required"
  | Some t =>
      match truthy (JWT_SECRET env) with
      | None => send 500 "JWT secret not configured"
      | Some secret =>
          match jwt_verify t secret (now env) with
          | inl _ => send 401 "Invalid token"
          | inr decoded =>
              match id decoded ≫= (fun uid => castObjectId uid ≫= (fun key => users st !! key)) with
              | Some user =>
                  if isActive user then send 200 "Token is valid"
                  else send 401 "Invalid token"
              | None => send 401 "Invalid token"
              end
          end
      end
  end.

Definition password_change_check (c : PasswordChange) : list string :=
  let p := default "" (newPassword c) in
  check (negb (bool_decide (default "" (currentPassword c) = "")))
        "Current password is required"
  ++ check (6 <=? String.length p)%nat
       "New password must be at least 6 characters long"
  ++ check (AuthRoutes.password_pattern p)
       "New password must contain at least one lowercase letter, one uppercase letter, and one number".

(** [user.save()] after [user.password = newPassword]: the first
    [pre('save')] hook hashes the password when the path is modified, that is
    when the new value differs from the stored one; the schema asks for six
    characters at least. *)
Definition save_password (env : Env) (key : string) (p : string) (u : User)
    (st : Store) : option Store :=
  if negb (6 <=? String.length p)%nat then None
  else
    let stored := if bool_decide (p = password u) then password u else bcrypt_hash p in
    Some (set_users (<[key := touch (now env) (set_password stored u)]> (users st)) st).

(** [PUT /api/auth/password] *)
Definition change_password (env : Env) (st : Store) (req : Request)
    (c : PasswordChange) : Store * response :=
  through st (Auth.protect env st req) (fun actor =>
  let errs := password_change_check c in
  if negb (bool_decide (errs = [])) then (st, validation_failed errs)
  else match users st !! _id actor with
       | None => (st, send 404 "User not found")
       | Some user =>
           if negb (bcrypt_compare (default "" (currentPassword c)) (password user))
           then (st, send 400 "Current password is incorrect")
           else match save_password env (_id actor) (default "" (newPassword c)) user st with
                | Some st' => (st', send 200 "Password changed successfully")
                | None => (st, Auth.sendErrorResponse env 400 "Validation Error"
                                 (Some (ValidationError "User")))
                end
       end).

Definition profile_check (b : Body) : list string :=
  match trim <$> body_name b with
  | Some n => check ((2 <=? String.length n)%nat && (String.length n <=? 50)%nat)
                    "Name must be between 2 and 50 characters"
  | None => []
  end
  ++ match body_email b with
     | Some e => check (isEmail e) "Please provide a valid email"
     | None => []
     end.

(** [PUT /api/auth/profile].  [findByIdAndUpdate] first runs the update
    validators of the paths it sets (the [match] of the email, lower-cased
    by the schema); then the document is looked up and the unique index of
    the collection checks the new email. *)
Definition update_profile (env : Env) (st : Store) (req : Request) : Store * response :=
  through st (Auth.protect env st req) (fun actor =>
  let b := body req in
  let errs := profile_check b in
  if negb (bool_decide (errs = [])) then (st, validation_failed errs)
  else
    let newName := truthy (trim <$> body_name b) in
    let newEmail := truthy (normalizeEmail <$> body_email b) in
    let taken :=
      match newEmail with
      | Some e =>
          bool_decide (is_Some (findOne user_field
                         (object_literal [("email", CEq e); ("_id", CNe (_id actor))])
                         (users st)))
      | None => false
      end in
    if taken then (st, send 400 "Email is already taken by another user")
    else
      let stored := toLowerCase <$> newEmail in
      if negb (match stored with Some e => email_match e | None => true end)
      then (st, Auth.sendErrorResponse env 400 "Validation Error"
                  (Some (ValidationError "User")))
      else match users st !! _id actor with
           | None => (st, send 404 "User not found")
           | Some user =>
               if match stored with
                  | Some e =>
                      bool_decide (is_Some (findOne user_field
                        (object_literal [("email", CEq e); ("_id", CNe (_id actor))])
                        (users st)))
                  | None => false
                  end
               then (st, Auth.sendErrorResponse env 400 "Duplicate entry"
                           (Some DuplicateKeyError))
               else (set_users (<[_id actor := set_profile newName stored user]> (users st))
                               st,
                     send 200 "Profile updated successfully")
           end).

End Routes.
End Session.

(** ** Invariants of the stores *)

(** Every document is stored under its own id. *)
Definition ids_ok (st : Store) : Prop :=
  map_Forall (fun k u => _id u = k) (users st).

(** Every stored role is one of the three of the schema's [enum]. *)
Definition roles_ok (st : Store) : Prop :=
  map_Forall (fun _ u => role u ∈ UserRoutes.roles) (users st).

(** Every stored item ends after it starts. *)
Definition ranges_ok (st : Store) : Prop :=
  map_Forall (fun _ i => dateRange_start i < dateRange_end i) (items st).

(** No two accounts share an email address. *)
Definition emails_unique (st : Store) : Prop :=
  forall k1 k2 u1 u2,
    users st !! k1 = Some u1 -> users st !! k2 = Some u2 ->
    email u1 = email u2 -> k1 = k2.

(** The routes that write items. *)
Inductive item_route := PostItem | PutItem | DeleteItem | DeleteUser.

Definition run_item_route {L : Collaborators} (r : item_route)
    : Env -> Store -> Request -> Store * response :=
  match r with
  | PostItem => ItemRoutes.post_item
  | PutItem => ItemRoutes.put_item_route
  | DeleteItem => ItemRoutes.delete_item
  | DeleteUser => UserRoutes.delete_user
  end.

(** ** More of the small instance *)

Module Scenario.

#[export] Instance hasher : PasswordHasher := {|
  bcrypt_compare := fun p h => bool_decide (h = "$2a$12$" +:+ p)
|}.

(** Dan registers with a sound password, then logs in. *)
Definition dan_register : Request :=
  Demo.register_request "Dan" "Dan@Example.com" "Passw0rd".

Definition dan_registered : Store :=
  (AuthRoutes.register (L := Demo.libs) Demo.env Demo.store dan_register).1.

Definition login_request (e p : string) : Request :=
  mkRequest None "" (mkBody None (Some e) (Some p) None None None None None None) None.

(** Ann posts the spring sale. *)
Definition spring_sale : Request :=
  mkRequest (Some ("Bearer id:" +:+ _id Demo.ann)) ""
    (mkBody None None None None None None
            (Some "2024-01-01") (Some "2024-01-31") (Some "Spring sale"))
    (Some Demo.picture).

Definition spring_sale_posted : Store :=
  (ItemRoutes.post_item (L := Demo.libs) Demo.env Demo.store spring_sale).1.

(** The super admin deletes the sale, then Bob asks for it. *)
Definition delete_sale : Request := Demo.as_user Demo.root (item_id Demo.sale) empty_body.
Definition read_sale : Request := Demo.as_user Demo.bob (item_id Demo.sale) empty_body.

(** The super admin toggles Bob's account. *)
Definition toggle_bob : Request := Demo.as_user Demo.root (_id Demo.bob) empty_body.

Definition bob_toggled : Store :=
  (UserRoutes.toggle_activation (L := Demo.libs) Demo.env Demo.store toggle_bob).1.

Definition bob_toggled_twice : Store :=
  (UserRoutes.toggle_activation (L := Demo.libs) Demo.env bob_toggled toggle_bob).1.

(** The super admin makes Bob an admin. *)
Definition promote_bob : Request :=
  Demo.as_user Demo.root (_id Demo.bob) (Demo.role_body "admin").

(** The same server without its signing secret. *)
Definition no_secret : Env := mkEnv (Some "production") None None 1704067200000.

(** Bob changes his password, then his name and address. *)
Definition bob_new_password : PasswordChange :=
  mkPasswordChange (Some "Bob12345") (Some "N3wPassw0rd").

Definition bob_password_changed : Store :=
  (Session.change_password (L := Demo.libs) Demo.env Demo.store Demo.bob_request
     bob_new_password).1.

Definition bob_profile : Request :=
  Demo.as_user Demo.bob ""
    (mkBody (Some " Bobby ") (Some "Bobby@Example.com") None None None None None None None).

(** A login for an address that nobody has, and one for Bob with a wrong
    password. *)
Definition login_nobody : Request := login_request "nobody@example.com" "Passw0rd".
Definition login_bob_wrong : Request := login_request "bob@example.com" "Wr0ngPass".

End Scenario.

(** * Properties *)

(** ** The permission table *)

(** The guards of the routers follow the table. *)
Lemma route_guard_table (r : Role) (c : Capability) (u : User) :
  role u = role_name r ->
  passes (Auth.route_guard c (Some u)) = authorize_table r c.
Proof.
  intros Hr. destruct c, r; simpl in Hr;
    unfold Auth.route_guard, Auth.authenticatedUser, Auth.canPerformCRUD,
      Auth.canDelete, Auth.canManageUsers, Auth.checkRole;
    rewrite Hr; reflexivity.
Qed.

(** A guard that refuses a known role answers 403. *)
Lemma route_guard_forbidden (r : Role) (c : Capability) (u : User) :
  role u = role_name r ->
  authorize_table r c = false ->
  exists resp, Auth.route_guard c (Some u) = Respond resp /\ status resp = 403.
Proof.
  intros Hr Ht. destruct c, r; simpl in Hr; try discriminate Ht;
    unfold Auth.route_guard, Auth.authenticatedUser, Auth.canPerformCRUD,
      Auth.canDelete, Auth.canManageUsers, Auth.checkRole;
    rewrite Hr; eexists; split; reflexivity.
Qed.

(** The [PERMISSIONS] object of the JavaScript frontend follows the table. *)
Lemma PERMISSIONS_table (r : Role) (c : Capability) :
  Permissions.hasPermissions (Some (role_name r)) (Some [Permissions.capability_key c])
  = authorize_table r c.
Proof. destruct r, c; vm_compute; reflexivity. Qed.

(** The model methods of the backend that agree with the table. *)
Lemma User_methods_table (r : Role) :
  User_canManageUsers (Demo.with_role (role_name r)) = authorize_table r CapManageUsers
  /\ User_canPerformCRUD (Demo.with_role (role_name r)) = authorize_table r CapCreate
  /\ User_canPerformCRUD (Demo.with_role (role_name r)) = authorize_table r CapUpdate.
Proof. destruct r; vm_compute; auto. Qed.

(** The TypeScript helper follows the table everywhere but at
    (admin, delete). *)
Lemma getRolePermissions_table (r : Role) (c : Capability) :
  (r, c) <> (RAdmin, CapDelete) ->
  Helpers.hasPermission (role_name r) (Helpers.permission_key c) = authorize_table r c.
Proof. intros Hne. destruct r, c; try reflexivity. congruence. Qed.

(** C1. The table says an admin may not delete, and so do the README, the
    [canDelete] guard of the item router and the frontend's [PERMISSIONS];
    the TypeScript [getRolePermissions] and the item model's [canDelete]
    nevertheless allow (admin, delete). *)
Theorem admin_delete_allowed_off_table :
  authorize_table RAdmin CapDelete = false
  /\ passes (Auth.canDelete (Some Demo.ann)) = false
  /\ Permissions.hasPermissions (Some "admin") (Some ["delete"]) = false
  /\ Helpers.hasPermission "admin" Helpers.canDelete = true
  /\ Item_canDelete Demo.sale Demo.ann = true.
Proof. vm_compute. repeat split; reflexivity. Qed.

(** ** Duration of an item *)

(** The integer ceiling of a quotient. *)
Lemma ceiling_unique (m P c : Z) :
  0 < P -> (c - 1) * P < m <= c * P -> - ((- m) / P) = c.
Proof.
  intros HP [Hlo Hhi].
  pose proof (Z.div_mod (- m) P ltac:(lia)) as Hdm.
  pose proof (Z.mod_pos_bound (- m) P HP) as Hm.
  nia.
Qed.

Lemma ceiling_bounds (a b : Z) :
  0 < b -> (- ((- a) / b) - 1) * b < a <= - ((- a) / b) * b.
Proof.
  intros Hb.
  pose proof (Z.div_mod (- a) b ltac:(lia)) as Hdm.
  pose proof (Z.mod_pos_bound (- a) b Hb) as Hm.
  nia.
Qed.

(** Rounding the scaled quotient keeps it between the scaled integers that
    surround the quotient, and away from the lower one. *)
Lemma round_half_even_between (a b P c : Z) :
  0 < b -> 0 < P -> b < 2 * P ->
  (c - 1) * b < a <= c * b ->
  (c - 1) * P < round_half_even (a * P) b <= c * P.
Proof.
  intros Hb HP HbP [Hlo Hhi]. unfold round_half_even.
  pose proof (Z.div_mod (a * P) b ltac:(lia)) as Hdm.
  pose proof (Z.mod_pos_bound (a * P) b Hb) as Hm.
  set (q := a * P / b) in *. set (r := (a * P) mod b) in *.
  assert (Hq1 : (c - 1) * P <= q) by nia.
  assert (Hq2 : q <= c * P) by nia.
  destruct ((b <? 2 * r) || ((b =? 2 * r) && Z.odd q)) eqn:Hup.
  - split; [lia|].
    destruct (Z.eq_dec q (c * P)) as [Heq|Hne]; [|lia].
    assert (r = 0) by nia.
    apply orb_true_iff in Hup as [Hup|Hup].
    + apply Z.ltb_lt in Hup. lia.
    + apply andb_true_iff in Hup as [Hup _]. apply Z.eqb_eq in Hup. lia.
  - split; [|lia].
    destruct (Z.eq_dec q ((c - 1) * P)) as [Heq|Hne]; [|lia].
    assert (P <= r) by nia.
    apply orb_false_iff in Hup as [Hup _]. apply Z.ltb_ge in Hup. lia.
Qed.

(** The exponent that [nearest_double] chooses is below the logarithm of the
    quotient. *)
Lemma nearest_double_exponent (a b : Z) :
  0 < a -> 0 < b ->
  let k := Z.log2 a - Z.log2 b in
  let E := if b * 2 ^ Z.max 0 k <=? a * 2 ^ Z.max 0 (- k) then k else k - 1 in
  E <= Z.log2 a /\ b * 2 ^ Z.max 0 E <= a * 2 ^ Z.max 0 (- E).
Proof.
  intros Ha Hb k E.
  pose proof (Z.log2_nonneg a) as Hla0. pose proof (Z.log2_nonneg b) as Hlb0.
  destruct (Z.log2_spec a Ha) as [Ha1 Ha2]. destruct (Z.log2_spec b Hb) as [Hb1 Hb2].
  split; [subst E k; case_match; lia|].
  subst E. destruct (b * 2 ^ Z.max 0 k <=? a * 2 ^ Z.max 0 (- k)) eqn:Ht.
  - apply Z.leb_le in Ht. exact Ht.
  - clear Ht. destruct (Z_le_gt_dec 1 k) as [Hk|Hk].
    + rewrite (Z.max_r 0 (k - 1)), (Z.max_l 0 (- (k - 1))) by lia.
      rewrite Z.pow_0_r, Z.mul_1_r.
      assert (Hp : 2 ^ Z.succ (Z.log2 b) * 2 ^ (k - 1) = 2 ^ Z.log2 a).
      { rewrite <- Z.pow_add_r by lia. f_equal. subst k. lia. }
      assert (0 < 2 ^ (k - 1)) by (apply Z.pow_pos_nonneg; lia).
      nia.
    + rewrite (Z.max_l 0 (k - 1)), (Z.max_r 0 (- (k - 1))) by lia.
      rewrite Z.pow_0_r, Z.mul_1_r.
      assert (Hp : 2 ^ Z.log2 a * 2 ^ (- (k - 1)) = 2 ^ Z.succ (Z.log2 b)).
      { rewrite <- Z.pow_add_r by lia. f_equal. subst k. lia. }
      assert (0 < 2 ^ (- (k - 1))) by (apply Z.pow_pos_nonneg; lia).
      nia.
Qed.

(** Below 2^53 the double nearest to a quotient of integers has the ceiling
    of the quotient itself. *)
Lemma Math_ceil_nearest_double (a b : Z) :
  0 <= a < 2 ^ 53 -> 0 < b ->
  Math_ceil (nearest_double a b) = - ((- a) / b).
Proof.
  intros [Ha0 Ha] Hb. unfold nearest_double.
  destruct (a =? 0) eqn:Hz.
  { apply Z.eqb_eq in Hz. subst a. reflexivity. }
  apply Z.eqb_neq in Hz. assert (Hapos : 0 < a) by lia.
  destruct (nearest_double_exponent a b Hapos Hb) as [HE Hnorm].
  set (E := if _ <=? _ then _ else _) in *.
  assert (Hla : Z.log2 a < 53) by (apply Z.log2_lt_pow2; lia).
  set (P := 2 ^ (52 - E)).
  assert (HP : 0 < P) by (apply Z.pow_pos_nonneg; lia).
  rewrite (Z.max_r 0 (- (E - 52))), (Z.max_l 0 (E - 52)) by lia.
  rewrite Z.pow_0_r, Z.mul_1_r.
  replace (- (E - 52)) with (52 - E) by lia. fold P.
  assert (Hscaled : 2 ^ 52 * b <= a * P).
  { subst P. destruct (Z_le_gt_dec 0 E) as [HE0|HE0].
    - rewrite (Z.max_r 0 E), (Z.max_l 0 (- E)), Z.pow_0_r, Z.mul_1_r in Hnorm by lia.
      assert (Hp : 2 ^ E * 2 ^ (52 - E) = 2 ^ 52).
      { rewrite <- Z.pow_add_r by lia. f_equal. lia. }
      assert (0 < 2 ^ (52 - E)) by (apply Z.pow_pos_nonneg; lia).
      nia.
    - rewrite (Z.max_l 0 E), (Z.max_r 0 (- E)), Z.pow_0_r, Z.mul_1_r in Hnorm by lia.
      assert (Hp : 2 ^ (- E) * 2 ^ 52 = 2 ^ (52 - E)).
      { rewrite <- Z.pow_add_r by lia. f_equal. lia. }
      nia. }
  assert (HbP : b < 2 * P) by nia.
  pose proof (ceiling_bounds a b Hb) as Hc.
  pose proof (round_half_even_between a b P _ Hb HP HbP Hc) as Hm.
  unfold Math_ceil.
  destruct (0 <=? E - 52) eqn:He.
  - apply Z.leb_le in He. assert (E = 52) by lia.
    assert (HP1 : P = 1) by (subst P; replace (52 - E) with 0 by lia; reflexivity).
    replace (E - 52) with 0 by lia. rewrite Z.pow_0_r, Z.mul_1_r.
    rewrite HP1 in Hm |- *. lia.
  - replace (- (E - 52)) with (52 - E) by lia. fold P.
    apply ceiling_unique; assumption.
Qed.

(** Below 2^53 the difference of two time values is held exactly. *)
Lemma durationDays_exact (i : Item) :
  Z.abs (dateRange_end i - dateRange_start i) < 2 ^ 53 ->
  durationDays i = - ((- Z.abs (dateRange_end i - dateRange_start i)) / msPerDay).
Proof.
  intros Hx. unfold durationDays, Number_of_Z.
  rewrite (proj2 (Z.ltb_lt _ _) Hx).
  apply Math_ceil_nearest_double; [lia|reflexivity].
Qed.

(** The amended C9. For an item whose range is shorter than 2^53
    milliseconds, [durationDays] is the ceiling of [|end - start|] over one
    day, that is the least number of whole days that covers the range; an
    item from 2024-01-01 to 2024-01-31 lasts 30 days. *)
Theorem durationDays_ceiling (i : Item) :
  Z.abs (dateRange_end i - dateRange_start i) < 2 ^ 53 ->
  (durationDays i - 1) * msPerDay
    < Z.abs (dateRange_end i - dateRange_start i)
    <= durationDays i * msPerDay
  /\ Date_parse_ymd "2024-01-01" = Some (Date_UTC 2024 1 1)
  /\ Date_parse_ymd "2024-01-31" = Some (Date_UTC 2024 1 31)
  /\ (forall id img n by_ upd act c u,
         durationDays (mkItem id img (Date_UTC 2024 1 1) (Date_UTC 2024 1 31)
                              n by_ upd act c u) = 30).
Proof.
  intros Hx. split; [|repeat split; intros; vm_compute; reflexivity].
  rewrite (durationDays_exact i Hx). apply ceiling_bounds. reflexivity.
Qed.

Lemma durationDays_ceiling_witness :
  Z.abs (dateRange_end Demo.sale - dateRange_start Demo.sale) < 2 ^ 53
  /\ (durationDays Demo.sale - 1) * msPerDay
       < Z.abs (dateRange_end Demo.sale - dateRange_start Demo.sale)
       <= durationDays Demo.sale * msPerDay
  /\ durationDays Demo.sale = 30.
Proof.
  assert (H1 : Z.abs (dateRange_end Demo.sale - dateRange_start Demo.sale) < 2 ^ 53)
    by (vm_compute; reflexivity).
  split; [exact H1|].
  split; [exact (proj1 (durationDays_ceiling Demo.sale H1))|].
  exact (proj2 (proj2 (proj2 (durationDays_ceiling Demo.sale H1))) _ _ _ _ _ _ _ _).
Defined.

(** C9, as stated, fails: two valid dates more than 2^53 milliseconds apart
    have a difference that no double holds, and the quotient of the rounded
    difference is a whole number of days, one short of the ceiling. *)
Lemma durationDays_beyond_exact_range :
  let i := mkItem "65b000000000000000000003" "image-era-3.png"
                  (-8640000000000000) 8639999913600001 "Era" "65a000000000000000000002"
                  None true 0 0 in
  Item_validate i = true
  /\ Z.abs (dateRange_end i - dateRange_start i) = 17279999913600001
  /\ durationDays i = 199999999
  /\ ~ ((durationDays i - 1) * msPerDay
          < Z.abs (dateRange_end i - dateRange_start i)
          <= durationDays i * msPerDay).
Proof.
  vm_compute. split; [reflexivity|]. split; [reflexivity|]. split; [reflexivity|].
  intros [_ Hle]. apply Hle. reflexivity.
Qed.

(** The scenario of the specification, run through [POST /api/items]. *)
Example spring_sale_created :
  let req := mkRequest (Some ("Bearer id:" +:+ _id Demo.ann)) ""
               (mkBody None None None None None None
                       (Some "2024-01-01") (Some "2024-01-31") (Some "Spring sale"))
               (Some Demo.picture) in
  let '(st', r) := ItemRoutes.post_item (L := Demo.libs) Demo.env Demo.store req in
  status r = 201
  /\ durationDays <$> (items st' !! "65a000000000000000000099") = Some 30.
Proof. vm_compute. split; reflexivity. Qed.

(** ** The identity resolver *)

Section ProtectProperties.
Context {L : Collaborators}.

(** What [protect] does once the header holds a token and the secret is
    configured: everything is decided by [jwt.verify] and the user store. *)
Lemma protect_with_token env st req token secret :
  truthy (Auth.bearer_token (authorization req)) = Some token ->
  truthy (JWT_SECRET env) = Some secret ->
  Auth.protect env st req =
    match jwt_verify token secret (now env) with
    | inl jwtError =>
        Respond (Auth.sendErrorResponse env 401 "Invalid or expired token"
                   (Some (JwtError_thrown jwtError)))
    | inr decoded =>
        match truthy (id decoded) with
        | None => Respond (Auth.sendErrorResponse env 401 "Invalid token payload" None)
        | Some uid =>
            match castObjectId uid with
            | None => Respond (Auth.sendErrorResponse env 500
                                 "Database error during authentication"
                                 (Some (CastError uid)))
            | Some key =>
                match users st !! key with
                | None => Respond (Auth.sendErrorResponse env 401
                                     "Token is not valid. User no longer exists." None)
                | Some user =>
                    if negb (isActive user)
                    then Respond (Auth.sendErrorResponse env 401
                                    "User account is deactivated." None)
                    else Next (without_password user)
                end
            end
        end
    end.
Proof. intros Ht Hs. unfold Auth.protect. rewrite Ht, Hs. reflexivity. Qed.

Lemma protect_Respond_status env st req r :
  Auth.protect env st req = Respond r -> status r = 401 \/ status r = 500.
Proof.
  unfold Auth.protect.
  repeat case_match; intros [= <-]; simpl; auto.
Qed.

Lemma protect_Next_stored env st req actor :
  Auth.protect env st req = Next actor ->
  exists uid u, users st !! uid = Some u /\ isActive u = true
                /\ actor = without_password u.
Proof.
  unfold Auth.protect.
  repeat case_match; intros [= <-].
  eexists _, _. split; [eassumption|]. split; [|reflexivity].
  destruct (isActive _); done.
Qed.

Lemma checkRole_Respond_status roles u r :
  Auth.checkRole roles u = Respond r ->
  status r = 401 \/ status r = 500 \/ status r = 403.
Proof.
  unfold Auth.checkRole.
  repeat case_match; intros [= <-]; simpl; auto.
Qed.

Lemma checkRole_Next roles u v :
  Auth.checkRole roles u = Next v -> u = Some v /\ role v ∈ roles.
Proof.
  unfold Auth.checkRole.
  repeat case_match; intros [= <-]. split; [done|].
  match goal with H : negb (bool_decide _) = false |- _ =>
    apply negb_false_iff, bool_decide_eq_true in H end. done.
Qed.

(** A route that answers with a status that neither [protect] nor the role
    guard can produce went through both. *)
Lemma through_auth env st req roles k st' r :
  through st (Auth.protect env st req) (fun actor =>
    through st (Auth.checkRole roles (Some actor)) (fun _ => k actor)) = (st', r) ->
  status r <> 401 -> status r <> 403 -> status r <> 500 ->
  exists actor, Auth.protect env st req = Next actor
                /\ role actor ∈ roles /\ k actor = (st', r).
Proof.
  unfold through. intros Hrun H401 H403 H500.
  destruct (Auth.protect env st req) as [actor|r0] eqn:Hp.
  - destruct (Auth.checkRole roles (Some actor)) as [v|r1] eqn:Hc.
    + apply checkRole_Next in Hc as [[= <-] Hin]. eauto.
    + apply checkRole_Respond_status in Hc. simplify_eq. lia.
  - apply protect_Respond_status in Hp. simplify_eq. lia.
Qed.

(** [PUT /api/users/:id/status] with [isActive: false], when it succeeds,
    leaves the target stored with its flag down. *)
Lemma put_user_status_deactivates env st req key :
  castObjectId (params_id req) = Some key ->
  body_isActive (body req) = Some false ->
  status (UserRoutes.put_user_status env st req).2 = 200 ->
  exists u, users (UserRoutes.put_user_status env st req).1 !! key = Some u
            /\ isActive u = false.
Proof.
  intros Hkey Hb Hs.
  destruct (UserRoutes.put_user_status env st req) as [st' r] eqn:Hrun.
  simpl in *. unfold UserRoutes.put_user_status in Hrun.
  apply through_auth in Hrun as (actor & Hp & Hrole & Hk); [|lia..].
  rewrite Hb, Hkey in Hk. simpl in Hk.
  repeat case_match; simplify_eq/=.
  eexists. rewrite lookup_insert_eq. split; reflexivity.
Qed.

(** C3. A request whose token verifies, for a subject whose account is
    deactivated, is answered 401 and no user is attached; this holds for any
    store in which the flag is down, in particular for the store that a
    successful [PUT /api/users/:id/status] with [isActive: false] on the
    subject's id leaves.  The subject is looked up under the ObjectId that
    the id of the token casts to. *)
Theorem deactivated_user_rejected env req token secret decoded uid key :
  truthy (Auth.bearer_token (authorization req)) = Some token ->
  truthy (JWT_SECRET env) = Some secret ->
  jwt_verify token secret (now env) = inr decoded ->
  truthy (id decoded) = Some uid ->
  castObjectId uid = Some key ->
  let rejection :=
    Respond (Auth.sendErrorResponse env 401 "User account is deactivated." None) in
  kind_of_status 401 = Some Unauthenticated
  /\ (forall st u,
         users st !! key = Some u -> isActive u = false ->
         Auth.protect env st req = rejection)
  /\ (forall env0 st0 areq,
         castObjectId (params_id areq) = Some key ->
         body_isActive (body areq) = Some false ->
         status (UserRoutes.put_user_status env0 st0 areq).2 = 200 ->
         Auth.protect env (UserRoutes.put_user_status env0 st0 areq).1 req = rejection).
Proof.
  intros Ht Hs Hv Hid Hkey rejection.
  assert (Hdown : forall st u, users st !! key = Some u -> isActive u = false ->
                               Auth.protect env st req = rejection).
  { intros st u Hu Ha.
    rewrite (protect_with_token _ _ _ _ _ Ht Hs), Hv, Hid, Hkey, Hu, Ha. reflexivity. }
  split; [reflexivity|]. split; [exact Hdown|].
  intros env0 st0 areq Hk Hb H200.
  destruct (put_user_status_deactivates env0 st0 areq key Hk Hb H200) as (u & Hu & Ha).
  eauto.
Qed.

(** The amended C6: an expired token and an invalid one are both answered
    401 with the message "Invalid or expired token"; the two answers are the
    same outside development mode, and in development mode each carries, in
    its [error] and [stack] properties, the message and the stack of the
    error that [jwt.verify] threw ("jwt expired" for the expired token), and
    they have everything else in common. *)
Theorem expired_and_invalid_rejected_alike env st req_e req_i tok_e tok_i secret
    trace_e reason trace_i :
  truthy (Auth.bearer_token (authorization req_e)) = Some tok_e ->
  truthy (Auth.bearer_token (authorization req_i)) = Some tok_i ->
  truthy (JWT_SECRET env) = Some secret ->
  jwt_verify tok_e secret (now env) = inl (TokenExpiredError trace_e) ->
  jwt_verify tok_i secret (now env) = inl (JsonWebTokenError reason trace_i) ->
  exists r_e r_i,
    Auth.protect env st req_e = Respond r_e
    /\ Auth.protect env st req_i = Respond r_i
    /\ status r_e = 401 /\ status r_i = 401
    /\ message r_e = "Invalid or expired token" /\ message r_i = message r_e
    /\ errors r_e = [] /\ errors r_i = []
    /\ (NODE_ENV env <> Some "development" -> r_e = r_i)
    /\ (NODE_ENV env = Some "development" ->
        error r_e = Some "jwt expired" /\ stack r_e = Some trace_e
        /\ error r_i = Some reason /\ stack r_i = Some trace_i).
Proof.
  intros Hte Hti Hs He Hi.
  rewrite (protect_with_token _ _ _ _ _ Hte Hs), He.
  rewrite (protect_with_token _ _ _ _ _ Hti Hs), Hi.
  eexists _, _. do 8 (split; [reflexivity|]).
  unfold Auth.sendErrorResponse. split.
  - intros Hdev. rewrite !bool_decide_eq_false_2 by done. reflexivity.
  - intros Hdev. rewrite !bool_decide_eq_true_2 by done. repeat split; reflexivity.
Qed.

End ProtectProperties.

Lemma deactivated_user_rejected_witness :
  truthy (Auth.bearer_token (authorization Demo.bob_request)) = Some "id:65a000000000000000000003"
  /\ truthy (JWT_SECRET Demo.env) = Some "s3cret"
  /\ Demo.verify "id:65a000000000000000000003" "s3cret" (now Demo.env)
     = inr (mkPayload (Some "65a000000000000000000003"))
  /\ truthy (Some "65a000000000000000000003") = Some "65a000000000000000000003"
  /\ castObjectId "65a000000000000000000003" = Some "65a000000000000000000003"
  /\ Auth.protect (L := Demo.libs) Demo.env Demo.bob_deactivated Demo.bob_request
     = Respond (Auth.sendErrorResponse Demo.env 401 "User account is deactivated." None).
Proof.
  assert (H1 : truthy (Auth.bearer_token (authorization Demo.bob_request))
               = Some "id:65a000000000000000000003") by reflexivity.
  assert (H2 : truthy (JWT_SECRET Demo.env) = Some "s3cret") by reflexivity.
  assert (H3 : jwt_verify (Collaborators := Demo.libs) "id:65a000000000000000000003" "s3cret" (now Demo.env)
               = inr (mkPayload (Some "65a000000000000000000003"))) by reflexivity.
  assert (H4 : truthy (id (mkPayload (Some "65a000000000000000000003")))
               = Some "65a000000000000000000003") by reflexivity.
  assert (H5 : castObjectId "65a000000000000000000003" = Some "65a000000000000000000003")
    by (vm_compute; reflexivity).
  split; [exact H1|]. split; [exact H2|]. split; [exact H3|]. split; [exact H4|].
  split; [exact H5|].
  apply (proj2 (proj2 (deactivated_user_rejected (L := Demo.libs) Demo.env
                         Demo.bob_request _ _ _ _ _ H1 H2 H3 H4 H5))).
  - vm_compute. reflexivity.
  - reflexivity.
  - vm_compute. reflexivity.
Defined.

(** C6, as stated, fails: in production an expired token and a malformed
    one receive the very same answer. *)
Lemma expired_and_invalid_indistinguishable :
  Demo.verify "exp:65a000000000000000000003" "s3cret" (now Demo.env)
    = inl (TokenExpiredError "TokenExpiredError: jwt expired")
  /\ Demo.verify "not-a-token" "s3cret" (now Demo.env)
     = inl (JsonWebTokenError "jwt malformed" "JsonWebTokenError: jwt malformed")
  /\ ~ (Auth.protect (L := Demo.libs) Demo.env Demo.store Demo.expired_request
        <> Auth.protect (L := Demo.libs) Demo.env Demo.store Demo.malformed_request).
Proof. vm_compute. repeat split. intros Hne. apply Hne. reflexivity. Qed.

Lemma expired_and_invalid_rejected_alike_witness :
  exists r_e r_i,
    Auth.protect (L := Demo.libs) Demo.env Demo.store Demo.expired_request = Respond r_e
    /\ Auth.protect (L := Demo.libs) Demo.env Demo.store Demo.malformed_request = Respond r_i
    /\ status r_e = 401 /\ status r_i = 401
    /\ message r_e = "Invalid or expired token" /\ message r_i = message r_e
    /\ errors r_e = [] /\ errors r_i = []
    /\ (NODE_ENV Demo.env <> Some "development" -> r_e = r_i)
    /\ (NODE_ENV Demo.env = Some "development" ->
        error r_e = Some "jwt expired"
        /\ stack r_e = Some "TokenExpiredError: jwt expired"
        /\ error r_i = Some "jwt malformed"
        /\ stack r_i = Some "JsonWebTokenError: jwt malformed").
Proof.
  apply (expired_and_invalid_rejected_alike (L := Demo.libs) Demo.env Demo.store
           Demo.expired_request Demo.malformed_request
           "exp:65a000000000000000000003" "not-a-token" "s3cret"
           "TokenExpiredError: jwt expired"
           "jwt malformed" "JsonWebTokenError: jwt malformed"); reflexivity.
Defined.

(** ** User administration *)

Section UserAdministration.
Context {L : Collaborators}.

Lemma canManageUsers_super_admin (actor : User) :
  role actor = "super_admin" -> Auth.canManageUsers (Some actor) = Next actor.
Proof.
  intros Hr. unfold Auth.canManageUsers, Auth.checkRole. rewrite Hr. reflexivity.
Qed.

(** The amended C2: a super admin whose request names his own id as the
    server renders it (as the target of a role change, an activation toggle,
    a status change or a soft delete, or anywhere in the id list of a bulk
    role update) is answered 400 and the stores are left as they were; the
    bulk request is rejected whole.  A request that spells the id otherwise
    is outside this statement. *)
Theorem self_administration_rejected op env st req actor :
  Auth.protect env st req = Next actor ->
  role actor = "super_admin" ->
  UserRoutes.targets_self op actor req ->
  exists r, UserRoutes.admin_route op env st req = (st, r)
            /\ status r = 400
            /\ kind_of_status (status r) = Some ValidationFailed.
Proof.
  intros Hp Hr Hself.
  destruct op; simpl in Hself |- *;
    unfold UserRoutes.put_user_role, UserRoutes.toggle_activation,
      UserRoutes.put_user_status, UserRoutes.delete_user,
      UserRoutes.put_bulk_roles, through;
    rewrite Hp, (canManageUsers_super_admin _ Hr);
    case_match; try (eexists; split; [reflexivity|split; reflexivity]);
    rewrite bool_decide_eq_true_2 by done;
    (eexists; split; [reflexivity|split; reflexivity]).
Qed.

End UserAdministration.

Lemma self_administration_rejected_witness :
  Auth.protect (L := Demo.libs) Demo.env Demo.store Demo.self_role_request
    = Next (without_password Demo.root)
  /\ role (without_password Demo.root) = "super_admin"
  /\ UserRoutes.targets_self UserRoutes.RoleChange (without_password Demo.root)
       Demo.self_role_request
  /\ exists r, UserRoutes.put_user_role (L := Demo.libs) Demo.env Demo.store
                 Demo.self_role_request = (Demo.store, r)
               /\ status r = 400
               /\ kind_of_status (status r) = Some ValidationFailed.
Proof.
  assert (H1 : Auth.protect (L := Demo.libs) Demo.env Demo.store Demo.self_role_request
               = Next (without_password Demo.root)) by (vm_compute; reflexivity).
  assert (H2 : role (without_password Demo.root) = "super_admin") by reflexivity.
  assert (H3 : UserRoutes.targets_self UserRoutes.RoleChange
                 (without_password Demo.root) Demo.self_role_request) by reflexivity.
  split; [exact H1|]. split; [exact H2|]. split; [exact H3|].
  exact (self_administration_rejected (L := Demo.libs) UserRoutes.RoleChange
           Demo.env Demo.store Demo.self_role_request _ H1 H2 H3).
Defined.

(** C2, as stated, fails in two ways.  The self-targeted role change is
    answered 400, not the 403 that carries the Forbidden kind.  And the
    check compares the id as the request spells it with the rendering of the
    actor's id, while the lookup that follows casts it: the same request
    with the super admin's id in upper case passes the check, is answered
    200 and rewrites his own role. *)
Lemma self_role_change_not_forbidden :
  UserRoutes.targets_self UserRoutes.RoleChange (without_password Demo.root)
    Demo.self_role_request
  /\ status (UserRoutes.put_user_role (L := Demo.libs) Demo.env Demo.store
               Demo.self_role_request).2 = 400
  /\ kind_of_status (status (UserRoutes.put_user_role (L := Demo.libs) Demo.env Demo.store
                               Demo.self_role_request).2) <> Some Forbidden
  /\ castObjectId (params_id Demo.self_role_request_upper) = Some (_id Demo.root)
  /\ Auth.protect (L := Demo.libs) Demo.env Demo.store Demo.self_role_request_upper
     = Next (without_password Demo.root)
  /\ status (UserRoutes.put_user_role (L := Demo.libs) Demo.env Demo.store
               Demo.self_role_request_upper).2 = 200
  /\ role <$> (users Demo.store !! _id Demo.root) = Some "super_admin"
  /\ role <$> (users (UserRoutes.put_user_role (L := Demo.libs) Demo.env Demo.store
                        Demo.self_role_request_upper).1 !! _id Demo.root)
     = Some "user".
Proof. vm_compute. repeat split. discriminate. Qed.

(** ** Bulk writes *)

Lemma updateMany_lookup `{EqDecision D} (field : string -> D -> option string)
    (query : gmap string Cond) (upd : D -> D) (coll : gmap string D) (k : string) :
  (updateMany field query upd coll).1 !! k
  = (fun d => if matches field query d then upd d else d) <$> coll !! k.
Proof. unfold updateMany. simpl. apply lookup_fmap. Qed.

Lemma updateMany_dom `{EqDecision D} (field : string -> D -> option string)
    (query : gmap string Cond) (upd : D -> D) (coll : gmap string D) :
  dom (updateMany field query upd coll).1 = dom coll.
Proof. unfold updateMany. simpl. apply dom_fmap_L. Qed.

Lemma matches_singleton {D} (field : string -> D -> option string)
    (k : string) (c : Cond) (d : D) :
  matches field (object_literal [(k, c)]) d
  = match field k d with Some v => cond_holds c v | None => false end.
Proof.
  unfold matches, object_literal. simpl.
  rewrite insert_empty, map_to_list_singleton. simpl.
  destruct (field k d) as [v|]; [apply andb_true_r|reflexivity].
Qed.

(** The value of a key is the one written last. *)
Lemma object_literal_last {V} (props : list (string * V)) (k : string) (v : V) :
  object_literal (props ++ [(k, v)]) !! k = Some v.
Proof.
  unfold object_literal. rewrite foldl_app. simpl. apply lookup_insert_eq.
Qed.

(** The second [_id] of the literal replaces the first: the filter of the
    bulk update only excludes the actor. *)
Lemma bulk_filter_excludes_actor_only (userIds : list string) (actor : User) :
  UserRoutes.bulk_filter userIds actor = object_literal [("_id", CNe (_id actor))].
Proof.
  unfold UserRoutes.bulk_filter, object_literal. simpl.
  apply insert_insert_eq.
Qed.

Section Bulk.
Context {L : Collaborators}.

(** What the bulk update does: every stored user but the actor receives the
    role, listed or not. *)
Lemma put_bulk_roles_reaches_everyone env st req st' r k u :
  UserRoutes.put_bulk_roles env st req = (st', r) ->
  status r = 200 ->
  users st !! k = Some u ->
  exists actor, Auth.protect env st req = Next actor
    /\ users st' !! k
       = Some (if bool_decide (_id u = _id actor) then u
               else set_role (default "" (body_role (body req))) u).
Proof.
  intros Hrun H200 Hu. unfold UserRoutes.put_bulk_roles in Hrun.
  apply through_auth in Hrun as (actor & Hp & _ & Hk); [|lia..].
  exists actor. split; [exact Hp|].
  set (expected := if bool_decide (_id u = _id actor) then u else _).
  repeat case_match; simplify_eq/=.
  rewrite lookup_fmap, Hu. simpl.
  rewrite bulk_filter_excludes_actor_only, matches_singleton.
  subst expected. simpl. unfold user_field. simpl.
  destruct (bool_decide (_id u = _id actor)); reflexivity.
Qed.

(** The single role change, by contrast, writes its target only. *)
Lemma put_user_role_frame env st req k :
  castObjectId (params_id req) <> Some k ->
  users (UserRoutes.put_user_role env st req).1 !! k = users st !! k.
Proof.
  intros Hk. unfold UserRoutes.put_user_role, through.
  repeat case_match; simpl; try reflexivity.
  apply lookup_insert_ne. congruence.
Qed.

End Bulk.

(** C8. The bulk role update is meant to touch the listed users only, but
    the filter is written with two [_id] properties and the [$in] one is
    lost: asked to make Bob an admin, the request also makes Cat one. *)
Theorem bulk_roles_changes_unlisted_user :
  body_userIds (body Demo.bulk_request) = Some [_id Demo.bob]
  /\ (_id Demo.cat ∉ [_id Demo.bob])
  /\ role <$> (users Demo.store !! _id Demo.cat) = Some "user"
  /\ status (UserRoutes.put_bulk_roles (L := Demo.libs) Demo.env Demo.store
               Demo.bulk_request).2 = 200
  /\ role <$> (users (UserRoutes.put_bulk_roles (L := Demo.libs) Demo.env Demo.store
                        Demo.bulk_request).1 !! _id Demo.cat) = Some "admin".
Proof.
  split; [reflexivity|]. split.
  - intros Hin. apply list_elem_of_singleton in Hin. discriminate Hin.
  - vm_compute. repeat split.
Qed.

(** ** Soft delete of a user *)

Section SoftDelete.
Context {L : Collaborators}.

(** C7. When [DELETE /api/users/:id] succeeds, the actor is a super admin;
    the target account is stored as it was but for its flag, now down, and
    the stamp of the save; every other account is as before; every item
    created by the target is stored as it was but for its flag, now down;
    every other item is as before; and no user or item has left its
    collection. *)
Theorem delete_user_cascades env st req st' r :
  UserRoutes.delete_user env st req = (st', r) ->
  status r = 200 ->
  exists actor key target,
    Auth.protect env st req = Next actor /\ role actor = "super_admin"
    /\ castObjectId (params_id req) = Some key
    /\ users st !! key = Some target
    /\ users st' !! key
       = Some (mkUser (_id target) (name target) (email target) (password target)
                      (role target) false (createdAt target) (now env))
    /\ (forall k, k <> key -> users st' !! k = users st !! k)
    /\ (forall k i, items st !! k = Some i ->
          items st' !! k
          = Some (if bool_decide (createdBy i = _id target)
                  then mkItem (item_id i) (image i) (dateRange_start i)
                              (dateRange_end i) (note i) (createdBy i) (updatedBy i)
                              false (item_createdAt i) (item_updatedAt i)
                  else i))
    /\ dom (users st') = dom (users st)
    /\ dom (items st') = dom (items st)
    /\ uploads st' = uploads st.
Proof.
  intros Hrun H200. unfold UserRoutes.delete_user in Hrun.
  apply through_auth in Hrun as (actor & Hp & Hrole & Hk); [|lia..].
  apply list_elem_of_singleton in Hrole.
  exists actor.
  destruct (negb (bool_decide (UserRoutes.id_check req = []))); [simplify_eq/=|].
  destruct (bool_decide (params_id req = _id actor)); [simplify_eq/=|].
  destruct (castObjectId (params_id req)) as [key|] eqn:Hkey; [|simplify_eq/=].
  destruct (users st !! key) as [target|] eqn:Ht; [|simplify_eq/=].
  exists key, target. injection Hk as <- <-.
  split; [exact Hp|]. split; [exact Hrole|]. split; [reflexivity|].
  split; [exact Ht|].
  simpl. split; [apply lookup_insert_eq|].
  split; [intros k Hne; apply lookup_insert_ne; congruence|].
  split; [|split; [|split]].
  - intros k i Hi. rewrite lookup_fmap, Hi. simpl.
    rewrite matches_singleton. unfold item_field. simpl.
    destruct (bool_decide (createdBy i = _id target)); reflexivity.
  - apply dom_insert_lookup_L. eauto.
  - apply dom_fmap_L.
  - reflexivity.
Qed.

End SoftDelete.

Lemma delete_user_cascades_witness :
  UserRoutes.delete_user (L := Demo.libs) Demo.env Demo.store Demo.delete_ann_request
    = (Demo.ann_deleted, send 200 "User account deleted successfully")
  /\ status (send 200 "User account deleted successfully") = 200
  /\ exists actor key target,
      Auth.protect (L := Demo.libs) Demo.env Demo.store Demo.delete_ann_request = Next actor
      /\ role actor = "super_admin"
      /\ castObjectId (params_id Demo.delete_ann_request) = Some key
      /\ users Demo.store !! key = Some target
      /\ users Demo.ann_deleted !! key
         = Some (mkUser (_id target) (name target) (email target) (password target)
                        (role target) false (createdAt target) (now Demo.env))
      /\ (forall k, k <> key -> users Demo.ann_deleted !! k = users Demo.store !! k)
      /\ (forall k i, items Demo.store !! k = Some i ->
            items Demo.ann_deleted !! k
            = Some (if bool_decide (createdBy i = _id target)
                    then mkItem (item_id i) (image i) (dateRange_start i)
                                (dateRange_end i) (note i) (createdBy i) (updatedBy i)
                                false (item_createdAt i) (item_updatedAt i)
                    else i))
      /\ dom (users Demo.ann_deleted) = dom (users Demo.store)
      /\ dom (items Demo.ann_deleted) = dom (items Demo.store)
      /\ uploads Demo.ann_deleted = uploads Demo.store.
Proof.
  assert (H1 : UserRoutes.delete_user (L := Demo.libs) Demo.env Demo.store
                 Demo.delete_ann_request
               = (Demo.ann_deleted, send 200 "User account deleted successfully"))
    by (vm_compute; reflexivity).
  assert (H2 : status (send 200 "User account deleted successfully") = 200)
    by reflexivity.
  split; [exact H1|]. split; [exact H2|].
  exact (delete_user_cascades (L := Demo.libs) _ _ _ _ _ H1 H2).
Defined.

(** ** Item writes *)

Lemma canPerformCRUD_admin (u : User) :
  role u ∈ ["admin"; "super_admin"] -> Auth.canPerformCRUD (Some u) = Next u.
Proof.
  intros Hin. unfold Auth.canPerformCRUD, Auth.checkRole.
  assert (Hne : role u <> "").
  { apply elem_of_cons in Hin as [Hr|Hin]; [rewrite Hr; done|].
    apply list_elem_of_singleton in Hin. rewrite Hin. done. }
  rewrite (bool_decide_eq_false_2 _ Hne), (bool_decide_eq_true_2 _ Hin).
  reflexivity.
Qed.

(** An accepted upload is on disk under its generated name. *)
Lemma processImageUpload_Next st req st1 f :
  Upload.processImageUpload st req = (st1, Next f) ->
  st1 = Upload.store_file (filename f) st.
Proof.
  unfold Upload.processImageUpload.
  repeat case_match; intros [= <- <-]; reflexivity.
Qed.

Section ItemWrites.
Context {L : Collaborators}.

(** C4. A create or update request whose range, as the handler computes it,
    has [end <= start] is answered 400; the items and the users are as
    before, and the file that the request uploaded, if any, is no longer in
    the upload directory. *)
Theorem empty_range_rejected w env st req user start end_ :
  Auth.protect env st req = Next user ->
  role user ∈ ["admin"; "super_admin"] ->
  (w = ItemRoutes.Create -> is_Some (ItemRoutes.accepted_file w st req)) ->
  ItemRoutes.checked_range w st req = Some (start, end_) ->
  date_le end_ start = true ->
  exists st' r,
    ItemRoutes.write_route w env st req = (st', r)
    /\ status r = 400
    /\ kind_of_status (status r) = Some ValidationFailed
    /\ items st' = items st
    /\ users st' = users st
    /\ (forall f, ItemRoutes.accepted_file w st req = Some f ->
          filename f ∉ uploads st').
Proof.
  intros Hp Hrole Hup Hrange Hle.
  destruct w.
  - destruct (Hup eq_refl) as [f Hf]. simpl in Hf |- *.
    apply (inj Some) in Hrange.
    unfold ItemRoutes.post_item, through.
    rewrite Hp, (canPerformCRUD_admin _ Hrole).
    destruct (Upload.processImageUpload st req) as [st1 up] eqn:Hu.
    simpl in Hf. destruct up as [f'|]; [|discriminate Hf].
    injection Hf as ->.
    apply processImageUpload_Next in Hu as ->.
    assert (Hgone : forall g, Some f = Some g ->
              filename g ∉ uploads (Upload.deleteUploadedFile (filename f)
                                      (Upload.store_file (filename f) st))).
    { intros g [= <-]. simpl. apply not_elem_of_difference. right.
      apply elem_of_singleton. reflexivity. }
    rewrite Hrange, Hle.
    destruct (negb _); eexists _, _; (split; [reflexivity|]);
      repeat (split; [reflexivity|]); exact Hgone.
  - simpl in Hrange |- *. unfold ItemRoutes.put_item_route, through.
    rewrite Hp, (canPerformCRUD_admin _ Hrole). simpl.
    destruct (castObjectId (params_id req)) as [key|]; [|discriminate Hrange].
    simpl in Hrange.
    destruct (findActiveItem st key) as [item|]; [|discriminate Hrange].
    rewrite Hrange, Hle.
    destruct (negb _); eexists _, _; (split; [reflexivity|]);
      repeat (split; [reflexivity|]); intros f [=].
Qed.

End ItemWrites.

Lemma empty_range_rejected_witness :
  Auth.protect (L := Demo.libs) Demo.env Demo.store Demo.backwards_offer
    = Next (without_password Demo.ann)
  /\ role (without_password Demo.ann) ∈ ["admin"; "super_admin"]
  /\ is_Some (ItemRoutes.accepted_file ItemRoutes.Create Demo.store Demo.backwards_offer)
  /\ ItemRoutes.checked_range (L := Demo.libs) ItemRoutes.Create Demo.store
       Demo.backwards_offer
     = Some (Some (Date_UTC 2024 1 1), Some (Date_UTC 2023 12 31))
  /\ date_le (Some (Date_UTC 2023 12 31)) (Some (Date_UTC 2024 1 1)) = true
  /\ exists st' r,
      ItemRoutes.post_item (L := Demo.libs) Demo.env Demo.store Demo.backwards_offer
        = (st', r)
      /\ status r = 400
      /\ kind_of_status (status r) = Some ValidationFailed
      /\ items st' = items Demo.store
      /\ users st' = users Demo.store
      /\ (forall f, ItemRoutes.accepted_file ItemRoutes.Create Demo.store
                      Demo.backwards_offer = Some f ->
            filename f ∉ uploads st').
Proof.
  assert (H1 : Auth.protect (L := Demo.libs) Demo.env Demo.store Demo.backwards_offer
               = Next (without_password Demo.ann)) by (vm_compute; reflexivity).
  assert (H2 : role (without_password Demo.ann) ∈ ["admin"; "super_admin"])
    by apply list_elem_of_here.
  assert (H3 : is_Some (ItemRoutes.accepted_file ItemRoutes.Create Demo.store
                          Demo.backwards_offer)) by (vm_compute; eauto).
  assert (H4 : ItemRoutes.checked_range (L := Demo.libs) ItemRoutes.Create Demo.store
                 Demo.backwards_offer
               = Some (Some (Date_UTC 2024 1 1), Some (Date_UTC 2023 12 31)))
    by (vm_compute; reflexivity).
  assert (H5 : date_le (Some (Date_UTC 2023 12 31)) (Some (Date_UTC 2024 1 1)) = true)
    by (vm_compute; reflexivity).
  split; [exact H1|]. split; [exact H2|]. split; [exact H3|].
  split; [exact H4|]. split; [exact H5|].
  exact (empty_range_rejected (L := Demo.libs) ItemRoutes.Create Demo.env Demo.store
           Demo.backwards_offer _ _ _ H1 H2 (fun _ => H3) H4 H5).
Defined.

(** The same rejection on the update route: the sale cannot start after it
    ends. *)
Example late_start_rejected :
  ItemRoutes.put_item_route (L := Demo.libs) Demo.env Demo.store Demo.late_start
  = (Demo.store, send 400 "End date must be after start date").
Proof. vm_compute. reflexivity. Qed.

Section PartialUpdate.
Context {L : Collaborators}.

Lemma supplied_range which item b s t :
  ItemRoutes.supplies_only b which s -> s <> "" -> Date_parse s = Some t ->
  ItemRoutes.effective_range item b
  = Some (Some (ItemRoutes.merged_range which t item).1,
          Some (ItemRoutes.merged_range which t item).2).
Proof.
  intros Hs Hne Ht. unfold ItemRoutes.effective_range.
  destruct which; destruct Hs as [-> ->]; simpl;
    rewrite (bool_decide_eq_false_2 _ Hne), Ht; reflexivity.
Qed.

(** An update that carries a date range fails the update validators,
    whatever the range. *)
Lemma update_validators_dated item u range :
  upd_dateRange u = Some range -> update_validators item u = false.
Proof.
  intros Hr. unfold update_validators. rewrite Hr.
  destruct range as [s [e|]]; reflexivity.
Qed.

(** C5. An update that supplies one bound of the range only is checked
    against the pair made of the supplied bound and the stored opposite
    bound, as the specification asks; but when that pair is in order and the
    request is otherwise valid, the write that follows runs the schema's
    [end] validator on the update, the validator throws, and the request is
    answered 500 with the stores as they were: the merged range is never
    persisted. *)
Theorem partial_range_not_persisted which env st req user key item s t :
  Auth.protect env st req = Next user ->
  role user ∈ ["admin"; "super_admin"] ->
  castObjectId (params_id req) = Some key ->
  findActiveItem st key = Some item ->
  ItemRoutes.supplies_only (body req) which s ->
  s <> "" ->
  Date_parse s = Some t ->
  ItemRoutes.update_check req = [] ->
  let range := ItemRoutes.merged_range which t item in
  range.1 < range.2 ->
  ItemRoutes.checked_range ItemRoutes.Update st req = Some (Some range.1, Some range.2)
  /\ ItemRoutes.put_item_route env st req
     = (st, send 500 "Server error while updating item")
  /\ findActiveItem (ItemRoutes.put_item_route env st req).1 key = Some item.
Proof.
  intros Hp Hrole Hkey Hitem Hs Hne Ht Hcheck range Hlt.
  pose proof (supplied_range which item _ s t Hs Hne Ht) as Heff.
  fold range in Heff.
  assert (Hrun : ItemRoutes.put_item_route env st req
                 = (st, send 500 "Server error while updating item")).
  { unfold ItemRoutes.put_item_route, through.
    rewrite Hp, (canPerformCRUD_admin _ Hrole). simpl.
    rewrite Hcheck, Hkey, Hitem, Heff. simpl.
    rewrite (proj2 (Z.leb_gt _ _) Hlt).
    unfold ItemRoutes.image_update. simpl. reflexivity. }
  split; [|split].
  - simpl. rewrite Hkey. simpl. rewrite Hitem. exact Heff.
  - exact Hrun.
  - rewrite Hrun. exact Hitem.
Qed.

End PartialUpdate.

Lemma partial_range_not_persisted_witness :
  Auth.protect (L := Demo.libs) Demo.env Demo.store Demo.mid_january_start
    = Next (without_password Demo.ann)
  /\ role (without_password Demo.ann) ∈ ["admin"; "super_admin"]
  /\ castObjectId (params_id Demo.mid_january_start) = Some (item_id Demo.sale)
  /\ findActiveItem Demo.store (item_id Demo.sale) = Some Demo.sale
  /\ ItemRoutes.supplies_only (body Demo.mid_january_start) ItemRoutes.StartDate "2024-01-15"
  /\ "2024-01-15" <> ""
  /\ Date_parse_ymd "2024-01-15" = Some (Date_UTC 2024 1 15)
  /\ ItemRoutes.update_check (L := Demo.libs) Demo.mid_january_start = []
  /\ Date_UTC 2024 1 15 < Date_UTC 2024 1 31
  /\ ItemRoutes.checked_range (L := Demo.libs) ItemRoutes.Update Demo.store
       Demo.mid_january_start
     = Some (Some (Date_UTC 2024 1 15), Some (Date_UTC 2024 1 31))
  /\ ItemRoutes.put_item_route (L := Demo.libs) Demo.env Demo.store Demo.mid_january_start
     = (Demo.store, send 500 "Server error while updating item")
  /\ findActiveItem
       (ItemRoutes.put_item_route (L := Demo.libs) Demo.env Demo.store
          Demo.mid_january_start).1 (item_id Demo.sale)
     = Some Demo.sale.
Proof.
  assert (H1 : Auth.protect (L := Demo.libs) Demo.env Demo.store Demo.mid_january_start
               = Next (without_password Demo.ann)) by (vm_compute; reflexivity).
  assert (H2 : role (without_password Demo.ann) ∈ ["admin"; "super_admin"])
    by apply list_elem_of_here.
  assert (H3 : castObjectId (params_id Demo.mid_january_start) = Some (item_id Demo.sale))
    by (vm_compute; reflexivity).
  assert (H4 : findActiveItem Demo.store (item_id Demo.sale) = Some Demo.sale)
    by (vm_compute; reflexivity).
  assert (H5 : ItemRoutes.supplies_only (body Demo.mid_january_start)
                 ItemRoutes.StartDate "2024-01-15") by (split; reflexivity).
  assert (H6 : "2024-01-15" <> "") by discriminate.
  assert (H7 : Date_parse (Collaborators := Demo.libs) "2024-01-15"
               = Some (Date_UTC 2024 1 15)) by (vm_compute; reflexivity).
  assert (H8 : ItemRoutes.update_check (L := Demo.libs) Demo.mid_january_start = [])
    by (vm_compute; reflexivity).
  assert (H9 : Date_UTC 2024 1 15 < Date_UTC 2024 1 31) by (vm_compute; reflexivity).
  split; [exact H1|]. split; [exact H2|]. split; [exact H3|]. split; [exact H4|].
  split; [exact H5|]. split; [exact H6|]. split; [exact H7|]. split; [exact H8|].
  split; [exact H9|].
  exact (partial_range_not_persisted (L := Demo.libs) ItemRoutes.StartDate Demo.env
           Demo.store Demo.mid_january_start _ _ _ _ _ H1 H2 H3 H4 H5 H6 H7 H8 H9).
Defined.

(** ** Registration *)

Lemma existsb_first_line (p : ascii -> bool) (l : list ascii) :
  existsb p (AuthRoutes.first_line l) = true -> existsb p l = true.
Proof.
  induction l as [|a l IH]; simpl; [done|].
  destruct (is_line_terminator a); simpl; [discriminate|].
  destruct (p a); simpl; auto.
Qed.

Lemma lookahead_false (p : ascii -> bool) (s : string) :
  existsb p (chars s) = false -> AuthRoutes.lookahead p s = false.
Proof.
  intros Hn. unfold AuthRoutes.lookahead.
  destruct (existsb p (AuthRoutes.first_line (chars s))) eqn:He; [|reflexivity].
  apply existsb_first_line in He. congruence.
Qed.

Lemma weak_password_checked (b : Body) :
  AuthRoutes.weak_password (default "" (body_password b)) ->
  AuthRoutes.password_check b <> [].
Proof.
  unfold AuthRoutes.weak_password, AuthRoutes.password_check.
  intros [Hlen|Hpat] He; apply app_eq_nil in He as [Hc1 Hc2].
  - apply Nat.leb_gt in Hlen. rewrite Hlen in Hc1. discriminate Hc1.
  - assert (Hp : AuthRoutes.password_pattern (default "" (body_password b)) = false).
    { unfold AuthRoutes.password_pattern.
      destruct Hpat as [Hl|[Hu|Hd]].
      - rewrite (lookahead_false _ _ Hl). reflexivity.
      - rewrite (lookahead_false _ _ Hu). apply andb_false_iff. left.
        apply andb_false_r.
      - rewrite (lookahead_false _ _ Hd). apply andb_false_r. }
    rewrite Hp in Hc2. discriminate Hc2.
Qed.

Section Registration.
Context {L : Collaborators}.

Lemma weak_password_register_check (b : Body) :
  AuthRoutes.weak_password (default "" (body_password b)) ->
  AuthRoutes.register_check b <> [].
Proof.
  intros Hw%weak_password_checked. unfold AuthRoutes.register_check.
  intros He. do 3 (apply app_eq_nil in He as [_ He]). done.
Qed.

(** The amended C10: a registration whose password is shorter than 6
    characters or lacks a lowercase letter, an uppercase letter or a digit
    is answered 400 "Validation failed" with the failed checks, and one
    whose fields pass but whose address is already registered is answered
    400 "User already exists with this email"; in both cases no user is
    stored. *)
Theorem register_rejections env st req :
  AuthRoutes.weak_password (default "" (body_password (body req)))
  \/ AuthRoutes.email_registered st
       (normalizeEmail (default "" (body_email (body req)))) ->
  exists r,
    AuthRoutes.register env st req = (st, r)
    /\ status r = 400
    /\ kind_of_status (status r) = Some ValidationFailed
    /\ (AuthRoutes.weak_password (default "" (body_password (body req))) ->
        r = validation_failed (AuthRoutes.register_check (body req))
        /\ errors r <> [])
    /\ (AuthRoutes.register_check (body req) = [] ->
        normalizeEmail (default "" (body_email (body req))) <> "" ->
        r = send 400 "User already exists with this email").
Proof.
  intros Hcase. unfold AuthRoutes.register.
  destruct (bool_decide (AuthRoutes.register_check (body req) = [])) eqn:Herrs; simpl.
  - apply bool_decide_eq_true in Herrs.
    assert (Hreg : AuthRoutes.email_registered st
                     (normalizeEmail (default "" (body_email (body req))))).
    { destruct Hcase as [Hw|Hreg]; [|exact Hreg].
      apply weak_password_register_check in Hw. done. }
    destruct Hreg as [existing Hreg].
    assert (Hnw : ~ AuthRoutes.weak_password (default "" (body_password (body req)))).
    { intros Hw. apply weak_password_register_check in Hw. done. }
    destruct (bool_decide (trim (default "" (body_name (body req))) = "")
              || bool_decide (normalizeEmail (default "" (body_email (body req))) = "")
              || bool_decide (default "" (body_password (body req)) = "")) eqn:Hreq.
    + eexists. split; [reflexivity|]. do 2 (split; [reflexivity|]).
      split; [done|]. intros _ Hne.
      apply orb_true_iff in Hreq as [Hreq|Hp].
      * apply orb_true_iff in Hreq as [Hn|He].
        -- exfalso. apply bool_decide_eq_true in Hn.
           unfold AuthRoutes.register_check in Herrs. rewrite Hn in Herrs.
           discriminate Herrs.
        -- apply bool_decide_eq_true in He. done.
      * exfalso. apply bool_decide_eq_true in Hp. apply Hnw. left.
        rewrite Hp. simpl. lia.
    + rewrite Hreg. eexists. split; [reflexivity|]. do 2 (split; [reflexivity|]).
      split; [done|]. reflexivity.
  - apply bool_decide_eq_false in Herrs.
    eexists. split; [reflexivity|]. do 2 (split; [reflexivity|]).
    split; [intros _; split; [reflexivity|exact Herrs]|]. done.
Qed.

End Registration.

Lemma register_rejections_witness :
  AuthRoutes.weak_password (default "" (body_password (body Demo.dan_weak)))
  /\ exists r,
      AuthRoutes.register (L := Demo.libs) Demo.env Demo.store Demo.dan_weak
        = (Demo.store, r)
      /\ status r = 400
      /\ r = validation_failed (AuthRoutes.register_check (L := Demo.libs) (body Demo.dan_weak)).
Proof.
  assert (H1 : AuthRoutes.weak_password (default "" (body_password (body Demo.dan_weak))))
    by (right; right; left; reflexivity).
  split; [exact H1|].
  destruct (register_rejections (L := Demo.libs) Demo.env Demo.store Demo.dan_weak
              (or_introl H1)) as (r & Hrun & Hs & _ & Hw & _).
  exists r. split; [exact Hrun|]. split; [exact Hs|]. exact (proj1 (Hw H1)).
Defined.

(** C10, as stated, fails: a registration under an address already in use is
    answered 400, the status of a failed validation, not the 409 that
    carries the Conflict kind. *)
Lemma duplicate_email_not_conflict :
  AuthRoutes.register_check (L := Demo.libs) (body Demo.dan_taken) = []
  /\ AuthRoutes.email_registered Demo.store
       (normalizeEmail (Collaborators := Demo.libs)
          (default "" (body_email (body Demo.dan_taken))))
  /\ AuthRoutes.register (L := Demo.libs) Demo.env Demo.store Demo.dan_taken
     = (Demo.store, send 400 "User already exists with this email")
  /\ kind_of_status
       (status (AuthRoutes.register (L := Demo.libs) Demo.env Demo.store Demo.dan_taken).2)
     <> Some Conflict.
Proof.
  split; [vm_compute; reflexivity|]. split; [vm_compute; eauto|].
  split; [vm_compute; reflexivity|]. vm_compute. discriminate.
Qed.

(** * Further properties *)

(** ** The frontend's permission helpers *)

(** X1. Asking for several capabilities at once is asking for each of them:
    [hasPermissions] on a concatenated list is the conjunction of the two
    answers, for each of the three roles. *)
Theorem hasPermissions_app (r : Role) (cs1 cs2 : list Capability) :
  Permissions.hasPermissions (Some (role_name r))
    (Some (Permissions.capability_key <$> (cs1 ++ cs2)))
  = Permissions.hasPermissions (Some (role_name r))
      (Some (Permissions.capability_key <$> cs1))
    && Permissions.hasPermissions (Some (role_name r))
         (Some (Permissions.capability_key <$> cs2)).
Proof.
  rewrite fmap_app. unfold Permissions.hasPermissions.
  destruct (bool_decide (role_name r = "")); [reflexivity|].
  destruct (Permissions.PERMISSIONS !! role_name r); [|reflexivity].
  apply forallb_app.
Qed.

(** X2. The frontend's [canPerformCRUD] asks for create, update and delete
    together, so among the three roles it holds of [super_admin] alone, like
    [canManageUsers], and it holds of no visitor without a role; the backend
    guard of the same name lets an admin through. *)
Theorem frontend_canPerformCRUD_super_admin_only (r : Role) (u : User) :
  Permissions.canPerformCRUD (Some (role_name r))
    = match r with RSuperAdmin => true | _ => false end
  /\ Permissions.canManageUsers (Some (role_name r))
     = Permissions.canPerformCRUD (Some (role_name r))
  /\ Permissions.canPerformCRUD None = false
  /\ passes (Auth.canPerformCRUD (Some (set_role (role_name r) u)))
     = match r with RUser => false | _ => true end.
Proof. destruct r; repeat split; reflexivity. Qed.

(** X3. [canAccessRoute] decides on the first pattern the route includes:
    a super admin reaches every route, a user is kept out of every route
    that includes one of the three patterns, and an admin is kept out only
    of a route that includes [/users] and neither of the item patterns. *)
Theorem canAccessRoute_table (route : string) :
  let creates := Upload.includes "/items/create" route in
  let edits := Upload.includes "/items/edit" route in
  let manages := Upload.includes "/users" route in
  RouteAccess.canAccessRoute (Some "super_admin") route = true
  /\ RouteAccess.canAccessRoute (Some "admin") route = creates || edits || negb manages
  /\ RouteAccess.canAccessRoute (Some "user") route = negb (creates || edits || manages)
  /\ RouteAccess.canAccessRoute None route = negb (creates || edits || manages).
Proof.
  intros creates edits manages. subst creates edits manages.
  unfold RouteAccess.canAccessRoute. simpl.
  destruct (Upload.includes "/items/create" route);
    destruct (Upload.includes "/items/edit" route);
    destruct (Upload.includes "/users" route);
    repeat split; reflexivity.
Qed.

(** ** Passwords, durations and text in the frontend helpers *)

Lemma password_check_nil (b : Body) :
  AuthRoutes.password_check b = [] <->
  (6 <=? String.length (default "" (body_password b)))%nat = true
  /\ AuthRoutes.password_pattern (default "" (body_password b)) = true.
Proof.
  unfold AuthRoutes.password_check.
  destruct (6 <=? _)%nat; destruct (AuthRoutes.password_pattern _); simpl;
    split; try discriminate; try (intros [? ?]; discriminate); auto.
Qed.


Lemma strong_not_weak (p : string) :
  HelpersText.getPasswordStrength p = "Strong" <-> ~ AuthRoutes.weak_password p.
Proof.
  unfold HelpersText.getPasswordStrength, AuthRoutes.weak_password.
  destruct (String.length p <? 6)%nat eqn:Hlen.
  { apply Nat.ltb_lt in Hlen. split; [discriminate|]. intros Hn. exfalso. auto. }
  apply Nat.ltb_ge in Hlen.
  destruct (existsb is_lower (chars p)); simpl;
    [|split; [discriminate|intros Hn; exfalso; auto]].
  destruct (existsb is_upper (chars p)); simpl;
    [|split; [discriminate|intros Hn; exfalso; auto]].
  destruct (existsb is_digit (chars p)); simpl;
    [|split; [discriminate|intros Hn; exfalso; auto]].
  split; [|reflexivity]. intros _ [H|[H|[H|H]]]; try discriminate. lia.
Qed.

(** X5. A password that passes the two checks of the register route is one
    that [getPasswordStrength] calls "Strong": the strength meter never
    denies a password that the backend accepts. *)
Theorem accepted_password_is_strong (b : Body) :
  AuthRoutes.password_check b = [] ->
  HelpersText.getPasswordStrength (default "" (body_password b)) = "Strong".
Proof.
  intros Hc. apply strong_not_weak. intros Hw.
  exact (weak_password_checked b Hw Hc).
Qed.

Lemma accepted_password_is_strong_witness :
  AuthRoutes.password_check (body Demo.dan_taken) = []
  /\ HelpersText.getPasswordStrength (default "" (body_password (body Demo.dan_taken)))
     = "Strong".
Proof.
  assert (H1 : AuthRoutes.password_check (body Demo.dan_taken) = [])
    by (vm_compute; reflexivity).
  split; [exact H1|]. exact (accepted_password_is_strong _ H1).
Defined.

(** The converse of X4 and X5 fails on a password with a line break: the
    meter calls it strong and the form refuses it, while the route looks at
    the first line only. *)
Example line_break_password :
  let p := "Abc1" +:+ String "010" "xy" in
  HelpersText.getPasswordStrength p = "Strong"
  /\ HelpersText.isValidPassword p = false
  /\ AuthRoutes.password_pattern p = true
  /\ AuthRoutes.password_pattern ("xy" +:+ String "010" "Abc1") = false.
Proof. vm_compute. repeat split. Qed.

Section Durations.
Context {L : Collaborators}.

(** X6. [calculateDuration] does not depend on the order of its two dates,
    and on the strings of an item's two dates it gives the item's
    [durationDays]. *)
Theorem calculateDuration_durationDays (s e : string) (i : Item) :
  Date_parse s = Some (dateRange_start i) ->
  Date_parse e = Some (dateRange_end i) ->
  HelpersText.calculateDuration s e = Some (durationDays i)
  /\ HelpersText.calculateDuration e s = Some (durationDays i).
Proof.
  intros Hs He. unfold HelpersText.calculateDuration, durationDays.
  rewrite Hs, He. split; [reflexivity|].
  rewrite <- Z.abs_opp. do 4 f_equal. lia.
Qed.

End Durations.

Lemma calculateDuration_durationDays_witness :
  Date_parse_ymd "2024-01-01" = Some (dateRange_start Demo.sale)
  /\ Date_parse_ymd "2024-01-31" = Some (dateRange_end Demo.sale)
  /\ HelpersText.calculateDuration (L := Demo.libs) "2024-01-01" "2024-01-31"
     = Some (durationDays Demo.sale)
  /\ HelpersText.calculateDuration (L := Demo.libs) "2024-01-31" "2024-01-01"
     = Some (durationDays Demo.sale).
Proof.
  assert (H1 : Date_parse (Collaborators := Demo.libs) "2024-01-01"
               = Some (dateRange_start Demo.sale)) by (vm_compute; reflexivity).
  assert (H2 : Date_parse (Collaborators := Demo.libs) "2024-01-31"
               = Some (dateRange_end Demo.sale)) by (vm_compute; reflexivity).
  split; [exact H1|]. split; [exact H2|].
  exact (calculateDuration_durationDays (L := Demo.libs) _ _ Demo.sale H1 H2).
Defined.

(** X7. An item that ends after it starts, less than 2^53 milliseconds
    later, lasts at least one day; a range of [n] whole days lasts [n] days,
    and one millisecond more makes it [n + 1]. *)
Theorem durationDays_whole_days (i : Item) (n : Z) :
  dateRange_start i < dateRange_end i ->
  dateRange_end i - dateRange_start i < 2 ^ 53 ->
  1 <= durationDays i
  /\ (dateRange_end i - dateRange_start i = n * msPerDay -> durationDays i = n)
  /\ (dateRange_end i - dateRange_start i = n * msPerDay + 1 -> durationDays i = n + 1).
Proof.
  intros Hlt Hx.
  assert (Habs : Z.abs (dateRange_end i - dateRange_start i)
                 = dateRange_end i - dateRange_start i) by lia.
  rewrite (durationDays_exact i) by lia. rewrite Habs.
  pose proof (ceiling_bounds (dateRange_end i - dateRange_start i) msPerDay eq_refl) as Hb.
  set (d := - (- (dateRange_end i - dateRange_start i) / msPerDay)) in *.
  unfold msPerDay in *.
  split; [|split]; [nia| intros He; nia | intros He; nia].
Qed.

Lemma durationDays_whole_days_witness :
  dateRange_start Demo.sale < dateRange_end Demo.sale
  /\ dateRange_end Demo.sale - dateRange_start Demo.sale < 2 ^ 53
  /\ 1 <= durationDays Demo.sale
  /\ (dateRange_end Demo.sale - dateRange_start Demo.sale = 30 * msPerDay ->
      durationDays Demo.sale = 30).
Proof.
  assert (H1 : dateRange_start Demo.sale < dateRange_end Demo.sale)
    by (vm_compute; reflexivity).
  assert (H2 : dateRange_end Demo.sale - dateRange_start Demo.sale < 2 ^ 53)
    by (vm_compute; reflexivity).
  split; [exact H1|]. split; [exact H2|].
  destruct (durationDays_whole_days Demo.sale 30 H1 H2) as (Ha & Hb & _).
  split; [exact Ha|exact Hb].
Defined.

Lemma length_substring_0 (n : nat) (s : string) :
  String.length (substring 0 n s) = Nat.min n (String.length s).
Proof.
  revert n. induction s as [|a s IH]; intros [|n]; simpl; try reflexivity.
  rewrite IH. reflexivity.
Qed.

Lemma length_append (s t : string) :
  String.length (s +:+ t) = (String.length s + String.length t)%nat.
Proof. induction s as [|a s IH]; simpl; [reflexivity|]. rewrite IH. reflexivity. Qed.

(** X8. [truncateText] returns the text itself when it fits; otherwise the
    result is the first [maxLength] characters and three dots, so it has
    [maxLength + 3] characters, which is more than the text had when the
    text was less than three characters too long. *)
Theorem truncateText_length (text : string) (maxLength : Z) :
  0 <= maxLength ->
  (Z.of_nat (String.length text) <= maxLength ->
   HelpersText.truncateText text maxLength = text)
  /\ (maxLength < Z.of_nat (String.length text) ->
      HelpersText.truncateText text maxLength
        = substring 0 (Z.to_nat maxLength) text +:+ "..."
      /\ Z.of_nat (String.length (HelpersText.truncateText text maxLength))
         = maxLength + 3).
Proof.
  intros Hm. unfold HelpersText.truncateText. split.
  - intros Hle. apply Z.leb_le in Hle. rewrite Hle. reflexivity.
  - intros Hlt. apply Z.leb_gt in Hlt as Hlt'. rewrite Hlt'. split; [reflexivity|].
    rewrite length_append, length_substring_0. simpl. lia.
Qed.

Lemma truncateText_length_witness :
  0 <= 3
  /\ HelpersText.truncateText "abcd" 3 = "abc..."
  /\ Z.of_nat (String.length (HelpersText.truncateText "abcd" 3)) = 3 + 3.
Proof.
  assert (H1 : 0 <= 3) by lia.
  split; [exact H1|].
  exact (proj2 (truncateText_length "abcd" 3 H1) ltac:(vm_compute; reflexivity)).
Defined.

(** ** Guards and resolvers *)

(** X9. A role guard only grows with its list of roles: whoever passes
    [checkRole] for a list passes it for any list that contains it.  In
    particular whoever may delete may write, and whoever may write may
    read. *)
Theorem checkRole_mono (roles roles' : list string) (u : option User) :
  roles ⊆ roles' ->
  passes (Auth.checkRole roles u) = true ->
  passes (Auth.checkRole roles' u) = true.
Proof.
  intros Hsub. unfold Auth.checkRole.
  destruct u as [u|]; [|discriminate].
  destruct (bool_decide (role u = "")); [discriminate|].
  destruct (bool_decide (roles = [])); [discriminate|].
  destruct (bool_decide (role u ∈ roles)) eqn:Hin; [|discriminate].
  apply bool_decide_eq_true in Hin. intros _.
  assert (Hin' : role u ∈ roles') by (apply Hsub, Hin).
  rewrite (bool_decide_eq_true_2 _ Hin').
  destruct (bool_decide (roles' = [])) eqn:Hnil; [|reflexivity].
  apply bool_decide_eq_true in Hnil. rewrite Hnil in Hin'.
  apply elem_of_nil in Hin'. destruct Hin'.
Qed.

Lemma checkRole_mono_witness :
  ["super_admin"] ⊆ ["admin"; "super_admin"]
  /\ passes (Auth.canDelete (Some Demo.root)) = true
  /\ passes (Auth.canPerformCRUD (Some Demo.root)) = true.
Proof.
  assert (H1 : ["super_admin"] ⊆ ["admin"; "super_admin"]).
  { intros x Hx. apply list_elem_of_singleton in Hx. rewrite Hx.
    apply list_elem_of_further, list_elem_of_here. }
  assert (H2 : passes (Auth.canDelete (Some Demo.root)) = true) by reflexivity.
  split; [exact H1|]. split; [exact H2|].
  exact (checkRole_mono _ _ _ H1 H2).
Defined.

Lemma castObjectId_empty : castObjectId "" = None.
Proof. reflexivity. Qed.

Section Resolvers.
Context {L : Collaborators}.

(** X10. [optionalAuth] attaches a user to exactly the requests that
    [protect] lets through, and it is the same user. *)
Theorem optionalAuth_protect env st req (u : User) :
  OptionalAuth.optionalAuth env st req = Some u <-> Auth.protect env st req = Next u.
Proof.
  unfold OptionalAuth.optionalAuth, Auth.protect.
  destruct (truthy (Auth.bearer_token (authorization req))); [|split; discriminate].
  destruct (truthy (JWT_SECRET env)); [|split; discriminate].
  destruct (jwt_verify _ _ _) as [e|decoded]; [split; discriminate|].
  destruct (id decoded) as [uid|]; simpl; [|split; discriminate].
  destruct (bool_decide (uid = "")) eqn:Hid.
  - apply bool_decide_eq_true in Hid. subst uid. rewrite castObjectId_empty.
    split; discriminate.
  - destruct (castObjectId uid) as [key|]; simpl; [|split; discriminate].
    destruct (users st !! key) as [user|]; [|split; discriminate].
    destruct (isActive user); simpl; split; congruence.
Qed.

(** X11. [POST /api/auth/verify-token] answers 200 for exactly the tokens
    that [protect] accepts as bearer tokens, on the same store and clock. *)
Theorem verify_token_protect env st req token :
  truthy (Auth.bearer_token (authorization req)) = Some token ->
  status (Session.verify_token env st (Some token)) = 200
  <-> exists u, Auth.protect env st req = Next u.
Proof.
  intros Hreq. unfold Session.verify_token, Auth.protect. rewrite Hreq.
  assert (Ht : truthy (Some token) = Some token).
  { unfold truthy in Hreq |- *.
    destruct (Auth.bearer_token (authorization req)) as [t|]; [|discriminate].
    destruct (bool_decide (t = "")) eqn:Hte; [discriminate|].
    injection Hreq as <-. rewrite Hte. reflexivity. }
  rewrite Ht.
  destruct (truthy (JWT_SECRET env)); [|split; [discriminate|intros [? ?]; discriminate]].
  destruct (jwt_verify _ _ _) as [e|decoded];
    [split; [discriminate|intros [? ?]; discriminate]|].
  destruct (id decoded) as [uid|]; simpl;
    [|split; [discriminate|intros [? ?]; discriminate]].
  destruct (bool_decide (uid = "")) eqn:Hid.
  - apply bool_decide_eq_true in Hid. subst uid. rewrite castObjectId_empty.
    split; [discriminate|intros [? ?]; discriminate].
  - destruct (castObjectId uid) as [key|]; simpl;
      [|split; [discriminate|intros [? ?]; discriminate]].
    destruct (users st !! key) as [user|];
      [|split; [discriminate|intros [? ?]; discriminate]].
    destruct (isActive user); simpl;
      split; try discriminate; try (intros [? ?]; discriminate); eauto.
Qed.

End Resolvers.

Lemma verify_token_protect_witness :
  truthy (Auth.bearer_token (authorization Demo.bob_request))
    = Some "id:65a000000000000000000003"
  /\ (status (Session.verify_token (L := Demo.libs) Demo.env Demo.store
                (Some "id:65a000000000000000000003")) = 200
      <-> exists u, Auth.protect (L := Demo.libs) Demo.env Demo.store Demo.bob_request
                    = Next u).
Proof.
  assert (H1 : truthy (Auth.bearer_token (authorization Demo.bob_request))
               = Some "id:65a000000000000000000003") by reflexivity.
  split; [exact H1|].
  exact (verify_token_protect (L := Demo.libs) Demo.env Demo.store Demo.bob_request
           _ H1).
Defined.

(** ** Uploads and the item routes *)

(** X12. [processImageUpload] either answers 400 or 500 and leaves the
    stores alone, or passes on the file of the request, which is then on
    disk, smaller than 5 MB, of an allowed MIME type and of an allowed
    extension. *)
Theorem processImageUpload_outcome (st : Store) (req : Request) :
  match Upload.processImageUpload st req with
  | (st', Respond r) => st' = st /\ (status r = 400 \/ status r = 500)
  | (st', Next f) =>
      multipart_file req = Some f
      /\ st' = Upload.store_file (filename f) st
      /\ filename f ∈ uploads st'
      /\ size f < Upload.fileSize
      /\ mimetype f ∈ Upload.allowedTypes
      /\ toLowerCase (Upload.extname (originalname f)) ∈ Upload.allowedExtensions
  end.
Proof.
  unfold Upload.processImageUpload.
  destruct (multipart_file req) as [file|]; [|split; [reflexivity|left; reflexivity]].
  destruct (Upload.fileFilter file) as [e|] eqn:Hf.
  { split; [reflexivity|]. unfold Upload.handleUploadError.
    destruct (_ || _); [left|right]; reflexivity. }
  destruct (Upload.fileSize <=? size file) eqn:Hsz;
    [split; [reflexivity|left; reflexivity]|].
  apply Z.leb_gt in Hsz.
  split; [reflexivity|]. split; [reflexivity|].
  split; [simpl; apply elem_of_union_l, elem_of_singleton; reflexivity|].
  split; [exact Hsz|].
  unfold Upload.fileFilter in Hf.
  repeat case_match; try discriminate.
  split.
  - match goal with H : negb (bool_decide (mimetype file ∈ _)) = false |- _ =>
      apply negb_false_iff, bool_decide_eq_true in H; exact H end.
  - match goal with H : negb (bool_decide (toLowerCase _ ∈ _)) = false |- _ =>
      apply negb_false_iff, bool_decide_eq_true in H; exact H end.
Qed.

(** A refused upload leaves the stores alone. *)
Lemma processImageUpload_Respond st req st1 r :
  Upload.processImageUpload st req = (st1, Respond r) ->
  st1 = st /\ (status r = 400 \/ status r = 500).
Proof.
  unfold Upload.processImageUpload, Upload.handleUploadError.
  repeat case_match; intros [= <- <-]; simpl; auto.
Qed.

Lemma processImageUpload_file st req st1 f :
  Upload.processImageUpload st req = (st1, Next f) -> multipart_file req = Some f.
Proof.
  unfold Upload.processImageUpload.
  repeat case_match; intros [= <- <-]; reflexivity.
Qed.

Section ItemRouteProperties.
Context {L : Collaborators}.

(** What [POST /api/items] does to the items: nothing, or one validated
    item more. *)
Lemma post_item_items env st req :
  items (ItemRoutes.post_item env st req).1 = items st
  \/ exists item,
       Item_validate item = true
       /\ items (ItemRoutes.post_item env st req).1 = <[item_id item := item]> (items st).
Proof.
  unfold ItemRoutes.post_item, through.
  destruct (Auth.protect env st req) as [user|]; [|left; reflexivity].
  destruct (Auth.canPerformCRUD (Some user)); [|left; reflexivity].
  destruct (Upload.processImageUpload st req) as [st1 [f|r]] eqn:Hup.
  2:{ apply processImageUpload_Respond in Hup as [-> _]. left. reflexivity. }
  apply processImageUpload_Next in Hup as ->.
  destruct (negb (bool_decide (ItemRoutes.create_check (body req) = [])));
    [left; reflexivity|].
  destruct (ItemRoutes.create_range (body req)) as [start end_].
  destruct (date_le end_ start); [left; reflexivity|].
  destruct start as [s|], end_ as [e|]; try (left; reflexivity).
  destruct (Item_validate _) eqn:Hv; [|left; reflexivity].
  right. eexists. split; [exact Hv|reflexivity].
Qed.

(** X13. [POST /api/items] leaves nothing behind when it does not answer
    201: the users and the items are as before and the upload directory
    holds no file that it did not hold before. *)
Theorem post_item_failure_clean env st req :
  status (ItemRoutes.post_item env st req).2 <> 201 ->
  users (ItemRoutes.post_item env st req).1 = users st
  /\ items (ItemRoutes.post_item env st req).1 = items st
  /\ uploads (ItemRoutes.post_item env st req).1 ⊆ uploads st.
Proof.
  unfold ItemRoutes.post_item, through.
  destruct (Auth.protect env st req) as [user|]; [|intros _; done].
  destruct (Auth.canPerformCRUD (Some user)); [|intros _; done].
  destruct (Upload.processImageUpload st req) as [st1 [f|r]] eqn:Hup.
  2:{ apply processImageUpload_Respond in Hup as [-> _]. intros _. done. }
  apply processImageUpload_Next in Hup as ->.
  assert (Hclean : uploads (Upload.deleteUploadedFile (filename f)
                              (Upload.store_file (filename f) st)) ⊆ uploads st).
  { simpl. intros x [[Hx|Hx]%elem_of_union Hn]%elem_of_difference; [done|exact Hx]. }
  destruct (negb (bool_decide (ItemRoutes.create_check (body req) = [])));
    [intros _; done|].
  destruct (ItemRoutes.create_range (body req)) as [start end_].
  destruct (date_le end_ start); [intros _; done|].
  destruct start as [s|], end_ as [e|]; try (intros _; done).
  destruct (Item_validate _); [|intros _; done].
  simpl. intros Hs. exfalso. apply Hs. reflexivity.
Qed.

(** X14. When [POST /api/items] answers 201, exactly one item was written:
    it carries the two dates and the trimmed note of the request, belongs to
    the acting admin or super admin, is active, has never been updated, ends
    after it starts, has a non-empty note of at most 1000 characters, and
    its uploaded file is on disk. *)
Theorem post_item_created env st req st' r :
  ItemRoutes.post_item env st req = (st', r) ->
  status r = 201 ->
  exists actor f item,
    Auth.protect env st req = Next actor
    /\ role actor ∈ ["admin"; "super_admin"]
    /\ multipart_file req = Some f
    /\ items st' = <[item_id item := item]> (items st)
    /\ users st' = users st
    /\ Date_parse (default "" (body_startDate (body req))) = Some (dateRange_start item)
    /\ Date_parse (default "" (body_endDate (body req))) = Some (dateRange_end item)
    /\ note item = trim (default "" (body_note (body req)))
    /\ createdBy item = _id actor
    /\ updatedBy item = None
    /\ item_isActive item = true
    /\ dateRange_start item < dateRange_end item
    /\ note item <> "" /\ (String.length (note item) <= 1000)%nat
    /\ filename f ∈ uploads st'.
Proof.
  intros Hrun H201. unfold ItemRoutes.post_item, Auth.canPerformCRUD in Hrun.
  apply through_auth in Hrun as (actor & Hp & Hrole & Hk); [|lia..].
  exists actor.
  destruct (Upload.processImageUpload st req) as [st1 [f|r0]] eqn:Hup.
  2:{ apply processImageUpload_Respond in Hup as [_ Hs].
      unfold through in Hk. simplify_eq. lia. }
  pose proof (processImageUpload_file _ _ _ _ Hup) as Hf.
  apply processImageUpload_Next in Hup as ->.
  unfold through in Hk. cbv beta iota in Hk. exists f.
  destruct (negb (bool_decide (ItemRoutes.create_check (body req) = [])));
    [simplify_eq/=|].
  destruct (ItemRoutes.create_range (body req)) as [start end_] eqn:Hrange.
  unfold ItemRoutes.create_range in Hrange. injection Hrange as Hstart Hend.
  destruct (date_le end_ start); [simplify_eq/=|].
  destruct start as [s|], end_ as [e|]; try (simplify_eq/=; fail).
  destruct (Item_validate _) eqn:Hv; [|simplify_eq/=].
  injection Hk as <- <-.
  eexists. split; [exact Hp|]. split; [exact Hrole|]. split; [exact Hf|].
  split; [reflexivity|]. split; [reflexivity|].
  split; [exact Hstart|]. split; [exact Hend|]. split; [reflexivity|].
  unfold Item_validate in Hv. simpl in Hv.
  repeat (apply andb_true_iff in Hv as [Hv ?]).
  repeat match goal with
         | H : negb (bool_decide _) = true |- _ =>
             apply negb_true_iff, bool_decide_eq_false in H
         end.
  split; [reflexivity|]. split; [reflexivity|]. split; [reflexivity|].
  split; [simpl; lia|]. split; [assumption|].
  split; [simpl; apply Nat.leb_le; assumption|].
  simpl. apply elem_of_union_l, elem_of_singleton. reflexivity.
Qed.

End ItemRouteProperties.

Lemma post_item_failure_clean_witness :
  status (ItemRoutes.post_item (L := Demo.libs) Demo.env Demo.store
            Demo.backwards_offer).2 <> 201
  /\ users (ItemRoutes.post_item (L := Demo.libs) Demo.env Demo.store
              Demo.backwards_offer).1 = users Demo.store
  /\ items (ItemRoutes.post_item (L := Demo.libs) Demo.env Demo.store
              Demo.backwards_offer).1 = items Demo.store
  /\ uploads (ItemRoutes.post_item (L := Demo.libs) Demo.env Demo.store
                Demo.backwards_offer).1 ⊆ uploads Demo.store.
Proof.
  assert (H1 : status (ItemRoutes.post_item (L := Demo.libs) Demo.env Demo.store
                         Demo.backwards_offer).2 <> 201)
    by (vm_compute; discriminate).
  split; [exact H1|].
  exact (post_item_failure_clean (L := Demo.libs) Demo.env Demo.store
           Demo.backwards_offer H1).
Defined.

Lemma post_item_created_witness :
  ItemRoutes.post_item (L := Demo.libs) Demo.env Demo.store Scenario.spring_sale
    = (Scenario.spring_sale_posted, send 201 "Item created successfully")
  /\ status (send 201 "Item created successfully") = 201
  /\ exists actor item,
      Auth.protect (L := Demo.libs) Demo.env Demo.store Scenario.spring_sale = Next actor
      /\ items Scenario.spring_sale_posted = <[item_id item := item]> (items Demo.store)
      /\ createdBy item = _id actor
      /\ dateRange_start item < dateRange_end item.
Proof.
  assert (H1 : ItemRoutes.post_item (L := Demo.libs) Demo.env Demo.store
                 Scenario.spring_sale
               = (Scenario.spring_sale_posted, send 201 "Item created successfully"))
    by (vm_compute; reflexivity).
  assert (H2 : status (send 201 "Item created successfully") = 201) by reflexivity.
  split; [exact H1|]. split; [exact H2|].
  destruct (post_item_created (L := Demo.libs) _ _ _ _ _ H1 H2)
    as (actor & f & item & Hp & _ & _ & Hi & _ & _ & _ & _ & Hc & _ & _ & Hr & _).
  exists actor, item. auto.
Defined.

Section ItemInvariants.
Context {L : Collaborators}.

Lemma findActiveItem_Some st key item :
  findActiveItem st key = Some item ->
  items st !! key = Some item /\ item_isActive item = true.
Proof.
  unfold findActiveItem.
  destruct (items st !! key) as [i|]; [|discriminate].
  destruct (item_isActive i) eqn:Ha; [|discriminate].
  intros [= <-]. auto.
Qed.

(** What [PUT /api/items/:id] writes when it answers 200: the request
    carried no date, and the item is stored with its new note and the id of
    the actor. *)
Lemma put_item_route_written env st req st' r :
  ItemRoutes.put_item_route env st req = (st', r) ->
  status r = 200 ->
  exists actor key item,
    Auth.protect env st req = Next actor
    /\ castObjectId (params_id req) = Some key
    /\ findActiveItem st key = Some item
    /\ ItemRoutes.effective_range item (body req) = None
    /\ st' = set_items
               (<[key := mkItem (item_id item) (image item) (dateRange_start item)
                                (dateRange_end item)
                                (default (note item) (trim <$> body_note (body req)))
                                (createdBy item) (Some (_id actor)) (item_isActive item)
                                (item_createdAt item) (item_updatedAt item)]> (items st))
               st.
Proof.
  intros Hrun H200. unfold ItemRoutes.put_item_route, Auth.canPerformCRUD in Hrun.
  apply through_auth in Hrun as (actor & Hp & _ & Hk); [|lia..].
  exists actor. unfold Upload.validateImageFile, through in Hk. cbv beta iota zeta in Hk.
  destruct (negb (bool_decide (ItemRoutes.update_check req = []))); [simplify_eq/=|].
  destruct (castObjectId (params_id req)) as [key|]; [|simplify_eq/=].
  destruct (findActiveItem st key) as [item|] eqn:Hf; [|simplify_eq/=].
  exists key, item.
  destruct (ItemRoutes.effective_range item (body req)) as [[cs ce]|] eqn:Heff.
  - exfalso. destruct (date_le ce cs) eqn:Hle; [simplify_eq/=|].
    unfold ItemRoutes.image_update in Hk. simpl in Hk.
    destruct (apply_update _ item) as [item'|]; [|simplify_eq/=].
    rewrite (update_validators_dated item _ (cs, ce)) in Hk by reflexivity.
    simplify_eq/=.
  - unfold ItemRoutes.image_update in Hk. simpl in Hk.
    destruct (update_validators _ _); [|simplify_eq/=].
    injection Hk as <- <-. auto.
Qed.

(** When it does not answer 200, [PUT /api/items/:id] changes nothing. *)
Lemma put_item_route_failure env st req :
  status (ItemRoutes.put_item_route env st req).2 <> 200 ->
  (ItemRoutes.put_item_route env st req).1 = st.
Proof.
  unfold ItemRoutes.put_item_route, through.
  destruct (Auth.protect env st req) as [user|]; [|done].
  destruct (Auth.canPerformCRUD (Some user)); [|done].
  unfold Upload.validateImageFile. cbv beta iota zeta.
  destruct (negb _); [done|].
  destruct (castObjectId (params_id req)) as [key|]; [|done].
  destruct (findActiveItem st key) as [item|]; [|done].
  destruct (match ItemRoutes.effective_range item (body req) with
            | Some (currentStart, currentEnd) => date_le currentEnd currentStart
            | None => false end); [done|].
  unfold ItemRoutes.image_update. simpl.
  destruct (apply_update _ item); [|done].
  destruct (update_validators _ _); [|done].
  simpl. intros Hs. exfalso. apply Hs. reflexivity.
Qed.

(** What [DELETE /api/items/:id] writes when it answers 200. *)
Lemma delete_item_written env st req st' r :
  ItemRoutes.delete_item env st req = (st', r) ->
  status r = 200 ->
  exists actor key item,
    Auth.protect env st req = Next actor
    /\ role actor = "super_admin"
    /\ castObjectId (params_id req) = Some key
    /\ findActiveItem st key = Some item
    /\ st' = set_items (<[key := soft_delete_by (_id actor) item]> (items st)) st.
Proof.
  intros Hrun H200. unfold ItemRoutes.delete_item, Auth.canDelete in Hrun.
  apply through_auth in Hrun as (actor & Hp & Hrole & Hk); [|lia..].
  apply list_elem_of_singleton in Hrole.
  exists actor.
  destruct (negb (bool_decide (check (isMongoId (params_id req)) "Invalid item ID" = [])));
    [simplify_eq/=|].
  destruct (castObjectId (params_id req)) as [key|]; [|simplify_eq/=].
  destruct (findActiveItem st key) as [item|] eqn:Hf; [|simplify_eq/=].
  injection Hk as <- <-. exists key, item. auto.
Qed.

(** X15. Every route that writes items keeps the range invariant: if every
    stored item ends after it starts before the request, so it does
    after it, for the create, update and delete routes of the items and for
    the soft delete of a user. *)
Theorem item_routes_keep_ranges (route : item_route) env st req :
  ranges_ok st -> ranges_ok (run_item_route route env st req).1.
Proof.
  intros Hok. unfold ranges_ok in *.
  destruct route; cbn [run_item_route].
  - destruct (post_item_items env st req) as [->|(item & Hv & ->)]; [exact Hok|].
    apply map_Forall_insert_2; [|exact Hok].
    unfold Item_validate in Hv. apply andb_true_iff in Hv as [_ Hv].
    apply Z.ltb_lt, Hv.
  - destruct (ItemRoutes.put_item_route env st req) as [st' r] eqn:Hrun.
    destruct (decide (status r = 200)) as [H200|Hn].
    + destruct (put_item_route_written _ _ _ _ _ Hrun H200)
        as (actor & key & item & _ & _ & Hf & _ & ->).
      apply findActiveItem_Some in Hf as [Hi _].
      simpl. apply map_Forall_insert_2; [|exact Hok]. exact (Hok _ _ Hi).
    + pose proof (put_item_route_failure env st req) as Hc.
      rewrite Hrun in Hc. simpl in Hc |- *. rewrite (Hc Hn). exact Hok.
  - destruct (ItemRoutes.delete_item env st req) as [st' r] eqn:Hrun.
    destruct (decide (status r = 200)) as [H200|Hn].
    + destruct (delete_item_written _ _ _ _ _ Hrun H200)
        as (actor & key & item & _ & _ & _ & Hf & ->).
      apply findActiveItem_Some in Hf as [Hi _].
      simpl. apply map_Forall_insert_2; [|exact Hok]. exact (Hok _ _ Hi).
    + revert Hn. unfold ItemRoutes.delete_item, through in Hrun.
      repeat case_match; simplify_eq/=; try (intros; exact Hok).
      intros Hn. exfalso. apply Hn. reflexivity.
  - unfold UserRoutes.delete_user, through.
    repeat case_match; simpl; try exact Hok.
    intros k i. rewrite lookup_fmap.
    destruct (items st !! k) as [i0|] eqn:Hi; [|discriminate].
    cbn [fmap option_fmap option_map]. specialize (Hok _ _ Hi). cbv beta in Hok.
    destruct (matches item_field _ i0); intros Heq; apply (inj Some) in Heq;
      subst i; exact Hok.
Qed.


End ItemInvariants.

Lemma item_routes_keep_ranges_witness :
  ranges_ok Demo.store
  /\ ranges_ok (ItemRoutes.post_item (L := Demo.libs) Demo.env Demo.store
                  Scenario.spring_sale).1.
Proof.
  assert (H1 : ranges_ok Demo.store).
  { unfold ranges_ok. refine (bool_decide_unpack _ _). vm_compute. exact I. }
  split; [exact H1|].
  exact (item_routes_keep_ranges (L := Demo.libs) PostItem Demo.env Demo.store
           Scenario.spring_sale H1).
Defined.

Section SoftDeletedItems.
Context {L : Collaborators}.

(** X17. After [DELETE /api/items/:id] has answered 200 the item is still
    stored, as it was but for its flag, now down, and the id of the super
    admin who deleted it; the other items, the users and the upload
    directory, where its image file still is, are untouched; and no later
    read, update or delete of the same id, however it is spelled, answers
    200, whoever asks. *)
Theorem deleted_item_unreachable env st req st' r :
  ItemRoutes.delete_item env st req = (st', r) ->
  status r = 200 ->
  (exists actor key item,
      Auth.protect env st req = Next actor
      /\ castObjectId (params_id req) = Some key
      /\ items st !! key = Some item
      /\ items st' !! key
         = Some (mkItem (item_id item) (image item) (dateRange_start item)
                        (dateRange_end item) (note item) (createdBy item)
                        (Some (_id actor)) false (item_createdAt item)
                        (item_updatedAt item))
      /\ forall k, k <> key -> items st' !! k = items st !! k)
  /\ users st' = users st
  /\ uploads st' = uploads st
  /\ forall env' req',
       castObjectId (params_id req') = castObjectId (params_id req) ->
       status (ItemRoutes.get_item env' st' req').2 <> 200
       /\ status (ItemRoutes.put_item_route env' st' req').2 <> 200
       /\ status (ItemRoutes.delete_item env' st' req').2 <> 200.
Proof.
  intros Hrun H200.
  destruct (delete_item_written _ _ _ _ _ Hrun H200)
    as (actor & key & item & Hp & _ & Hkey & Hitem & ->).
  assert (Hgone : findActiveItem
                    (set_items (<[key := soft_delete_by (_id actor) item]> (items st)) st)
                    key = None).
  { unfold findActiveItem. simpl. rewrite lookup_insert_eq. reflexivity. }
  apply findActiveItem_Some in Hitem as [Hitem _].
  split; [|split; [reflexivity|split; [reflexivity|]]].
  { exists actor, key, item. split; [exact Hp|]. split; [exact Hkey|].
    split; [exact Hitem|]. simpl. split; [apply lookup_insert_eq|].
    intros k Hne. apply lookup_insert_ne. congruence. }
  intros env' req' Hid. rewrite Hkey in Hid.
  split; [|split]; intros Hs.
  - destruct (ItemRoutes.get_item env' _ req') as [st2 r2] eqn:Hget.
    unfold ItemRoutes.get_item, Auth.authenticatedUser in Hget.
    apply through_auth in Hget as (u & _ & _ & Hk); [|simpl in Hs; lia..].
    rewrite Hid, Hgone in Hk. destruct (negb _); simplify_eq/=.
  - destruct (ItemRoutes.put_item_route env' _ req') as [st2 r2] eqn:Hput.
    destruct (put_item_route_written _ _ _ _ _ Hput Hs)
      as (? & key' & ? & _ & Hk' & Hf & _).
    congruence.
  - destruct (ItemRoutes.delete_item env' _ req') as [st2 r2] eqn:Hdel.
    destruct (delete_item_written _ _ _ _ _ Hdel Hs)
      as (? & key' & ? & _ & _ & Hk' & Hf & _).
    congruence.
Qed.

End SoftDeletedItems.

Lemma deleted_item_unreachable_witness :
  ItemRoutes.delete_item (L := Demo.libs) Demo.env Demo.store Scenario.delete_sale
    = ((ItemRoutes.delete_item (L := Demo.libs) Demo.env Demo.store Scenario.delete_sale).1,
       send 200 "Item deleted successfully")
  /\ status (send 200 "Item deleted successfully") = 200
  /\ status (ItemRoutes.get_item (L := Demo.libs) Demo.env
               (ItemRoutes.delete_item (L := Demo.libs) Demo.env Demo.store
                  Scenario.delete_sale).1 Scenario.read_sale).2 <> 200.
Proof.
  assert (H1 : ItemRoutes.delete_item (L := Demo.libs) Demo.env Demo.store
                 Scenario.delete_sale
               = ((ItemRoutes.delete_item (L := Demo.libs) Demo.env Demo.store
                     Scenario.delete_sale).1,
                  send 200 "Item deleted successfully"))
    by (vm_compute; reflexivity).
  assert (H2 : status (send 200 "Item deleted successfully") = 200) by reflexivity.
  split; [exact H1|]. split; [exact H2|].
  destruct (deleted_item_unreachable (L := Demo.libs) _ _ _ _ _ H1 H2)
    as (_ & _ & _ & Hno).
  exact (proj1 (Hno Demo.env Scenario.read_sale eq_refl)).
Defined.

Section Accounts.
Context {L : Collaborators}.

(** What [PUT /api/users/:id/toggle-activation] writes when it answers
    200. *)
Lemma toggle_activation_written env st req st' r :
  UserRoutes.toggle_activation env st req = (st', r) ->
  status r = 200 ->
  exists actor key user,
    Auth.protect env st req = Next actor
    /\ params_id req <> _id actor
    /\ castObjectId (params_id req) = Some key
    /\ users st !! key = Some user
    /\ st' = UserRoutes.save env key (set_isActive (negb (isActive user)) user) st.
Proof.
  intros Hrun H200. unfold UserRoutes.toggle_activation, Auth.canManageUsers in Hrun.
  apply through_auth in Hrun as (actor & Hp & _ & Hk); [|lia..].
  exists actor.
  destruct (negb (bool_decide (UserRoutes.id_check req = []))); [simplify_eq/=|].
  destruct (bool_decide (params_id req = _id actor)) eqn:Hself; [simplify_eq/=|].
  apply bool_decide_eq_false in Hself.
  destruct (castObjectId (params_id req)) as [key|]; [|simplify_eq/=].
  destruct (users st !! key) as [user|] eqn:Hu; [|simplify_eq/=].
  injection Hk as <- <-. exists key, user. auto.
Qed.

(** X18. Two successful activation toggles of the same account undo each
    other: the account is stored as it was, but for the time of its last
    update, and nothing else in the stores has moved. *)
Theorem toggle_twice env1 env2 st req1 req2 st1 st2 r1 r2 :
  UserRoutes.toggle_activation env1 st req1 = (st1, r1) -> status r1 = 200 ->
  UserRoutes.toggle_activation env2 st1 req2 = (st2, r2) -> status r2 = 200 ->
  castObjectId (params_id req2) = castObjectId (params_id req1) ->
  exists key user,
    castObjectId (params_id req1) = Some key
    /\ users st !! key = Some user
    /\ st2 = set_users (<[key := touch (now env2) user]> (users st)) st.
Proof.
  intros Hrun1 H1 Hrun2 H2 Hid.
  destruct (toggle_activation_written _ _ _ _ _ Hrun1 H1)
    as (a1 & key & user & _ & _ & Hk1 & Hu & ->).
  destruct (toggle_activation_written _ _ _ _ _ Hrun2 H2)
    as (a2 & key2 & user2 & _ & _ & Hk2 & Hu2 & ->).
  rewrite Hid, Hk1 in Hk2. apply (inj Some) in Hk2. subst key2.
  simpl in Hu2. rewrite lookup_insert_eq in Hu2.
  apply (inj Some) in Hu2. subst user2. exists key, user.
  split; [exact Hk1|]. split; [exact Hu|].
  unfold UserRoutes.save, set_users. simpl.
  rewrite insert_insert_eq. destruct user as [? ? ? ? ? []]; reflexivity.
Qed.

(** X19. The administration routes keep every stored role within the
    schema's three: a role is written only after [isIn] has accepted it. *)
Theorem admin_routes_keep_roles (op : UserRoutes.admin_op) env st req :
  roles_ok st -> roles_ok (UserRoutes.admin_route op env st req).1.
Proof.
  intros Hok. unfold roles_ok in *.
  assert (Hrole : forall b, UserRoutes.role_check b = [] ->
                    default "" (body_role b) ∈ UserRoutes.roles).
  { intros b Hb. unfold UserRoutes.role_check, check in Hb.
    destruct (bool_decide _) eqn:Hd; [|discriminate].
    apply bool_decide_eq_true in Hd. exact Hd. }
  destruct op; cbn [UserRoutes.admin_route];
    unfold UserRoutes.put_user_role, UserRoutes.toggle_activation,
      UserRoutes.put_user_status, UserRoutes.delete_user,
      UserRoutes.put_bulk_roles, through.
  - destruct (Auth.protect env st req) as [actor|]; [|exact Hok].
    destruct (Auth.canManageUsers (Some actor)); [|exact Hok].
    destruct (bool_decide (UserRoutes.id_check req ++ UserRoutes.role_check (body req) = []))
      eqn:He; simpl; [|exact Hok].
    apply bool_decide_eq_true, app_eq_nil in He as [_ He].
    destruct (bool_decide (params_id req = _id actor)); [exact Hok|].
    destruct (castObjectId (params_id req)) as [key|]; [|exact Hok].
    destruct (users st !! key) as [user|] eqn:Hu; [|exact Hok].
    simpl. apply map_Forall_insert_2; [|exact Hok]. simpl. apply Hrole, He.
  - repeat case_match; simpl; try exact Hok;
      (apply map_Forall_insert_2; [|exact Hok]); simpl;
      match goal with H : users st !! _ = Some _ |- _ => exact (Hok _ _ H) end.
  - repeat case_match; simpl; try exact Hok;
      (apply map_Forall_insert_2; [|exact Hok]); simpl;
      match goal with H : users st !! _ = Some _ |- _ => exact (Hok _ _ H) end.
  - repeat case_match; simpl; try exact Hok;
      (apply map_Forall_insert_2; [|exact Hok]); simpl;
      match goal with H : users st !! _ = Some _ |- _ => exact (Hok _ _ H) end.
  - destruct (Auth.protect env st req) as [actor|]; [|exact Hok].
    destruct (Auth.canManageUsers (Some actor)); [|exact Hok].
    match goal with |- context [negb (bool_decide (?e = []))] =>
      destruct (bool_decide (e = [])) eqn:He end; simpl; [|exact Hok].
    apply bool_decide_eq_true in He.
    apply app_eq_nil in He as [_ He]. apply app_eq_nil in He as [_ He].
    destruct (bool_decide (_id actor ∈ _)); [exact Hok|]. simpl.
    intros k u. rewrite lookup_fmap.
    destruct (users st !! k) as [u0|] eqn:Hu; [|discriminate].
    cbn [fmap option_fmap option_map].
    destruct (matches user_field _ u0); intros Heq; apply (inj Some) in Heq; subst u;
      [simpl; apply Hrole, He|exact (Hok _ _ Hu)].
Qed.

End Accounts.

Lemma toggle_twice_witness :
  UserRoutes.toggle_activation (L := Demo.libs) Demo.env Demo.store Scenario.toggle_bob
    = (Scenario.bob_toggled, send 200 "User account deactivated successfully")
  /\ UserRoutes.toggle_activation (L := Demo.libs) Demo.env Scenario.bob_toggled
       Scenario.toggle_bob
     = (Scenario.bob_toggled_twice, send 200 "User account activated successfully")
  /\ exists key user,
      castObjectId (params_id Scenario.toggle_bob) = Some key
      /\ users Demo.store !! key = Some user
      /\ Scenario.bob_toggled_twice
         = set_users (<[key := touch (now Demo.env) user]> (users Demo.store)) Demo.store.
Proof.
  assert (H1 : UserRoutes.toggle_activation (L := Demo.libs) Demo.env Demo.store
                 Scenario.toggle_bob
               = (Scenario.bob_toggled, send 200 "User account deactivated successfully"))
    by (vm_compute; reflexivity).
  assert (H2 : UserRoutes.toggle_activation (L := Demo.libs) Demo.env Scenario.bob_toggled
                 Scenario.toggle_bob
               = (Scenario.bob_toggled_twice,
                  send 200 "User account activated successfully"))
    by (vm_compute; reflexivity).
  split; [exact H1|]. split; [exact H2|].
  exact (toggle_twice (L := Demo.libs) _ _ _ _ _ _ _ _ _ H1 eq_refl H2 eq_refl eq_refl).
Defined.

Lemma admin_routes_keep_roles_witness :
  roles_ok Demo.store
  /\ roles_ok (UserRoutes.put_user_role (L := Demo.libs) Demo.env Demo.store
                 Scenario.promote_bob).1.
Proof.
  assert (H1 : roles_ok Demo.store).
  { unfold roles_ok. refine (bool_decide_unpack _ _). vm_compute. exact I. }
  split; [exact H1|].
  exact (admin_routes_keep_roles (L := Demo.libs) UserRoutes.RoleChange Demo.env
           Demo.store Scenario.promote_bob H1).
Defined.

(** ** Queries *)

Lemma matches_spec {D} (field : string -> D -> option string)
    (query : gmap string Cond) (d : D) :
  matches field query d = true <->
  forall k c, query !! k = Some c ->
              exists v, field k d = Some v /\ cond_holds c v = true.
Proof.
  unfold matches. rewrite forallb_forall. split.
  - intros Hall k c Hk.
    specialize (Hall (k, c)). simpl in Hall.
    destruct (field k d) as [v|].
    + exists v. split; [reflexivity|]. apply Hall.
      apply list_elem_of_In, elem_of_map_to_list, Hk.
    + assert (false = true) as Hf; [|discriminate Hf].
      apply Hall, list_elem_of_In, elem_of_map_to_list, Hk.
  - intros Hall [k c] Hin. simpl.
    apply list_elem_of_In, elem_of_map_to_list in Hin.
    destruct (Hall k c Hin) as (v & -> & Hv). exact Hv.
Qed.

Lemma findOne_Some {D} (field : string -> D -> option string)
    (query : gmap string Cond) (coll : gmap string D) (d : D) :
  findOne field query coll = Some d ->
  exists k, coll !! k = Some d /\ matches field query d = true.
Proof.
  unfold findOne. intros Hf.
  destruct (head _) as [[k d']|] eqn:Hh; [|discriminate]. injection Hf as <-.
  apply head_Some_elem_of, list_elem_of_filter in Hh as [Hm Hin].
  apply elem_of_map_to_list in Hin. eauto.
Qed.

Lemma findOne_None {D} (field : string -> D -> option string)
    (query : gmap string Cond) (coll : gmap string D) :
  findOne field query coll = None <->
  forall k d, coll !! k = Some d -> matches field query d = false.
Proof.
  unfold findOne. split.
  - intros Hf k d Hk.
    destruct (head _) as [x|] eqn:Hh; [discriminate|].
    apply head_None in Hh.
    destruct (matches field query d) eqn:Hm; [|reflexivity].
    assert (Hin : (k, d) ∈ filter (fun kd : string * D => matches field query kd.2 = true)
                                  (map_to_list coll)).
    { apply list_elem_of_filter. split; [exact Hm|]. apply elem_of_map_to_list, Hk. }
    rewrite Hh in Hin. apply elem_of_nil in Hin. destruct Hin.
  - intros Hall. destruct (head _) as [[k d]|] eqn:Hh; [|reflexivity].
    apply head_Some_elem_of, list_elem_of_filter in Hh as [Hm Hin].
    apply elem_of_map_to_list in Hin. simpl in Hm.
    rewrite (Hall k d Hin) in Hm. discriminate.
Qed.

Lemma matches_email (e : string) (u : User) :
  matches user_field (object_literal [("email", CEq e)]) u = bool_decide (email u = e).
Proof. rewrite matches_singleton. reflexivity. Qed.

Lemma matches_email_not_self (e a : string) (u : User) :
  matches user_field (object_literal [("email", CEq e); ("_id", CNe a)]) u
  = bool_decide (email u = e) && negb (bool_decide (_id u = a)).
Proof.
  apply eq_true_iff_eq. rewrite matches_spec, andb_true_iff. split.
  - intros Hall. split.
    + destruct (Hall "email" (CEq e) eq_refl) as (v & [= <-] & Hv). exact Hv.
    + destruct (Hall "_id" (CNe a) eq_refl) as (v & [= <-] & Hv). exact Hv.
  - intros [He Ha] k c Hk.
    unfold object_literal in Hk. simpl in Hk.
    apply lookup_insert_Some in Hk as [[<- <-]|[Hne Hk]].
    { eexists. split; [reflexivity|exact Ha]. }
    apply lookup_insert_Some in Hk as [[<- <-]|[Hne' Hk]].
    { eexists. split; [reflexivity|exact He]. }
    rewrite lookup_empty in Hk. discriminate.
Qed.

(** ** Accounts: registration, login, password, profile *)

Section AccountProperties.
Context {L : Collaborators} {B : PasswordHasher}.

(** What [POST /api/auth/register] writes when it answers 201. *)
Lemma register_written env st req st' r :
  AuthRoutes.register env st req = (st', r) ->
  status r = 201 ->
  let b := body req in
  let e := normalizeEmail (default "" (body_email b)) in
  let user := mkUser (new_ObjectId (now env)) (trim (default "" (body_name b)))
                     (toLowerCase e) (bcrypt_hash (default "" (body_password b)))
                     "user" true (now env) (now env) in
  AuthRoutes.register_check b = []
  /\ e <> ""
  /\ findOne user_field (object_literal [("email", CEq e)]) (users st) = None
  /\ findOne user_field (object_literal [("email", CEq (toLowerCase e))]) (users st)
     = None
  /\ _id user <> ""
  /\ truthy (JWT_SECRET env) <> None
  /\ st' = set_users (<[_id user := user]> (users st)) st.
Proof.
  intros Hrun H201 b e user. unfold AuthRoutes.register in Hrun. fold b e in Hrun.
  destruct (bool_decide (AuthRoutes.register_check b = [])) eqn:Hc;
    simpl in Hrun; [|simplify_eq/=].
  apply bool_decide_eq_true in Hc.
  destruct (bool_decide (trim (default "" (body_name b)) = "")); [simplify_eq/=|].
  destruct (bool_decide (e = "")) eqn:He; [simplify_eq/=|].
  apply bool_decide_eq_false in He.
  destruct (bool_decide (default "" (body_password b) = "")); [simplify_eq/=|].
  simpl in Hrun.
  destruct (findOne user_field (object_literal [("email", CEq e)]) (users st))
    eqn:Hf1; [simplify_eq/=|].
  destruct (negb _); [unfold Auth.sendErrorResponse in Hrun; simplify_eq/=|].
  destruct (findOne user_field (object_literal [("email", CEq (toLowerCase e))])
              (users st)) eqn:Hf2.
  { rewrite bool_decide_eq_true_2 in Hrun by eauto.
    unfold Auth.sendErrorResponse in Hrun. simplify_eq/=. }
  rewrite bool_decide_eq_false_2 in Hrun by (intros [? ?]; discriminate).
  unfold AuthRoutes.generateToken in Hrun. cbn [_id] in Hrun.
  destruct (bool_decide (new_ObjectId (now env) = "")) eqn:Hid;
    [unfold Auth.sendErrorResponse in Hrun; simplify_eq/=|].
  apply bool_decide_eq_false in Hid.
  destruct (truthy (JWT_SECRET env)) eqn:Hs;
    [|unfold Auth.sendErrorResponse in Hrun; simplify_eq/=].
  injection Hrun as <- <-. repeat split; auto.
Qed.


(** The store that a registration leaves: the one it found, or that one
    with the new account, which happens also when the token cannot be
    signed. *)
Lemma register_store env st req :
  let b := body req in
  let e := normalizeEmail (default "" (body_email b)) in
  let user := mkUser (new_ObjectId (now env)) (trim (default "" (body_name b)))
                     (toLowerCase e) (bcrypt_hash (default "" (body_password b)))
                     "user" true (now env) (now env) in
  (AuthRoutes.register env st req).1 = st
  \/ (findOne user_field (object_literal [("email", CEq (toLowerCase e))])
         (users st) = None
      /\ (AuthRoutes.register env st req).1
         = set_users (<[_id user := user]> (users st)) st).
Proof.
  intros b e user. unfold AuthRoutes.register. fold b e.
  destruct (negb (bool_decide (AuthRoutes.register_check b = []))); [left; reflexivity|].
  destruct (_ || _); [left; reflexivity|].
  destruct (findOne user_field (object_literal [("email", CEq e)]) (users st));
    [left; reflexivity|].
  destruct (negb _); [left; reflexivity|].
  destruct (findOne user_field (object_literal [("email", CEq (toLowerCase e))])
              (users st)) eqn:Hf2.
  { rewrite bool_decide_eq_true_2 by eauto. left. reflexivity. }
  rewrite bool_decide_eq_false_2 by (intros [? ?]; discriminate).
  right. split; [reflexivity|].
  destruct (AuthRoutes.generateToken env _); reflexivity.
Qed.

(** X21. Registration keeps the addresses of the accounts distinct,
    whatever it answers. *)
Theorem register_keeps_emails_unique env st req :
  emails_unique st -> emails_unique (AuthRoutes.register env st req).1.
Proof.
  intros Hok.
  destruct (register_store env st req) as [->|[Hf ->]]; [exact Hok|].
  rewrite findOne_None in Hf. unfold emails_unique. cbn [users set_users _id].
  intros k1 k2 u1 u2. rewrite !lookup_insert.
  repeat case_decide; subst; intros H1 H2 He; try reflexivity.
  - exfalso. injection H1 as <-. specialize (Hf _ _ H2). rewrite matches_email in Hf.
    apply bool_decide_eq_false in Hf. simpl in He. congruence.
  - exfalso. injection H2 as <-. specialize (Hf _ _ H1). rewrite matches_email in Hf.
    apply bool_decide_eq_false in Hf. simpl in He. congruence.
  - exact (Hok _ _ _ _ H1 H2 He).
Qed.

(** X22. The account is stored before the token is signed: a registration
    that passes every check while the signing secret is not set stores the
    new account and answers 500. *)
Theorem register_without_secret env st req :
  truthy (JWT_SECRET env) = None ->
  status (AuthRoutes.register env st req).2 <> 400 ->
  new_ObjectId (now env) <> "" ->
  let b := body req in
  let user := mkUser (new_ObjectId (now env)) (trim (default "" (body_name b)))
                     (toLowerCase (normalizeEmail (default "" (body_email b))))
                     (bcrypt_hash (default "" (body_password b)))
                     "user" true (now env) (now env) in
  status (AuthRoutes.register env st req).2 = 500
  /\ users (AuthRoutes.register env st req).1 !! _id user = Some user.
Proof.
  intros Hs H400 Hid b user. revert H400. unfold AuthRoutes.register. fold b.
  destruct (negb (bool_decide (AuthRoutes.register_check b = [])));
    [intros H; exfalso; apply H; reflexivity|].
  destruct (_ || _); [intros H; exfalso; apply H; reflexivity|].
  destruct (findOne _ _ _); [intros H; exfalso; apply H; reflexivity|].
  destruct (negb _); [intros H; exfalso; apply H; reflexivity|].
  destruct (bool_decide _); [intros H; exfalso; apply H; reflexivity|].
  unfold AuthRoutes.generateToken. cbn [_id].
  rewrite (bool_decide_eq_false_2 _ Hid), Hs. intros _.
  split; [reflexivity|]. cbn [fst users set_users]. apply lookup_insert_eq.
Qed.

(** X23. Register, then log in: after a registration that answered 201,
    the same address and password log in with a 200, provided the hasher
    accepts the password it hashed, the normalized address is in lower case
    and the signing secret is set. *)
Theorem register_then_login env st req st' r env' :
  AuthRoutes.register env st req = (st', r) ->
  status r = 201 ->
  (let e := normalizeEmail (default "" (body_email (body req))) in
   toLowerCase e = e) ->
  (let p := default "" (body_password (body req)) in
   bcrypt_compare p (bcrypt_hash p) = true) ->
  truthy (JWT_SECRET env') <> None ->
  Session.login env' st' req = (st', send 200 "Login successful").
Proof.
  intros Hrun H201 Hlow Hcmp Hsecret. simpl in Hlow, Hcmp.
  destruct (register_written _ _ _ _ _ Hrun H201)
    as (Hc & He & Hf & _ & Hid & _ & ->).
  set (e := normalizeEmail (default "" (body_email (body req)))) in *.
  set (p := default "" (body_password (body req))) in *.
  set (user := mkUser (new_ObjectId (now env)) (trim (default "" (body_name (body req))))
                      (toLowerCase e) (bcrypt_hash p) "user" true
                      (now env) (now env)) in *.
  assert (Hp : p <> "").
  { intros Hp. apply (weak_password_register_check (body req)); [|exact Hc].
    left. fold p. rewrite Hp. simpl. lia. }
  assert (Hmail : isEmail (default "" (body_email (body req))) = true).
  { unfold AuthRoutes.register_check in Hc.
    apply app_eq_nil in Hc as [_ Hc]. apply app_eq_nil in Hc as [_ Hc].
    apply app_eq_nil in Hc as [Hc _]. unfold check in Hc.
    destruct (isEmail _); [reflexivity|discriminate]. }
  unfold Session.login, Session.login_check. fold e p.
  rewrite Hmail, (bool_decide_eq_false_2 _ Hp),
    (bool_decide_eq_false_2 _ He). simpl.
  assert (Hfound : findOne user_field (object_literal [("email", CEq e)])
                     (<[_id user := user]> (users st)) = Some user).
  { destruct (findOne user_field (object_literal [("email", CEq e)])
                (<[_id user := user]> (users st))) as [d|] eqn:Hd.
    - apply findOne_Some in Hd as (k & Hk & Hm).
      apply lookup_insert_Some in Hk as [[_ <-]|[_ Hk]]; [reflexivity|].
      rewrite findOne_None in Hf. rewrite (Hf _ _ Hk) in Hm. discriminate.
    - rewrite findOne_None in Hd.
      specialize (Hd (_id user) user (lookup_insert_eq _ _ _)).
      rewrite matches_email in Hd. apply bool_decide_eq_false in Hd.
      exfalso. apply Hd. exact Hlow. }
  cbn [_id user] in Hfound. rewrite Hfound. cbn [isActive password user negb].
  rewrite Hcmp. cbn [negb].
  unfold AuthRoutes.generateToken. cbn [_id user].
  rewrite (bool_decide_eq_false_2 _ Hid).
  destruct (truthy (JWT_SECRET env')); [reflexivity|congruence].
Qed.

(** X24. A login attempt for an address that no account has and one with a
    wrong password for an active account receive the same answer, and a
    login never writes; a deactivated account, on the other hand, is told
    so before its password is looked at. *)
Theorem login_does_not_tell env st req1 req2 user :
  Session.login_check (body req1) = [] ->
  Session.login_check (body req2) = [] ->
  normalizeEmail (default "" (body_email (body req1))) <> "" ->
  normalizeEmail (default "" (body_email (body req2))) <> "" ->
  findOne user_field
    (object_literal [("email", CEq (normalizeEmail (default "" (body_email (body req1)))))])
    (users st) = None ->
  findOne user_field
    (object_literal [("email", CEq (normalizeEmail (default "" (body_email (body req2)))))])
    (users st) = Some user ->
  bcrypt_compare (default "" (body_password (body req2))) (password user) = false ->
  Session.login env st req1 = (st, send 401 "Invalid email or password")
  /\ (isActive user = true ->
      Session.login env st req2 = (st, send 401 "Invalid email or password"))
  /\ (isActive user = false ->
      Session.login env st req2
      = (st, send 401 "Your account has been deactivated. Please contact administrator.")).
Proof.
  intros Hc1 Hc2 He1 He2 Hf1 Hf2 Hcmp.
  assert (Hpw : forall req, Session.login_check (body req) = [] ->
                  bool_decide (default "" (body_password (body req)) = "") = false).
  { intros req Hc. unfold Session.login_check in Hc.
    apply app_eq_nil in Hc as [_ Hc]. unfold check in Hc.
    destruct (bool_decide _); [discriminate|reflexivity]. }
  unfold Session.login.
  rewrite Hc1, Hc2, (Hpw _ Hc1), (Hpw _ Hc2),
    (bool_decide_eq_false_2 _ He1), (bool_decide_eq_false_2 _ He2), Hf1, Hf2, Hcmp.
  simpl. split; [reflexivity|]. split; intros ->; reflexivity.
Qed.

End AccountProperties.

Lemma weak_password_fails (p : string) :
  AuthRoutes.weak_password p ->
  (6 <=? String.length p)%nat && AuthRoutes.password_pattern p = false.
Proof.
  intros Hw.
  pose (b := mkBody None None (Some p) None None None None None None).
  pose proof (weak_password_checked b Hw) as Hc.
  destruct ((6 <=? String.length p)%nat && AuthRoutes.password_pattern p) eqn:Hb;
    [|reflexivity].
  exfalso. apply Hc. apply password_check_nil. simpl.
  apply andb_true_iff in Hb. exact Hb.
Qed.

Section PasswordAndProfile.
Context {L : Collaborators} {B : PasswordHasher}.

(** X25. [PUT /api/auth/password] writes only when it answers 200, and then
    the acting user gave the current password, the new one is not weak, and
    the only paths of the account that changed are the password, which holds
    the hash of the new one (or the stored hash itself, if that is what was
    sent), and the time of the last update. *)
Theorem change_password_effect env st req c st' r :
  Session.change_password env st req c = (st', r) ->
  (status r <> 200 -> st' = st)
  /\ (status r = 200 ->
      exists actor user,
        Auth.protect env st req = Next actor
        /\ users st !! _id actor = Some user
        /\ bcrypt_compare (default "" (currentPassword c)) (password user) = true
        /\ ~ AuthRoutes.weak_password (default "" (newPassword c))
        /\ st' = set_users
                   (<[_id actor :=
                        mkUser (_id user) (name user) (email user)
                          (if bool_decide (default "" (newPassword c) = password user)
                           then password user
                           else bcrypt_hash (default "" (newPassword c)))
                          (role user) (isActive user) (createdAt user) (now env)]>
                      (users st)) st).
Proof.
  intros Hrun. unfold Session.change_password, through in Hrun.
  destruct (Auth.protect env st req) as [actor|r0] eqn:Hp.
  2:{ injection Hrun as <- <-. split; [reflexivity|].
      intros Hs. apply protect_Respond_status in Hp. lia. }
  destruct (bool_decide (Session.password_change_check c = [])) eqn:Hc;
    simpl in Hrun; [|injection Hrun as <- <-; split; [reflexivity|discriminate]].
  apply bool_decide_eq_true in Hc.
  destruct (users st !! _id actor) as [user|] eqn:Hu;
    [|injection Hrun as <- <-; split; [reflexivity|discriminate]].
  destruct (bcrypt_compare _ (password user)) eqn:Hcmp; simpl in Hrun;
    [|injection Hrun as <- <-; split; [reflexivity|discriminate]].
  unfold Session.password_change_check in Hc.
  apply app_eq_nil in Hc as [_ Hc]. apply app_eq_nil in Hc as [Hlen Hpat].
  unfold check in Hlen, Hpat.
  destruct (6 <=? String.length (default "" (newPassword c)))%nat eqn:Hl;
    [|discriminate].
  destruct (AuthRoutes.password_pattern (default "" (newPassword c))) eqn:Hpt;
    [|discriminate].
  unfold Session.save_password in Hrun. rewrite Hl in Hrun. simpl in Hrun.
  injection Hrun as <- <-. split; [intros Hs; exfalso; apply Hs; reflexivity|].
  intros _. exists actor, user. repeat split; auto.
  intros Hw. apply weak_password_fails in Hw. rewrite Hl, Hpt in Hw. discriminate.
Qed.

(** What [PUT /api/auth/profile] does when it does not answer 200, and what
    it writes when it does. *)
Lemma update_profile_effect env st req st' r :
  Session.update_profile env st req = (st', r) ->
  (status r <> 200 -> st' = st)
  /\ (status r = 200 ->
      exists actor user,
        Auth.protect env st req = Next actor
        /\ users st !! _id actor = Some user
        /\ let newName := truthy (trim <$> body_name (body req)) in
           let stored :=
             toLowerCase <$> truthy (normalizeEmail <$> body_email (body req)) in
           match stored with
           | Some e =>
               findOne user_field
                 (object_literal [("email", CEq e); ("_id", CNe (_id actor))])
                 (users st) = None
           | None => True
           end
           /\ st' = set_users (<[_id actor := set_profile newName stored user]> (users st))
                      st).
Proof.
  intros Hrun. unfold Session.update_profile, through in Hrun.
  destruct (Auth.protect env st req) as [actor|r0] eqn:Hp.
  2:{ injection Hrun as <- <-. split; [reflexivity|].
      intros Hs. apply protect_Respond_status in Hp. lia. }
  destruct (negb (bool_decide (Session.profile_check (body req) = [])));
    [injection Hrun as <- <-; split; [reflexivity|discriminate]|].
  cbv zeta in Hrun.
  destruct (match truthy (normalizeEmail <$> body_email (body req)) with
            | Some e => bool_decide (is_Some (findOne user_field
                          (object_literal [("email", CEq e); ("_id", CNe (_id actor))])
                          (users st)))
            | None => false end);
    [injection Hrun as <- <-; split; [reflexivity|discriminate]|].
  destruct (negb _);
    [unfold Auth.sendErrorResponse in Hrun; injection Hrun as <- <-;
     split; [reflexivity|discriminate]|].
  destruct (users st !! _id actor) as [user|] eqn:Hu;
    [|injection Hrun as <- <-; split; [reflexivity|discriminate]].
  destruct (toLowerCase <$> truthy (normalizeEmail <$> body_email (body req)))
    as [e|] eqn:Hst.
  - destruct (findOne user_field
                (object_literal [("email", CEq e); ("_id", CNe (_id actor))]) (users st))
      eqn:Hf.
    + rewrite bool_decide_eq_true_2 in Hrun by eauto.
      unfold Auth.sendErrorResponse in Hrun. injection Hrun as <- <-.
      split; [reflexivity|discriminate].
    + rewrite bool_decide_eq_false_2 in Hrun by (intros [? ?]; discriminate).
      injection Hrun as <- <-. split; [intros Hs; exfalso; apply Hs; reflexivity|].
      intros _. exists actor, user. cbv zeta. repeat split; auto.
  - injection Hrun as <- <-. split; [intros Hs; exfalso; apply Hs; reflexivity|].
    intros _. exists actor, user. cbv zeta. repeat split; auto.
Qed.

(** X26. A profile update keeps the addresses of the accounts distinct, in
    a store where every account is stored under its own id. *)
Theorem update_profile_keeps_emails_unique env st req :
  ids_ok st -> emails_unique st ->
  emails_unique (Session.update_profile env st req).1.
Proof.
  intros Hids Hok.
  destruct (Session.update_profile env st req) as [st' r] eqn:Hrun.
  destruct (update_profile_effect _ _ _ _ _ Hrun) as [Hfail Hdone].
  destruct (decide (status r = 200)) as [H200|Hn];
    [|cbn [fst]; rewrite (Hfail Hn); exact Hok].
  destruct (Hdone H200) as (actor & user & _ & Hu & Hfree & ->). cbv zeta in Hfree.
  unfold emails_unique. cbn [fst users set_users].
  destruct (toLowerCase <$> truthy (normalizeEmail <$> body_email (body req)))
    as [e|].
  - rewrite findOne_None in Hfree.
    assert (Hother : forall k u, users st !! k = Some u -> k <> _id actor -> email u <> e).
    { intros k u Hk Hne He. specialize (Hfree _ _ Hk).
      rewrite matches_email_not_self in Hfree.
      rewrite (bool_decide_eq_true_2 _ He) in Hfree. simpl in Hfree.
      apply negb_false_iff, bool_decide_eq_true in Hfree.
      apply Hne. rewrite <- Hfree. symmetry. exact (Hids _ _ Hk). }
    intros k1 k2 u1 u2. rewrite !lookup_insert.
    repeat case_decide; subst; intros H1 H2 He; simplify_eq/=; try reflexivity.
    + exfalso. exact (Hother _ _ H2 ltac:(congruence) ltac:(congruence)).
    + exfalso. exact (Hother _ _ H1 ltac:(congruence) ltac:(congruence)).
    + exact (Hok _ _ _ _ H1 H2 He).
  - intros k1 k2 u1 u2. rewrite !lookup_insert.
    repeat case_decide; subst; intros H1 H2 He; simplify_eq/=; try reflexivity.
    + exact (Hok _ _ _ _ Hu H2 He).
    + exact (Hok _ _ _ _ H1 Hu He).
    + exact (Hok _ _ _ _ H1 H2 He).
Qed.

End PasswordAndProfile.

(** The small store satisfies the invariants. *)
Lemma emails_unique_pairwise (st : Store) :
  map_Forall (fun k1 u1 =>
    map_Forall (fun k2 u2 => email u1 = email u2 -> k1 = k2) (users st)) (users st) ->
  emails_unique st.
Proof. intros H k1 k2 u1 u2 H1 H2 He. exact (H k1 u1 H1 k2 u2 H2 He). Qed.

Lemma Demo_store_emails_unique : emails_unique Demo.store.
Proof.
  apply emails_unique_pairwise. refine (bool_decide_unpack _ _). vm_compute. exact I.
Qed.

Lemma Demo_store_ids_ok : ids_ok Demo.store.
Proof. unfold ids_ok. refine (bool_decide_unpack _ _). vm_compute. exact I. Qed.


Lemma register_keeps_emails_unique_witness :
  emails_unique Demo.store
  /\ emails_unique (AuthRoutes.register (L := Demo.libs) Demo.env Demo.store
                      Scenario.dan_register).1.
Proof.
  split; [exact Demo_store_emails_unique|].
  exact (register_keeps_emails_unique (L := Demo.libs) Demo.env Demo.store
           Scenario.dan_register Demo_store_emails_unique).
Defined.

Lemma register_without_secret_witness :
  truthy (JWT_SECRET Scenario.no_secret) = None
  /\ status (AuthRoutes.register (L := Demo.libs) Scenario.no_secret Demo.store
               Scenario.dan_register).2 <> 400
  /\ new_ObjectId (Collaborators := Demo.libs) (now Scenario.no_secret) <> ""
  /\ status (AuthRoutes.register (L := Demo.libs) Scenario.no_secret Demo.store
               Scenario.dan_register).2 = 500
  /\ is_Some (users (AuthRoutes.register (L := Demo.libs) Scenario.no_secret Demo.store
                       Scenario.dan_register).1 !! "65a000000000000000000099").
Proof.
  assert (H1 : truthy (JWT_SECRET Scenario.no_secret) = None) by reflexivity.
  assert (H2 : status (AuthRoutes.register (L := Demo.libs) Scenario.no_secret Demo.store
                         Scenario.dan_register).2 <> 400)
    by (vm_compute; discriminate).
  assert (H3 : new_ObjectId (Collaborators := Demo.libs) (now Scenario.no_secret) <> "")
    by discriminate.
  split; [exact H1|]. split; [exact H2|]. split; [exact H3|].
  destruct (register_without_secret (L := Demo.libs) Scenario.no_secret Demo.store
              Scenario.dan_register H1 H2 H3) as [H500 Hstored].
  split; [exact H500|]. eexists. exact Hstored.
Defined.

Lemma register_then_login_witness :
  AuthRoutes.register (L := Demo.libs) Demo.env Demo.store Scenario.dan_register
    = (Scenario.dan_registered, send 201 "User registered successfully")
  /\ status (send 201 "User registered successfully") = 201
  /\ truthy (JWT_SECRET Demo.env) <> None
  /\ Session.login (L := Demo.libs) (B := Scenario.hasher) Demo.env
       Scenario.dan_registered Scenario.dan_register
     = (Scenario.dan_registered, send 200 "Login successful").
Proof.
  assert (H1 : AuthRoutes.register (L := Demo.libs) Demo.env Demo.store
                 Scenario.dan_register
               = (Scenario.dan_registered, send 201 "User registered successfully"))
    by (vm_compute; reflexivity).
  assert (H2 : status (send 201 "User registered successfully") = 201) by reflexivity.
  assert (H3 : truthy (JWT_SECRET Demo.env) <> None) by discriminate.
  split; [exact H1|]. split; [exact H2|]. split; [exact H3|].
  apply (register_then_login (L := Demo.libs) (B := Scenario.hasher) Demo.env Demo.store
           Scenario.dan_register _ _ Demo.env H1 H2).
  - vm_compute. reflexivity.
  - vm_compute. reflexivity.
  - exact H3.
Defined.

Lemma login_does_not_tell_witness :
  Session.login (L := Demo.libs) (B := Scenario.hasher) Demo.env Demo.store
    Scenario.login_nobody
    = (Demo.store, send 401 "Invalid email or password")
  /\ (isActive Demo.bob = true ->
      Session.login (L := Demo.libs) (B := Scenario.hasher) Demo.env Demo.store
        Scenario.login_bob_wrong
      = (Demo.store, send 401 "Invalid email or password")).
Proof.
  destruct (login_does_not_tell (L := Demo.libs) (B := Scenario.hasher) Demo.env
              Demo.store Scenario.login_nobody Scenario.login_bob_wrong Demo.bob)
    as (Hn & Hw & _).
  - vm_compute. reflexivity.
  - vm_compute. reflexivity.
  - vm_compute. discriminate.
  - vm_compute. discriminate.
  - vm_compute. reflexivity.
  - vm_compute. reflexivity.
  - vm_compute. reflexivity.
  - split; [exact Hn|exact Hw].
Defined.

Lemma change_password_effect_witness :
  Session.change_password (L := Demo.libs) (B := Scenario.hasher) Demo.env Demo.store
    Demo.bob_request Scenario.bob_new_password
    = (Scenario.bob_password_changed, send 200 "Password changed successfully")
  /\ exists actor user,
      Auth.protect (L := Demo.libs) Demo.env Demo.store Demo.bob_request = Next actor
      /\ users Demo.store !! _id actor = Some user
      /\ bcrypt_compare (PasswordHasher := Scenario.hasher)
           (default "" (currentPassword Scenario.bob_new_password)) (password user)
         = true
      /\ ~ AuthRoutes.weak_password (default "" (newPassword Scenario.bob_new_password)).
Proof.
  assert (H1 : Session.change_password (L := Demo.libs) (B := Scenario.hasher) Demo.env
                 Demo.store Demo.bob_request Scenario.bob_new_password
               = (Scenario.bob_password_changed,
                  send 200 "Password changed successfully"))
    by (vm_compute; reflexivity).
  split; [exact H1|].
  destruct (proj2 (change_password_effect (L := Demo.libs) (B := Scenario.hasher)
                     Demo.env Demo.store Demo.bob_request Scenario.bob_new_password
                     _ _ H1) eq_refl)
    as (actor & user & Hp & Hu & Hcmp & Hnw & _).
  exists actor, user. auto.
Defined.

Lemma update_profile_keeps_emails_unique_witness :
  ids_ok Demo.store
  /\ emails_unique Demo.store
  /\ status (Session.update_profile (L := Demo.libs) Demo.env Demo.store
               Scenario.bob_profile).2 = 200
  /\ emails_unique (Session.update_profile (L := Demo.libs) Demo.env Demo.store
                      Scenario.bob_profile).1.
Proof.
  split; [exact Demo_store_ids_ok|]. split; [exact Demo_store_emails_unique|].
  split; [vm_compute; reflexivity|].
  exact (update_profile_keeps_emails_unique (L := Demo.libs) Demo.env Demo.store
           Scenario.bob_profile Demo_store_ids_ok Demo_store_emails_unique).
Defined.

